(* ===== verification/_CoqProject ===== *)
-Q . S2P
Prelude.v
PyStr.v
PyFloat.v
Qt.v
Runner.v
Progress.v
Packages.v
Delegate.v
Commands.v
Dialogs.v
ConfigForm.v
Terminal.v
Batch.v
Wizard.v
WizardV2.v
