(* ===== verification/Prelude.v ===== *)
(** * A verification development of MasterLinux (ISO Master Builder)

    The program (src/) is a PyQt6 wizard that extracts a base ISO image,
    customises the extracted tree through external commands run in a
    chroot, and rebuilds a bootable ISO with xorriso.  Two versions of the
    wizard exist side by side:
    - src/MasterLinux.py (imports src/threads.py, src/package_models.py,
      src/widgets.py, src/dialogs.py): eight steps, package removal one
      package at a time (steps 5 and 6), a chroot terminal (step 4);
    - src/MasterLinux_v2.py: the same modules pasted into one file, with
      its own CommandRunnerThread, a QStackedWidget of six pages and a
      configuration batch (step 4) run command by command.

    Parts of the program and how they interact:
    - the Process Runner ([CommandRunnerThread.run]) builds the final argv
      (chroot and shell wrapping), launches one process, streams its output
      as signals and emits one finished signal with the return code (the
      v2 variant reads only stdout in its loop, and hangs on a process
      that fills the stderr pipe);
    - the Progress Parsers ([_process_extraction_output],
      [_process_iso_recreation_output]) turn output chunks into progress
      bar values;
    - the Package Model ([PackageListModel], [PackageSortFilterProxyModel])
      and the apt listing parsers fill and query the package tables;
    - the Batch Sequencers ([_execute_package_removal] /
      [_remove_next_package] / [_handle_single_package_removal] in v1,
      [_execute_package_modifications] / [_execute_next_modification_command]
      / [_handle_modification_command_finished] in v2) run a list of
      commands one by one, driven by the runner's finished signal;
    - the Stage Pipelines ([go_to_next_step], [go_to_previous_step],
      [go_to_step] and the *_finished slots) are the wizard state machines
      that start extraction, batches and repackaging.

    Files of the development (in dependency order):
    - [Prelude]  (this file): Python's exception results as a sum type
      with its notation, Python list indexing with negative indices,
      the shared tactics, the hint database [ml] and the rewrite database
      [ml_rw].
    - [PyStr]: the Python [str] methods the code calls ([in], [split],
      [split()], [strip], [startswith], [endswith], [rfind], [lower],
      [join], [int]) on byte strings, with their round-trip lemmas.
    - [PyFloat]: Python's float true division and [int()] truncation on
      IEEE-754 binary64, through the Standard Library's [SpecFloat].
    - [Qt]: the widget state the core reads and writes (progress bars
      with Qt's out-of-range rule, spin boxes that clamp to their range,
      combo boxes, enabled/visible buttons) and the
      [ElidedLabel] of src/widgets.py, whose [text()] is the elided text
      (the font metrics are an argument [elide]; [elide_middle] is a
      concrete middle elision for the sessions).
    - [Runner]: both CommandRunnerThread variants (threads.py and the one
      of MasterLinux_v2.py): argv construction, the read loop with the
      stop flag, the stderr pipe filling while that loop reads only
      stdout ([pipe_capacity], [stdout_before_block], [v2_hangs]), the
      emitted signals.
    - [Progress]: the two progress parsers.
    - [Packages]: the package table model ([data], [setData], [flags],
      [headerData]), its filter with the proxy row mapping
      ([mapToSource]), the apt listing parsers.
    - [Delegate]: [CenteredIconDelegate.paint] of both versions, with
      Qt 6's [QRect] ([adjusted], [center], [moveCenter] with C++'s
      truncating division): the check box rectangle it computes and the
      failing [drawControl] call.
    - [Commands]: the commands the wizards build and the synchronous
      commands they run: the file system ([fsys]: a [gset] of directories
      and a [gmap] of files) with [os.makedirs], [shutil.copy] and append;
      [_extract_iso]'s argv, [get_compression_options], the re-creation
      argv and the boot-logo installation of [_start_iso_recreation],
      [browse_output_iso_location], [_populate_iso_info],
      [show_kernel_selection] and the batch of [_apply_package_changes].
    - [Dialogs]: the three dialogs of src/dialogs.py (Module [Preseed],
      [Kernel], [Compression]), each a record of its widgets, its
      [__init__], every method, and the user's inputs while [exec()]
      runs as a list folded over the state; the wizards' dialog slots run
      such a session and read the dialog the way the slot does.
    - [ConfigForm]: the step-4 form of MasterLinux_v2.py as [_init_ui]
      builds it (combo boxes with their fixed items, line edits, check
      boxes), the user's edits of it and the values
      [_apply_package_changes] reads into [Commands.config_form].
    - [Terminal]: the chroot terminal of MasterLinux.py step 4
      ([eventFilter], [_get_terminal_command], [_start_command_execution],
      [_command_execution_finished], [stop_terminal_command],
      [_navigate_command_history]) on a record of its widgets and threads.
    - [Batch]: the two batch sequencers as state records driven by the
      runner's finished signal; the return code of each started thread
      comes through the interface [CommandOutcome], so the theorems hold
      for any outcome and the runner's own instances discharge it.
    - [Wizard] and [WizardV2]: the stage pipelines of both versions, each
      a record of the widget and thread state, one definition per slot,
      an [event] type with the enabling condition of each event (its
      widget's group box is shown, in v2 its page of the stack is the
      current one, and the widget is enabled, or its thread is running;
      the group each widget is in is read off [_init_ui]), the step
      relation [wstep] / [vstep] and an executable [run_events].  Every
      connected slot is an event: the browse buttons (the chosen path is
      the event's argument), the preseed, compression and kernel dialogs,
      the package filter and check boxes, Delete Checked, Open Output
      Folder, navigation, Confirm, Refresh, the terminal keys and the
      threads' output and finished signals.

    External processes are a parameter: the class [ProcessEnv] of [Runner]
    gives, for an argv, either a process (its writes to the stdout and
    stderr pipes, in order, and its return code) or the exception [Popen]
    raises.  The pipe buffer is Linux's default, 64 KiB ([pipe_capacity]):
    a child blocks on a write to a pipe that would exceed it.  Every theorem that runs a
    command holds for every instance; the concrete sessions use small
    instances written out in the files.

    What the theorems show, by group:
    - the runner: the v2 argv refines the spec's invocation shapes; every
      v2 run emits exactly one finished signal last unless its process
      writes more than 64 KiB to stderr, and such a process deadlocks the
      unstopped v2 thread (no finished signal ever) while the threads.py
      runner reports its code; when stderr fits, output is complete and
      ordered; [stop_thread] has no observable effect on a run that
      finishes; the threads.py runner ignores [chroot_path]; without a
      chroot and with stderr within the pipe the two runners are
      equivalent up to the chunking of the text ([sig_equiv], a setoid
      with [Proper] concatenation);
    - the progress parsers: every branch, the unguarded division by zero,
      the binary64 truncation, the bounds of the bar value;
    - the package model and parsers: the listing parse/print round trip,
      the check box, the parser's crash on any one-field line after any
      lines that parse;
    - the batch sequencers: the removal loop's result (statuses, errors,
      bar at 100, purges in order, the loop ended), its invariant on every
      reachable state by rule induction; the v2 batch refines the
      spec's batch contract with the non-fatal policy, and its invariant;
    - the pipelines: the reachable steps (1..8 in v1; 1..3 in v2, which
      can never pass step 4), the concurrency defect of Confirm Removal
      and the crash it leads to, the liveness of the removal step (its
      finished signals always re-enable the navigation), the compression
      slot (the options it stores, its [TypeError] without a CPU count),
      the error paths
      of re-creation and navigation, that re-creation writes the
      elided label text, not the chosen path, into xorriso's [-o], and
      that the ISO can be changed after extraction (the groups of steps
      1 and 2 are never hidden) without touching the extracted tree;
    - the dialogs: the kernel dialog can never return a kernel (its list
      shows the unselectable check column); the compression dialog keeps
      its invariant (custom group shown exactly for ["Custom"], spin
      boxes in range) on every input and refines the spec's compression
      record;
    - the configuration form: the bootstrap's architecture, variant and
      release always come from the combo boxes' items and the locale step
      always runs (the chosen locale itself is never used);
    - the delegate: the check box is a square of the row's height inside
      the cell and on its centre (a bounds theorem on [Z.quot]);
    - the terminal: its well-formedness on every reachable state (rule
      induction over [tstep]), history navigation stays in range, the
      command read back is the one typed, a command runs as one argv,
      stop does not stop the process.

    Bounds and fuel.  The float percentages are checked by evaluation for
    every pair [0 <= a <= b], [1 <= b <= 128] (removal batches of at most
    128 packages) and, for [a = b], up to 65536; the batch drivers take one
    unit of fuel per finished signal, and the batch theorems show that
    [length pkgs] units run a batch to its end.  The batch theorems of
    the v2 configuration batch describe runs whose threads finish: a
    thread hung on a full stderr pipe leaves the batch at its current
    command for good.

    Python strings are modelled as Rocq byte strings holding the UTF-8
    encoding of the Python [str]; substring tests and splits on valid
    UTF-8 coincide with Python's code-point operations.  Whitespace is
    Python's ASCII whitespace (9-13, 28-32); non-ASCII whitespace and
    non-ASCII case mappings are not modelled.

    Not modelled: the widgets' painting and layout (the layout code of
    [_init_ui] and of the dialogs' [__init__], the pixels a style draws,
    the glyph metrics behind [ElidedLabel]), what the code [print]s to
    standard output, sorting by a header click (the proxy keeps the
    source order, as the default sort on the check column is stable),
    the text cursor of the log views, the native file dialogs (the path
    a file dialog returns is an argument of the event), the
    external tools themselves (xorriso, apt-get, chroot, debootstrap),
    which are parameters giving a return code and output per argv, the
    parents [os.makedirs] creates, and the threads' interleaving beyond
    the order of their signals (each signal is one event of the step
    relation).  The copies of src/package_models.py, src/dialogs.py and
    src/widgets.py pasted into MasterLinux_v2.py (75-357) are the same
    code and share their definitions (the two places that differ, [data]
    and [paint], have their own [_v2] definitions); so does v2's
    [CommandRunnerThread.__init__].  The [__main__] blocks only create
    the window, whose state after [__init__] is [wizard_init] /
    [wizard2_init]. *)

From Stdlib Require Export ZArith Lia String Ascii.
From stdpp Require Export base list option strings.

(** stdpp makes [String.append] opaque to [simpl]; the string proofs of
    this development compute with it. *)
#[global] Arguments String.append : simpl nomatch.

Declare Scope py_scope.
Delimit Scope py_scope with py.

(** ** Python exceptions as results *)

(** The exceptions the code raises or catches. *)
Inductive pyexc : Type :=
  | ValueError
  | IndexError
  | ZeroDivisionError
  | OverflowError
  | AttributeError
  | FileNotFoundError
  | CalledProcessError
  | TypeError
  | OtherError.

#[export] Instance pyexc_eq_dec : EqDecision pyexc.
Proof. solve_decision. Defined.

(** A Python computation that returns an [A] or raises. *)
Definition py (A : Type) : Type := (pyexc + A)%type.

Definition py_ret {A} (x : A) : py A := inr x.
Definition py_raise {A} (e : pyexc) : py A := inl e.

Definition py_bind {A B} (c : py A) (k : A -> py B) : py B :=
  match c with
  | inl e => inl e
  | inr x => k x
  end.

Notation "'let?' x ':=' c 'in' k" := (py_bind c (fun x => k))
  (at level 100, x name, c at level 100, k at level 100) : py_scope.

(** [try: c except es: h]: the handler runs for the listed exceptions,
    the others propagate. *)
Definition py_catch {A} (es : list pyexc) (c : py A) (h : pyexc -> A) : py A :=
  match c with
  | inl e => if decide (e ∈ es) then inr (h e) else inl e
  | inr x => inr x
  end.

Lemma py_bind_ret {A B} (x : A) (k : A -> py B) : py_bind (py_ret x) k = k x.
Proof. reflexivity. Qed.

Lemma py_bind_raise {A B} (e : pyexc) (k : A -> py B) :
  py_bind (py_raise e) k = py_raise e.
Proof. reflexivity. Qed.

Lemma py_bind_inr_inv {A B} (c : py A) (k : A -> py B) (y : B) :
  py_bind c k = inr y -> exists x, c = inr x /\ k x = inr y.
Proof. destruct c; simpl; [discriminate | eauto]. Qed.

(** Case analysis on every [if] and [match] of the goal, with equations. *)
Ltac case_if_match :=
  repeat match goal with
  | |- context [if ?b then _ else _] =>
      lazymatch b with context [if _ then _ else _] => fail | _ => destruct b eqn:? end
  | |- context [match ?x with _ => _ end] =>
      lazymatch x with context [match _ with _ => _ end] => fail | _ => destruct x eqn:? end
  end.

(** ** Python list indexing, negative indices included *)

(** [l[i]]: a negative index counts from the end; out of range raises. *)
Definition py_index {A} (l : list A) (i : Z) : py A :=
  let j := if (0 <=? i)%Z then i else (Z.of_nat (length l) + i)%Z in
  if (0 <=? j)%Z then
    match l !! Z.to_nat j with
    | Some x => inr x
    | None => inl IndexError
    end
  else inl IndexError.

Lemma py_index_last {A} (l : list A) (x : A) : py_index (l ++ [x]) (-1) = inr x.
Proof.
  unfold py_index. simpl. rewrite length_app. simpl.
  replace (Z.of_nat (length l + 1) + -1)%Z with (Z.of_nat (length l)) by lia.
  destruct (Z.leb_spec 0 (Z.of_nat (length l))); [| lia].
  rewrite Nat2Z.id, lookup_app_r, Nat.sub_diag by lia. reflexivity.
Qed.

Lemma py_index_nil {A} (i : Z) : py_index (@nil A) i = inl IndexError.
Proof.
  unfold py_index. simpl. case_if_match; reflexivity.
Qed.

Lemma py_index_head {A} (x : A) (l : list A) : py_index (x :: l) 0 = inr x.
Proof. reflexivity. Qed.

Lemma py_index_pair {A} (x y : A) : py_index [x; y] (-2) = inr x /\ py_index [x; y] (-1) = inr y.
Proof. split; reflexivity. Qed.

Lemma py_bind_inr {A B} (x : A) (k : A -> py B) : py_bind (inr x) k = k x.
Proof. reflexivity. Qed.

Lemma py_index_error {A} (l : list A) (i : Z) (e : pyexc) :
  py_index l i = inl e -> e = IndexError.
Proof. unfold py_index. case_if_match; congruence. Qed.

(** A non-negative index in range is the list lookup. *)
Lemma py_index_nat {A} (l : list A) (n : nat) (x : A) :
  l !! n = Some x -> py_index l (Z.of_nat n) = inr x.
Proof.
  intros Hx. unfold py_index. destruct (Z.leb_spec 0 (Z.of_nat n)); [| lia].
  destruct (Z.leb_spec 0 (Z.of_nat n)); [| lia]. by rewrite Nat2Z.id, Hx.
Qed.

(** A [try] whose body raises only listed exceptions does not raise. *)
Lemma py_catch_total {A} (es : list pyexc) (c : py A) (h : pyexc -> A) :
  (forall e, c = inl e -> e ∈ es) -> exists x, py_catch es c h = inr x.
Proof.
  intros He. destruct c as [e|x]; simpl; [| eauto].
  rewrite decide_True by (apply He; reflexivity). eauto.
Qed.

Lemma py_index_ok_in {A} (l : list A) (i : Z) (x : A) :
  py_index l i = inr x -> x ∈ l.
Proof.
  unfold py_index. destruct (0 <=? _)%Z; [| discriminate].
  destruct (l !! _) eqn:E; [| discriminate]. intros [= <-].
  eapply list_elem_of_lookup_2; eauto.
Qed.

(** The first occurrence of [x] removed. *)
Fixpoint remove_one `{EqDecision A} (x : A) (l : list A) : list A :=
  match l with
  | [] => []
  | y :: l' => if decide (x = y) then l' else y :: remove_one x l'
  end.

Lemma remove_one_length `{EqDecision A} (x : A) (l : list A) :
  x ∈ l -> length (remove_one x l) = pred (length l).
Proof.
  induction l as [|y l IH]; simpl; intros Hx; [by apply not_elem_of_nil in Hx |].
  destruct (decide (x = y)); [done |]. apply elem_of_cons in Hx as [-> | Hx]; [done |].
  cbn [length]. rewrite IH by done. destruct l; [by apply not_elem_of_nil in Hx | done].
Qed.

Lemma remove_one_app_l `{EqDecision A} (x : A) (l1 l2 : list A) :
  x ∈ l1 -> remove_one x (l1 ++ l2) = (remove_one x l1 ++ l2)%list.
Proof.
  induction l1 as [|y l1 IH]; simpl; [by intros ?%elem_of_nil |].
  intros [->|Hx]%elem_of_cons; case_decide; subst; try done. by rewrite IH.
Qed.

Lemma remove_one_app_r `{EqDecision A} (x : A) (l1 l2 : list A) :
  x ∉ l1 -> remove_one x (l1 ++ x :: l2) = (l1 ++ l2)%list.
Proof.
  induction l1 as [|y l1 IH]; simpl; intros Hx; [by rewrite decide_True |].
  rewrite decide_False by (intros ->; apply Hx; left). rewrite IH; [done |]. intros ?; apply Hx; by right.
Qed.

(** A property every step keeps holds after a fold over the steps (the
    user's inputs to a dialog). *)
Lemma foldl_invariant {A B} (P : A -> Prop) (Q : B -> Prop) (f : A -> B -> A) (l : list B) (a : A) :
  P a -> (forall x b, Q b -> P x -> P (f x b)) -> Forall Q l -> P (foldl f a l).
Proof.
  intros Ha Hf Hl. revert a Ha. induction Hl as [|b l Hb Hl IH]; simpl; [done |].
  intros a Ha. apply IH, Hf; done.
Qed.

(** ** Shared automation *)

Create HintDb ml discriminated.
Create Rewrite HintDb ml_rw.
#[export] Hint Rewrite @py_bind_ret @py_bind_raise @py_bind_inr @py_index_last @py_index_nil
  @py_index_head : ml_rw.
#[export] Hint Resolve py_index_ok_in : ml.

(** Simplify with the development's rewrite rules. *)
Ltac ml_simpl := repeat (progress (simpl; autorewrite with ml_rw in *)).
