(* ===== verification/PyStr.v ===== *)
(** * Python [str] methods used by the program

    Byte-string models of the [str] operations that the parsers and
    command builders of src/ call: [needle in s], [s.split(sep)],
    [s.split()], [s.strip()], [s.strip(chars)], [s.startswith(p)],
    [s.endswith(p)], [s.rfind(sub)], [s.lower()], [sep.join(l)],
    slicing [s[:-1]], and [int(s)] for base-10 strings.  Each follows
    CPython's definition (Objects/unicodeobject.c, Objects/longobject.c)
    on ASCII data; the lemmas are the algebra the parser proofs use:
    join/split and print/parse round trips, splitting around a separator
    that occurs once, stripping strings without surrounding whitespace. *)

From S2P Require Import Prelude.

Open Scope string_scope.

(** ** Characters *)

(** [str.isspace] on ASCII: tab, LF, VT, FF, CR, the separators
    0x1c-0x1f and space. *)
Definition is_space (c : ascii) : bool :=
  let n := nat_of_ascii c in
  ((9 <=? n) && (n <=? 13) || (28 <=? n) && (n <=? 32))%nat.

Definition char (c : ascii) : string := String c EmptyString.

(** ** Membership and prefixes *)

(** [s.startswith(p)]. *)
Definition startswith (p s : string) : bool := String.prefix p s.

(** [p] followed by the rest, when [s] starts with [p]. *)
Fixpoint strip_prefix (p s : string) : option string :=
  match p, s with
  | EmptyString, _ => Some s
  | String a p', String b s' => if Ascii.eqb a b then strip_prefix p' s' else None
  | String _ _, EmptyString => None
  end.

(** [needle in s]. *)
Fixpoint contains (needle s : string) : bool :=
  match strip_prefix needle s with
  | Some _ => true
  | None =>
      match s with
      | EmptyString => false
      | String _ s' => contains needle s'
      end
  end.

(** ** Splitting and joining *)

(** [s.split(sep)] for a non-empty [sep] (every call site of src/ passes a
    non-empty literal).  [cur] is the piece being read; after a match of
    [sep] at a character, the [skip] remaining characters of the
    separator are dropped before scanning resumes, as CPython does. *)
Fixpoint split_go (sep s cur : string) (skip : nat) : list string :=
  match s with
  | EmptyString => [cur]
  | String c s' =>
      match skip with
      | S k => split_go sep s' cur k
      | O =>
          match strip_prefix sep s with
          | Some _ => cur :: split_go sep s' EmptyString (String.length sep - 1)
          | None => split_go sep s' (cur ++ char c) 0
          end
      end
  end.

Definition split_sep (sep s : string) : list string := split_go sep s EmptyString 0.

(** [sep.join(l)]. *)
Fixpoint join (sep : string) (l : list string) : string :=
  match l with
  | [] => EmptyString
  | [x] => x
  | x :: l' => x ++ sep ++ join sep l'
  end.

(** [s.split()]: maximal runs of non-whitespace characters. *)
Fixpoint split_ws_go (s cur : string) : list string :=
  match s with
  | EmptyString => if String.eqb cur EmptyString then [] else [cur]
  | String c s' =>
      if is_space c then
        if String.eqb cur EmptyString then split_ws_go s' EmptyString
        else cur :: split_ws_go s' EmptyString
      else split_ws_go s' (cur ++ char c)
  end.

Definition split_ws (s : string) : list string := split_ws_go s EmptyString.

(** ** Stripping, slicing, searching *)

Fixpoint lstrip_with (p : ascii -> bool) (s : string) : string :=
  match s with
  | EmptyString => EmptyString
  | String c s' => if p c then lstrip_with p s' else s
  end.

Fixpoint rstrip_with (p : ascii -> bool) (s : string) : string :=
  match s with
  | EmptyString => EmptyString
  | String c s' =>
      let r := rstrip_with p s' in
      if p c && String.eqb r EmptyString then EmptyString else String c r
  end.

(** [s.strip()] and [s.strip(chars)]. *)
Definition strip (s : string) : string := rstrip_with is_space (lstrip_with is_space s).

Definition strip_chars (chars s : string) : string :=
  let p c := contains (char c) chars in rstrip_with p (lstrip_with p s).

(** [s.endswith(suf)]. *)
Definition endswith (suf s : string) : bool :=
  (String.length suf <=? String.length s)%nat
  && String.eqb (substring (String.length s - String.length suf)%nat (String.length suf) s) suf.

(** [s[:-1]]. *)
Definition drop_last (s : string) : string := substring 0 (String.length s - 1)%nat s.

(** [s.rfind(sub)]: the highest index where [sub] starts, or -1. *)
Fixpoint rfind (sub s : string) : Z :=
  match s with
  | EmptyString => if String.eqb sub EmptyString then 0%Z else (-1)%Z
  | String _ s' =>
      let r := rfind sub s' in
      if (0 <=? r)%Z then (r + 1)%Z
      else if String.prefix sub s then 0%Z else (-1)%Z
  end.

(** [s.lower()] on ASCII letters. *)
Definition lower_char (c : ascii) : ascii :=
  let n := nat_of_ascii c in
  if ((65 <=? n) && (n <=? 90))%nat then ascii_of_nat (n + 32)%nat else c.

Fixpoint lower (s : string) : string :=
  match s with
  | EmptyString => EmptyString
  | String c s' => String (lower_char c) (lower s')
  end.

(** ** [int(s)] and [str(n)] *)

Definition digit_val (c : ascii) : option nat :=
  let n := nat_of_ascii c in
  if ((48 <=? n) && (n <=? 57))%nat then Some (n - 48)%nat else None.

(** Decimal digits with single underscores between digits (PEP 515);
    [after_digit] records that the previous character was a digit. *)
Fixpoint parse_digits (s : string) (acc : Z) (after_digit : bool) : option Z :=
  match s with
  | EmptyString => if after_digit then Some acc else None
  | String c s' =>
      match digit_val c with
      | Some d => parse_digits s' (acc * 10 + Z.of_nat d)%Z true
      | None =>
          if Ascii.eqb c "_"%char && after_digit then parse_digits s' acc false
          else None
      end
  end.

(** [int(s)]: surrounding whitespace, an optional sign, digits; any other
    string raises [ValueError]. *)
Definition py_int (s : string) : py Z :=
  let t := strip s in
  let r :=
    match t with
    | EmptyString => None
    | String c t' =>
        if Ascii.eqb c "-"%char then option_map Z.opp (parse_digits t' 0 false)
        else if Ascii.eqb c "+"%char then parse_digits t' 0 false
        else parse_digits t 0 false
    end in
  match r with
  | Some z => inr z
  | None => inl ValueError
  end.

Definition digit_char (d : nat) : ascii := ascii_of_nat (48 + d).

(** [str(n)] for a natural number: [fuel] bounds the number of digits. *)
Fixpoint digits_go (fuel n : nat) (acc : string) : string :=
  match fuel with
  | O => acc
  | S f =>
      let acc' := String (digit_char (n mod 10)) acc in
      if (n <? 10)%nat then acc' else digits_go f (n / 10) acc'
  end.

Definition str_nat (n : nat) : string := digits_go (S n) n EmptyString.

(** [str(z)] / an f-string field for an int. *)
Definition str_int (z : Z) : string :=
  if (z <? 0)%Z then "-" ++ str_nat (Z.to_nat (- z)) else str_nat (Z.to_nat z).

(** Every character of [s] satisfies [p]. *)
Fixpoint str_forallb (p : ascii -> bool) (s : string) : bool :=
  match s with
  | EmptyString => true
  | String c s' => p c && str_forallb p s'
  end.

Definition is_digit (c : ascii) : bool := if digit_val c is Some _ then true else false.

(** ** [os.path] (posixpath) *)

(** [os.path.basename(p)]: what follows the last ['/']. *)
Definition basename (p : string) : string :=
  let i := Z.to_nat (rfind "/" p + 1) in substring i (String.length p - i) p.

(** [os.path.dirname(p)]: what precedes the last ['/'], trailing slashes
    removed unless it is all slashes. *)
Definition dirname (p : string) : string :=
  let i := Z.to_nat (rfind "/" p + 1) in
  let head := substring 0 i p in
  let slash c := Ascii.eqb c "/" in
  if negb (String.eqb head "") && negb (str_forallb slash head) then rstrip_with slash head else head.

(** [os.path.join(a, b)]. *)
Definition path_join (a b : string) : string :=
  if startswith "/" b then b
  else if String.eqb a "" || endswith "/" a then a ++ b
  else a ++ "/" ++ b.

(** ** Concatenation *)

Lemma str_app_assoc (a b c : string) : (a ++ b) ++ c = a ++ (b ++ c).
Proof. induction a; simpl; congruence. Qed.

Lemma str_app_nil_r (a : string) : a ++ EmptyString = a.
Proof. induction a; simpl; congruence. Qed.

Lemma str_length_app (a b : string) :
  String.length (a ++ b) = (String.length a + String.length b)%nat.
Proof. induction a; simpl; congruence. Qed.

Lemma str_app_char_cons (a : string) (c : ascii) (b : string) :
  (a ++ char c) ++ b = a ++ String c b.
Proof. rewrite str_app_assoc. reflexivity. Qed.

#[export] Hint Rewrite str_app_assoc str_app_nil_r str_length_app : ml_rw.

(** ** Prefixes *)

Lemma strip_prefix_Some (p s r : string) : strip_prefix p s = Some r -> s = p ++ r.
Proof.
  revert s; induction p as [|a p IH]; intros [|b s]; simpl; try congruence.
  destruct (Ascii.eqb_spec a b); [subst | discriminate]. intros H. f_equal. auto.
Qed.

Lemma strip_prefix_app (p r : string) : strip_prefix p (p ++ r) = Some r.
Proof. induction p; simpl; [done |]. rewrite Ascii.eqb_refl. done. Qed.

(** Dropping the first [k] characters. *)
Fixpoint drop_str (k : nat) (s : string) : string :=
  match k, s with
  | O, _ => s
  | S k', String _ s' => drop_str k' s'
  | S _, EmptyString => EmptyString
  end.

Lemma drop_str_app (a b : string) : drop_str (String.length a) (a ++ b) = b.
Proof. induction a; simpl; auto. Qed.

(** ** [split] and [join] *)

Lemma split_go_skip (sep s cur : string) (k : nat) :
  split_go sep s cur k = split_go sep (drop_str k s) cur 0.
Proof.
  revert k; induction s as [|c s IH]; intros [|k]; simpl; auto.
Qed.

Lemma split_go_nonempty (sep s cur : string) (k : nat) : split_go sep s cur k <> [].
Proof.
  revert cur k; induction s as [|c s IH]; intros cur [|k]; simpl; try done.
  destruct (strip_prefix sep _); done.
Qed.

Lemma join_cons (sep x : string) (l : list string) :
  l <> [] -> join sep (x :: l) = x ++ sep ++ join sep l.
Proof. destruct l; done. Qed.

(** [sep.join(s.split(sep)) == s]. *)
Lemma join_split_go (sep : string) : sep <> EmptyString ->
  forall n s cur, (String.length s <= n)%nat -> join sep (split_go sep s cur 0) = cur ++ s.
Proof.
  intros Hsep n. induction n as [|n IH]; intros [|c s] cur Hlen; simpl in *;
    try (rewrite str_app_nil_r; reflexivity); try lia.
  destruct (strip_prefix sep (String c s)) as [rest|] eqn:E.
  - apply strip_prefix_Some in E. destruct sep as [|c0 sep']; [done |].
    simpl in E. injection E as -> ->. simpl. rewrite Nat.sub_0_r, split_go_skip, drop_str_app.
    destruct (split_go _ rest _ 0) as [|p l] eqn:Hs; [by apply split_go_nonempty in Hs |].
    rewrite <- Hs, IH by (rewrite str_length_app in Hlen; lia). reflexivity.
  - rewrite IH by lia. apply str_app_char_cons.
Qed.

Theorem join_split (sep s : string) : sep <> EmptyString -> join sep (split_sep sep s) = s.
Proof. intros Hsep. apply (join_split_go sep Hsep (String.length s)). lia. Qed.

(** Without an occurrence of [sep], [s.split(sep) == [s]]. *)
Lemma split_go_no_occ (sep s cur : string) :
  contains sep s = false -> split_go sep s cur 0 = [cur ++ s].
Proof.
  revert cur; induction s as [|c s IH]; intros cur H; simpl in *.
  - by rewrite str_app_nil_r.
  - destruct (strip_prefix sep (String c s)); [discriminate |].
    rewrite IH by done. by rewrite str_app_char_cons.
Qed.

(** Splitting on a one-character separator distributes over an occurrence. *)
Lemma split_go_char_app (c : ascii) (a b cur : string) :
  split_go (char c) (a ++ String c b) cur 0
  = (split_go (char c) a cur 0 ++ split_go (char c) b EmptyString 0)%list.
Proof.
  revert cur; induction a as [|x a IH]; intros cur; simpl.
  - rewrite Ascii.eqb_refl. reflexivity.
  - destruct (Ascii.eqb c x); simpl; [rewrite IH |]; auto.
Qed.

(** The first piece of [(a + sep + b).split(sep)] is [a] when the first
    character of [sep] does not occur in [a]. *)
Lemma split_go_first (s0 : ascii) (sep' a b cur : string) :
  str_forallb (fun x => negb (Ascii.eqb x s0)) a = true ->
  exists l, split_go (String s0 sep') (a ++ String s0 sep' ++ b) cur 0 = (cur ++ a) :: l.
Proof.
  revert cur; induction a as [|x a IH]; intros cur Ha; simpl in *.
  - rewrite Ascii.eqb_refl, strip_prefix_app, str_app_nil_r. eauto.
  - apply andb_prop in Ha as [Hx Ha].
    destruct (Ascii.eqb_spec x s0) as [->|Hne]; [discriminate |].
    destruct (Ascii.eqb_spec s0 x) as [->|_]; [done |].
    destruct (IH (cur ++ char x) Ha) as [l ->]. rewrite str_app_char_cons. eauto.
Qed.

(** ** [split()] *)

(** A run of non-whitespace characters extends the current token. *)
Lemma split_ws_go_word (a s cur : string) :
  str_forallb (fun x => negb (is_space x)) a = true ->
  split_ws_go (a ++ s) cur = split_ws_go s (cur ++ a).
Proof.
  revert cur; induction a as [|x a IH]; intros cur Ha; simpl in *.
  - by rewrite str_app_nil_r.
  - apply andb_prop in Ha as [Hx Ha]. apply negb_true_iff in Hx. rewrite Hx, IH by done.
    by rewrite str_app_char_cons.
Qed.

(** A whitespace character ends a non-empty token. *)
Lemma split_ws_go_space (sp : ascii) (s cur : string) :
  is_space sp = true -> cur <> EmptyString ->
  split_ws_go (String sp s) cur = cur :: split_ws_go s EmptyString.
Proof.
  intros Hsp Hcur. simpl. rewrite Hsp.
  destruct (String.eqb_spec cur EmptyString); [done | reflexivity].
Qed.

(** ** [strip()] *)

Lemma rstrip_with_none (p : ascii -> bool) (s : string) :
  str_forallb (fun x => negb (p x)) s = true -> rstrip_with p s = s.
Proof.
  induction s as [|c s IH]; simpl; [done |]. intros H.
  apply andb_prop in H as [Hc Hs]. apply negb_true_iff in Hc. by rewrite IH, Hc.
Qed.

Lemma strip_none (s : string) :
  str_forallb (fun x => negb (is_space x)) s = true -> strip s = s.
Proof.
  intros H. unfold strip. destruct s as [|c s']; [done |].
  pose proof H as H'. simpl in H'. apply andb_prop in H' as [Hc _].
  apply negb_true_iff in Hc. simpl. rewrite Hc. by apply rstrip_with_none.
Qed.

Lemma strip_space_cons (sp : ascii) (s : string) :
  is_space sp = true -> strip (String sp s) = strip s.
Proof. intros H. unfold strip. simpl. by rewrite H. Qed.

(** ** Digits, [str] and [int] *)

Lemma digit_val_char (d : nat) : (d < 10)%nat -> digit_val (digit_char d) = Some d.
Proof. intros Hd. do 10 (destruct d as [|d]; [reflexivity |]). lia. Qed.

Lemma is_digit_char (d : nat) : (d < 10)%nat -> is_digit (digit_char d) = true.
Proof. intros Hd. unfold is_digit. by rewrite digit_val_char. Qed.

Lemma is_digit_not_space (c : ascii) : is_digit c = true -> is_space c = false.
Proof.
  unfold is_digit, digit_val, is_space.
  destruct (Nat.leb_spec 48 (nat_of_ascii c)), (Nat.leb_spec (nat_of_ascii c) 57);
    simpl; try discriminate.
  intros _. destruct (Nat.leb_spec 9 (nat_of_ascii c)), (Nat.leb_spec (nat_of_ascii c) 13),
    (Nat.leb_spec 28 (nat_of_ascii c)), (Nat.leb_spec (nat_of_ascii c) 32); simpl; lia.
Qed.

Lemma digits_go_forall (p : ascii -> bool) (f n : nat) (acc : string) :
  (forall d, (d < 10)%nat -> p (digit_char d) = true) ->
  str_forallb p (digits_go f n acc) = str_forallb p acc.
Proof.
  intros Hp. revert n acc; induction f as [|f IH]; intros n acc; [done |]. cbn [digits_go].
  assert (Hd : p (digit_char (n mod 10)) = true) by (apply Hp, Nat.mod_upper_bound; lia).
  destruct (n <? 10)%nat; [| rewrite IH]; cbn [str_forallb]; by rewrite Hd.
Qed.

Lemma str_nat_digits (n : nat) : str_forallb is_digit (str_nat n) = true.
Proof.
  apply digits_go_forall. apply is_digit_char.
Qed.

Lemma digits_go_cons (f m : nat) (acc : string) :
  exists c s, digits_go (S f) m acc = String c s /\ is_digit c = true.
Proof.
  revert m acc; induction f as [|f IH]; intros m acc; cbn [digits_go];
    destruct (m <? 10)%nat; eauto 6 using is_digit_char, Nat.mod_upper_bound.
Qed.

Lemma parse_digits_go (f m : nat) (acc : string) :
  (m < f)%nat ->
  parse_digits (digits_go f m acc) 0 false = parse_digits acc (Z.of_nat m) true.
Proof.
  revert m acc; induction f as [|f IH]; intros m acc Hm; [lia |]. cbn [digits_go].
  destruct (Nat.ltb_spec m 10).
  - cbn [parse_digits]. rewrite digit_val_char by (apply Nat.mod_upper_bound; lia).
    rewrite Nat.mod_small by lia. reflexivity.
  - rewrite IH by (apply Nat.Div0.div_lt_upper_bound; lia). cbn [parse_digits].
    rewrite digit_val_char by (apply Nat.mod_upper_bound; lia).
    f_equal. pose proof (Nat.div_mod_eq m 10). lia.
Qed.

(** [int(str(n)) == n]. *)
Theorem py_int_str_nat (n : nat) : py_int (str_nat n) = inr (Z.of_nat n).
Proof.
  unfold py_int. rewrite strip_none.
  2: { unfold str_nat. rewrite digits_go_forall; [done |]. intros d Hd.
       apply negb_true_iff, is_digit_not_space, is_digit_char, Hd. }
  destruct (digits_go_cons n n EmptyString) as (c & s & Hcs & Hc).
  unfold str_nat. rewrite Hcs.
  assert (Ascii.eqb c "-"%char = false /\ Ascii.eqb c "+"%char = false) as [-> ->].
  { split; destruct (Ascii.eqb_spec c "-"%char); destruct (Ascii.eqb_spec c "+"%char);
      subst; done. }
  rewrite <- Hcs, parse_digits_go by lia. reflexivity.
Qed.

(** ** Membership *)

Lemma contains_strip_prefix (p s r : string) : strip_prefix p s = Some r -> contains p s = true.
Proof. intros H. destruct s; simpl; by rewrite H. Qed.

Lemma contains_app_middle (p a b : string) : contains p (a ++ p ++ b) = true.
Proof.
  induction a as [|x a IH]; simpl.
  - eapply contains_strip_prefix, strip_prefix_app.
  - destruct (strip_prefix p _); [done | exact IH].
Qed.

(** The last piece of [(a + c + b).split(c)] is [b] when [c] is not in [b]. *)
Lemma split_sep_last_char (c : ascii) (a b : string) :
  contains (char c) b = false ->
  exists l, split_sep (char c) (a ++ String c b) = (l ++ [b])%list.
Proof.
  intros Hb. unfold split_sep. rewrite split_go_char_app, (split_go_no_occ (char c) b) by done.
  eexists. reflexivity.
Qed.

Lemma str_forallb_app (p : ascii -> bool) (a b : string) :
  str_forallb p (a ++ b) = str_forallb p a && str_forallb p b.
Proof. induction a as [|x a IH]; simpl; [done |]. by rewrite IH, andb_assoc. Qed.

#[export] Hint Rewrite str_forallb_app : ml_rw.

(** Where [needle in s] holds, [s] has the shape [a + needle + b]. *)
Lemma contains_true_inv (p s : string) :
  contains p s = true -> exists a b, s = a ++ p ++ b.
Proof.
  induction s as [|c s IH]; simpl; intros H.
  - destruct (strip_prefix p EmptyString) as [r|] eqn:E; [| discriminate].
    apply strip_prefix_Some in E. by exists EmptyString, r.
  - destruct (strip_prefix p (String c s)) as [r|] eqn:E.
    + apply strip_prefix_Some in E. by exists EmptyString, r.
    + destruct (IH H) as (a & b & ->). by exists (String c a), b.
Qed.

(** A needle with a character that fails [q] is not in a string whose
    characters all satisfy [q]. *)
Lemma contains_false_forallb (q : ascii -> bool) (p s : string) :
  str_forallb q s = true -> str_forallb q p = false -> contains p s = false.
Proof.
  intros Hs Hp. destruct (contains p s) eqn:E; [| done].
  destruct (contains_true_inv p s E) as (a & b & ->).
  rewrite !str_forallb_app, Hp, andb_false_r in Hs. done.
Qed.

Lemma substring_app_r (a b : string) :
  substring (String.length a) (String.length b) (a ++ b) = b.
Proof.
  induction a as [|x a IH]; simpl; [| done].
  induction b as [|y b IHb]; simpl; [done |]. by rewrite IHb.
Qed.

Lemma endswith_app (a suf : string) : endswith suf (a ++ suf) = true.
Proof.
  unfold endswith. rewrite str_length_app, Nat.add_sub, substring_app_r, String.eqb_refl.
  simpl. apply andb_true_intro. split; [apply Nat.leb_le; lia | done].
Qed.

Lemma drop_last_app_char (a : string) (c : ascii) : drop_last (a ++ char c) = a.
Proof.
  unfold drop_last. rewrite str_length_app. simpl. rewrite Nat.add_sub.
  induction a as [|x a IH]; simpl; [done |]. by rewrite IH.
Qed.

(** [str(n)] is made of digits only: it satisfies every test true of the
    ten digit characters. *)
Lemma str_nat_forallb (p : ascii -> bool) (n : nat) :
  (forall d, (d < 10)%nat -> p (digit_char d) = true) -> str_forallb p (str_nat n) = true.
Proof. intros Hp. unfold str_nat. by rewrite digits_go_forall. Qed.

Lemma str_nat_nonempty (n : nat) : str_nat n <> EmptyString.
Proof. unfold str_nat. destruct (digits_go_cons n n EmptyString) as (c & s & -> & _). done. Qed.

Lemma py_int_error (s : string) (e : pyexc) : py_int s = inl e -> e = ValueError.
Proof. unfold py_int. case_if_match; congruence. Qed.

(** [rstrip] keeps a string whose last character is not stripped. *)
Lemma rstrip_with_last (p : ascii -> bool) (a : string) (c : ascii) :
  p c = false -> rstrip_with p (a ++ char c) = a ++ char c.
Proof.
  intros Hc. induction a as [|x a IH]; simpl.
  - by rewrite Hc.
  - rewrite IH. destruct (String.eqb_spec (a ++ char c) EmptyString) as [E|].
    + apply (f_equal String.length) in E. rewrite str_length_app in E. simpl in E. lia.
    + by rewrite andb_false_r.
Qed.

(** [s.strip() == s] when [s] starts and ends with non-whitespace. *)
Lemma strip_bounded (c0 c1 : ascii) (mid : string) :
  is_space c0 = false -> is_space c1 = false ->
  strip (String c0 (mid ++ char c1)) = String c0 (mid ++ char c1).
Proof.
  intros H0 H1. unfold strip. simpl. rewrite H0.
  apply (rstrip_with_last is_space (String c0 mid) c1 H1).
Qed.

(** [c.join(ls).split(c) == ls] when no piece contains [c]. *)
Lemma split_join_char (c : ascii) (ls : list string) :
  ls <> [] -> Forall (fun l => contains (char c) l = false) ls ->
  split_sep (char c) (join (char c) ls) = ls.
Proof.
  intros Hne Hall. induction Hall as [|x ls Hx Hall IH]; [done |].
  destruct ls as [|y ls].
  - unfold split_sep. simpl. by rewrite split_go_no_occ.
  - change (join (char c) (x :: y :: ls)) with (x ++ String c (join (char c) (y :: ls))).
    unfold split_sep in *. rewrite split_go_char_app, split_go_no_occ, IH by done. reflexivity.
Qed.

Lemma str_forallb_impl (p q : ascii -> bool) (s : string) :
  (forall c, p c = true -> q c = true) -> str_forallb p s = true -> str_forallb q s = true.
Proof.
  intros Hpq. induction s as [|c s IH]; simpl; [done |].
  intros [Hc Hs]%andb_prop. by rewrite Hpq, IH.
Qed.

(** No occurrence of the one-character string [char c]. *)
Lemma contains_char_false (c : ascii) (s : string) :
  str_forallb (fun x => negb (Ascii.eqb x c)) s = true -> contains (char c) s = false.
Proof.
  intros H. apply (contains_false_forallb (fun x => negb (Ascii.eqb x c))); [done |].
  simpl. by rewrite Ascii.eqb_refl.
Qed.

(** The first piece of [(a + c + b).split(c)] is [a] when [c] is not in [a]. *)
Lemma split_sep_char_head (c : ascii) (a b : string) :
  contains (char c) a = false ->
  exists l, split_sep (char c) (a ++ String c b) = a :: l.
Proof.
  intros Ha. unfold split_sep. rewrite split_go_char_app, split_go_no_occ by done.
  eexists. reflexivity.
Qed.

Lemma join_snoc (sep : string) (l : list string) (x : string) :
  l <> [] -> join sep (l ++ [x])%list = join sep l ++ sep ++ x.
Proof.
  intros Hl. induction l as [|y [|z l] IH]; [done | reflexivity |].
  change (join sep ((y :: z :: l) ++ [x])%list) with (y ++ sep ++ join sep ((z :: l) ++ [x])%list).
  rewrite IH by done. cbn [join]. by rewrite !str_app_assoc.
Qed.

Lemma join_cons_head (sep : string) (c : ascii) (r : string) (l : list string) :
  exists t, join sep (String c r :: l) = String c t.
Proof. destruct l; simpl; eauto. Qed.

(** Splitting a space-joined list of non-empty words without whitespace
    gives the words back. *)
Lemma split_ws_join (ws : list string) :
  ws <> [] ->
  Forall (fun w => str_forallb (fun x => negb (is_space x)) w = true /\ w <> EmptyString) ws ->
  split_ws (join " " ws) = ws.
Proof.
  intros Hne Hall. unfold split_ws.
  induction Hall as [|w ws [Hw Hne'] Hall IH]; [done |].
  destruct ws as [|w' ws].
  - replace (join " " [w]) with (w ++ EmptyString) by apply str_app_nil_r.
    rewrite split_ws_go_word by done. simpl.
    destruct (String.eqb_spec w EmptyString); [done | reflexivity].
  - change (join " " (w :: w' :: ws)) with (w ++ String " " (join " " (w' :: ws))).
    rewrite split_ws_go_word by done. cbn [String.append].
    rewrite split_ws_go_space, IH by done. reflexivity.
Qed.

Lemma strip_bounded_ex (c0 c1 : ascii) (s : string) :
  is_space c0 = false -> is_space c1 = false -> (exists mid, s = mid ++ char c1) ->
  strip (String c0 s) = String c0 s.
Proof. intros H0 H1 [mid ->]. by apply strip_bounded. Qed.

Lemma lower_app (a b : string) : lower (a ++ b) = lower a ++ lower b.
Proof. induction a as [|c a IH]; simpl; [done |]. by rewrite IH. Qed.

(** A relative second component is appended after one slash. *)
Lemma path_join_rel (a b : string) :
  startswith "/" b = false -> String.eqb a "" = false -> endswith "/" a = false ->
  path_join a b = a ++ "/" ++ b.
Proof. unfold path_join. intros -> -> ->. reflexivity. Qed.

Lemma contains_app_l (p a b : string) : contains p a = true -> contains p (a ++ b) = true.
Proof.
  intros (u & v & ->)%contains_true_inv. rewrite !str_app_assoc. apply contains_app_middle.
Qed.

Lemma contains_app_r (p a b : string) : contains p b = true -> contains p (a ++ b) = true.
Proof.
  intros (u & v & ->)%contains_true_inv. rewrite <- str_app_assoc. apply contains_app_middle.
Qed.

Lemma prefix_strip_prefix (p s : string) :
  String.prefix p s = if strip_prefix p s is Some _ then true else false.
Proof.
  revert s. induction p as [|a p IH]; intros [|b s]; simpl; try done.
  destruct (ascii_dec a b) as [-> | Hne]; [by rewrite Ascii.eqb_refl |].
  apply Ascii.eqb_neq in Hne. by rewrite Hne.
Qed.

(** No occurrence: [rfind] returns -1. *)
Lemma rfind_none (sub s : string) : contains sub s = false -> rfind sub s = (-1)%Z.
Proof.
  induction s as [|c s IH].
  - destruct sub; simpl; [discriminate | done].
  - intros H. cbn [contains] in H. destruct (strip_prefix sub (String c s)) eqn:E; [discriminate |].
    cbn [rfind]. rewrite IH by exact H. rewrite prefix_strip_prefix, E. reflexivity.
Qed.

(** An occurrence in the suffix is found at its offset. *)
Lemma rfind_app (sub a t : string) :
  (0 <= rfind sub t)%Z -> rfind sub (a ++ t) = (Z.of_nat (String.length a) + rfind sub t)%Z.
Proof.
  intros Ht. induction a as [|c a IH]; simpl; [lia |].
  rewrite IH. destruct (Z.leb_spec 0 (Z.of_nat (String.length a) + rfind sub t)); lia.
Qed.
