(* ===== verification/PyFloat.v ===== *)
(** * Python floats on IEEE-754 binary64

    The progress computations of src/ divide two Python ints with [/]
    (true division, a float), multiply by [100] and truncate with [int()]:
    - [percent = int((current / total) * 100)] in
      [_process_extraction_output] (MasterLinux.py:564,
      MasterLinux_v2.py:791);
    - [progress_percentage = int((self.current_package_index /
      self.total_packages_to_remove) * 100)] in
      [_handle_single_package_removal] (MasterLinux.py:794).
    A Python float is a binary64 number; the Standard Library's
    [SpecFloat] gives the IEEE operations as executable functions, with
    [prec = 53] and [emax = 1024].  Python's [int / int] rounds the exact
    quotient once; for operands of magnitude at most [2^53] (item counts)
    converting each operand is exact, so [SFdiv] on the converted operands
    is Python's result.  [int(x)] truncates toward zero and raises
    [OverflowError] on an infinity and [ValueError] on a NaN. *)

From S2P Require Import Prelude.
From Stdlib Require Import Floats.SpecFloat.

Definition prec : Z := 53.
Definition emax : Z := 1024.

Notation float := spec_float.

(** [float(n)]: the int rounded to the nearest binary64. *)
Definition float_of_int (n : Z) : float := binary_normalize prec emax n 0 false.

(** [a / b] on ints. *)
Definition int_truediv (a b : Z) : py float :=
  if (b =? 0)%Z then py_raise ZeroDivisionError
  else py_ret (SFdiv prec emax (float_of_int a) (float_of_int b)).

(** [x * n] for a float [x] and an int [n]. *)
Definition float_mul_int (x : float) (n : Z) : float := SFmul prec emax x (float_of_int n).

(** [int(x)]: truncation toward zero. *)
Definition float_to_int (x : float) : py Z :=
  match x with
  | S754_zero _ => py_ret 0%Z
  | S754_finite s m e =>
      let v := if (0 <=? e)%Z then Z.shiftl (Zpos m) e else Z.shiftr (Zpos m) (- e) in
      py_ret (if s then - v else v)%Z
  | S754_infinity _ => py_raise OverflowError
  | S754_nan => py_raise ValueError
  end.

(** [int((a / b) * 100)], the expression both progress computations use. *)
Definition percent_of (a b : Z) : py Z :=
  py_bind (int_truediv a b) (fun q => float_to_int (float_mul_int q 100)).

(** Exact floor of the same ratio, as the spec states the percentage. *)
Definition percent_spec (a b : Z) : Z := (100 * a / b)%Z.

(** ** Checking a property on a bounded range by evaluation *)

(** [zall P lo n]: [P] holds at [lo], [lo + 1], ..., [lo + n - 1]. *)
Fixpoint zall_go (P : Z -> bool) (lo : Z) (n : nat) : bool :=
  match n with
  | O => true
  | S n' => P lo && zall_go P (lo + 1) n'
  end.

Definition zall (P : Z -> bool) (lo n : Z) : bool := zall_go P lo (Z.to_nat n).

Lemma zall_sound (P : Z -> bool) (lo n : Z) :
  zall P lo n = true -> forall k, (lo <= k < lo + n)%Z -> P k = true.
Proof.
  unfold zall. intros H k Hk. rewrite <- (Z2Nat.id n) in Hk by lia.
  revert lo H Hk; induction (Z.to_nat n) as [|n' IH]; intros lo H Hk; simpl in *; [lia |].
  apply andb_prop in H as [H0 H1].
  destruct (Z.eq_dec k lo) as [-> | Hne]; [done |]. apply (IH (lo + 1)%Z); [done | lia].
Qed.

(** [P k m] for all [0 <= k <= m] and [1 <= m <= n]. *)
Definition zall_pairs (P : Z -> Z -> bool) (n : Z) : bool :=
  zall (fun m => zall (fun k => P k m) 0 (m + 1)) 1 n.

Lemma zall_pairs_sound (P : Z -> Z -> bool) (n : Z) :
  zall_pairs P n = true ->
  forall k m, (0 <= k <= m)%Z -> (1 <= m <= n)%Z -> P k m = true.
Proof.
  intros H k m Hk Hm. pose proof (zall_sound _ _ _ H m ltac:(lia)) as Hm'.
  apply (zall_sound _ _ _ Hm'). lia.
Qed.

(** ** Exact division of a float by itself *)

(** [1.0] in binary64. *)
Definition float_one : float := S754_finite false (2^52)%positive (-52).

(** [x / x == 1.0] for every finite non-zero [x]: the quotient of the
    mantissas is exactly [2^53], whatever the mantissa. *)
Lemma sfdiv_self (s : bool) (m : positive) (e : Z) :
  SFdiv prec emax (S754_finite s m e) (S754_finite s m e) = float_one.
Proof.
  unfold SFdiv, SFdiv_core_binary. rewrite !Z.sub_diag, xorb_nilpotent.
  change (Z.min (fexp prec emax 0) 0) with (-53)%Z.
  change (0 - -53)%Z with 53%Z. cbv beta iota zeta.
  rewrite Z.shiftl_mul_pow2 by lia.
  assert (Z.div_eucl (Zpos m * 2 ^ 53) (Zpos m) = (2^53, 0))%Z as ->.
  { assert (Hd : forall a b, Z.div_eucl a b = (a / b, a mod b)%Z).
    { intros a b. unfold Z.div, Z.modulo. by destruct (Z.div_eucl a b). }
    rewrite Hd, Z.mul_comm, Z.div_mul, Z.mod_mul by lia. reflexivity. }
  unfold new_location, new_location_even, new_location_odd.
  destruct (Z.even (Zpos m)); reflexivity.
Qed.

(** [float(n)] is a finite positive float. *)
Definition float_finite_pos (n : Z) : bool :=
  if float_of_int n is S754_finite false _ _ then true else false.

Lemma float_finite_pos_range : zall float_finite_pos 1 65536 = true.
Proof. vm_compute. reflexivity. Qed.

(** The ints of [1 .. 65536] convert to finite positive floats. *)
Lemma float_of_int_finite (n : Z) :
  (1 <= n <= 65536)%Z -> exists m e, float_of_int n = S754_finite false m e.
Proof.
  intros Hn. pose proof (zall_sound _ _ _ float_finite_pos_range n ltac:(lia)) as H.
  unfold float_finite_pos in H.
  destruct (float_of_int n) as [| | |[] m e]; try discriminate. eauto.
Qed.

(** ** Division by zero *)

Lemma percent_of_zero_div (a : Z) : percent_of a 0 = inl ZeroDivisionError.
Proof. reflexivity. Qed.

Lemma percent_of_nonzero (a b : Z) : b <> 0%Z ->
  percent_of a b = float_to_int (float_mul_int (SFdiv prec emax (float_of_int a) (float_of_int b)) 100).
Proof. intros Hb. unfold percent_of, int_truediv. by rewrite (proj2 (Z.eqb_neq b 0) Hb). Qed.

(** ** The percentage [int((a / b) * 100)] *)

(** [int((n / n) * 100) == 100] for every count [n] of [1 .. 65536]. *)
Lemma percent_of_self (n : Z) : (1 <= n <= 65536)%Z -> percent_of n n = inr 100%Z.
Proof.
  intros Hn. rewrite percent_of_nonzero by lia.
  destruct (float_of_int_finite n Hn) as (m & e & ->). rewrite sfdiv_self.
  vm_compute. reflexivity.
Qed.

(** The percentage is defined, within [0, 100], and is the exact floor
    [100 * a / b] or one less (a float product below an integer). *)
Definition percent_ok (a b : Z) : bool :=
  match percent_of a b with
  | inr p => (0 <=? p)%Z && (p <=? 100)%Z
             && ((p =? percent_spec a b) || (p =? percent_spec a b - 1))%Z
  | inl _ => false
  end.

(** One more completed item never lowers the percentage. *)
Definition percent_mono (a b : Z) : bool :=
  match percent_of a b, percent_of (a + 1) b with
  | inr p, inr q => (a =? b)%Z || (p <=? q)%Z
  | _, _ => false
  end.

Lemma percent_ok_range : zall_pairs percent_ok 128 = true.
Proof. vm_compute. reflexivity. Qed.

Lemma percent_mono_range : zall_pairs percent_mono 128 = true.
Proof. vm_compute. reflexivity. Qed.

Lemma percent_of_bounds (a b : Z) :
  (0 <= a <= b)%Z -> (1 <= b <= 128)%Z ->
  exists p, percent_of a b = inr p /\ (0 <= p <= 100)%Z
            /\ (p = percent_spec a b \/ p = percent_spec a b - 1)%Z.
Proof.
  intros Ha Hb. pose proof (zall_pairs_sound _ _ percent_ok_range a b Ha Hb) as H.
  unfold percent_ok in H. destruct (percent_of a b) as [|p]; [discriminate |].
  exists p. repeat split; lia.
Qed.

Lemma percent_of_monotone (a b p q : Z) :
  (0 <= a < b)%Z -> (b <= 128)%Z ->
  percent_of a b = inr p -> percent_of (a + 1) b = inr q -> (p <= q)%Z.
Proof.
  intros Ha Hb Hp Hq. pose proof (zall_pairs_sound _ _ percent_mono_range a b ltac:(lia) ltac:(lia)) as H.
  unfold percent_mono in H. rewrite Hp, Hq in H. lia.
Qed.

Lemma percent_of_self_witness : (1 <= 40 <= 65536)%Z /\ percent_of 40 40 = inr 100%Z.
Proof. split; [lia | apply percent_of_self; lia]. Defined.

(** [int((29 / 100) * 100)] is [28], one below the exact [29] the spec
    states: [0.29] is stored below [29/100]. *)
Example percent_of_29_100 : percent_of 29 100 = inr 28%Z /\ percent_spec 29 100 = 29%Z.
Proof. vm_compute. split; reflexivity. Qed.
