(* ===== verification/Qt.v ===== *)
(** * The Qt widget state the wizards drive

    [QProgressBar] as Qt 6 implements it (qtbase,
    src/widgets/widgets/qprogressbar.cpp): a range [minimum, maximum] and a
    value, where [minimum - 1] is the "reset" value shown as an empty bar.
    [setValue] ignores a value outside the range unless the range is
    [(0, 0)] (busy indicator); [setRange] raises [maximum] to [minimum]
    and resets a value the new range does not contain.  Every progress bar
    of src/ is driven only through [setRange]/[setValue], so the invariant
    [pb_inv] holds of all of them.

    [QSpinBox] and [QComboBox] as the compression dialog uses them, and
    the [ElidedLabel] of src/widgets.py. *)

From S2P Require Import Prelude.

Record progress_bar := ProgressBar {
  pb_min : Z;
  pb_max : Z;
  pb_value : Z
}.

(** [QProgressBar()]: range [0, 100], reset. *)
Definition pb_new : progress_bar := ProgressBar 0 100 (-1).

(** [reset()]. *)
Definition pb_reset (b : progress_bar) : progress_bar :=
  ProgressBar (pb_min b) (pb_max b) (pb_min b - 1).

(** [setValue(v)]. *)
Definition pb_setValue (v : Z) (b : progress_bar) : progress_bar :=
  if (pb_value b =? v)%Z
     || (((pb_max b <? v) || (v <? pb_min b))
         && negb ((pb_max b =? 0) && (pb_min b =? 0)))%Z
  then b
  else ProgressBar (pb_min b) (pb_max b) v.

(** [setRange(lo, hi)]. *)
Definition pb_setRange (lo hi : Z) (b : progress_bar) : progress_bar :=
  if (lo =? pb_min b)%Z && (hi =? pb_max b)%Z then b
  else
    let b' := ProgressBar lo (Z.max lo hi) (pb_value b) in
    if ((pb_value b <? lo - 1) || (Z.max lo hi <? pb_value b))%Z then pb_reset b' else b'.

(** The range is well formed and the value lies in it or is the reset
    value, except on the busy range [(0, 0)] where [setValue] accepts any
    value. *)
Definition pb_inv (b : progress_bar) : Prop :=
  (pb_min b <= pb_max b)%Z
  /\ ((pb_min b = 0 /\ pb_max b = 0) \/ (pb_min b - 1 <= pb_value b <= pb_max b))%Z.

(** ** [ElidedLabel] (src/widgets.py, lines 5-20)

    A [QLabel] that keeps the full text in [original_text] and hands
    [QLabel.setText] the text elided to the label's width.  It does not
    override [text()], so [text()] returns the elided text.  The elision
    [fontMetrics().elidedText(t, ElideMiddle, width())] is Qt's; it is the
    parameter [elide] here (the font metrics at the label's current
    width), which returns its argument when the text fits. *)
Record elided_label := ElidedLabelState {
  el_original : string;    (** [original_text] *)
  el_text : string         (** what [QLabel.text()] returns *)
}.

Definition elided_label_new : elided_label := ElidedLabelState "" "".

(** [ElidedLabel.setText(text)]. *)
Definition elided_setText (elide : string -> string) (text : string) (l : elided_label) : elided_label :=
  ElidedLabelState text (elide text).

(** [ElidedLabel.resizeEvent]: the original text elided to the new width. *)
Definition elided_resizeEvent (elide : string -> string) (l : elided_label) : elided_label :=
  ElidedLabelState (el_original l) (elide (el_original l)).

(** The ellipsis Qt inserts, U+2026 in UTF-8. *)
Definition ellipsis : string :=
  String (ascii_of_nat 226) (String (ascii_of_nat 128) (String (ascii_of_nat 166) EmptyString)).

(** A middle elision for a label [n] characters wide in a fixed-width
    font: the text when it fits, otherwise its first and last characters
    around the ellipsis. *)
Definition elide_middle (n : nat) (s : string) : string :=
  let len := String.length s in
  if (len <=? n)%nat then s
  else
    let keep := (n - 1)%nat in
    let front := Nat.div2 (S keep) in
    let back := (keep - front)%nat in
    substring 0 front s ++ ellipsis ++ substring (len - back) back s.

(** ** [QSpinBox] (qtbase, src/widgets/widgets/qabstractspinbox.cpp)

    A range and a value the range always contains: [QSpinBox()] is
    [0 .. 99] at 0; [setRange(lo, hi)] makes [hi] at least [lo] and clamps
    the value; [setValue(v)] stores [v] clamped to the range ([bound]).
    The user's arrows and typing go through the same [setValue], as the
    validator refuses text outside the range. *)
Record spinbox := SpinBox {
  sb_min : Z;
  sb_max : Z;
  sb_value : Z
}.

Definition sb_new : spinbox := SpinBox 0 99 0.

(** [QAbstractSpinBoxPrivate::bound]: clamp into [minimum, maximum]. *)
Definition sb_bound (lo hi v : Z) : Z := Z.max lo (Z.min hi v).

Definition sb_setValue (v : Z) (b : spinbox) : spinbox :=
  SpinBox (sb_min b) (sb_max b) (sb_bound (sb_min b) (sb_max b) v).

Definition sb_setRange (lo hi : Z) (b : spinbox) : spinbox :=
  let hi' := Z.max lo hi in SpinBox lo hi' (sb_bound lo hi' (sb_value b)).

(** The range is proper and holds the value. *)
Definition sb_inv (b : spinbox) : Prop := (sb_min b <= sb_value b <= sb_max b)%Z.

(** ** [QComboBox]

    The items and the current index ([-1] on an empty box).  [addItems]
    on an empty box makes the first item current (Qt selects row 0 when
    rows are inserted with no current index); [setCurrentIndex(i)] with
    [i] out of range selects nothing ([-1]); [currentText()] is [""]
    without a current item.  The result says whether [currentIndexChanged]
    is emitted. *)
Record combobox := ComboBox {
  cb_items : list string;
  cb_index : Z
}.

Definition cb_new : combobox := ComboBox [] (-1).

Definition cb_addItems (items : list string) (c : combobox) : combobox :=
  let items' := cb_items c ++ items in
  if (cb_index c <? 0)%Z && negb (bool_decide (items' = [])) then ComboBox items' 0
  else ComboBox items' (cb_index c).

Definition cb_setCurrentIndex (i : Z) (c : combobox) : combobox * bool :=
  let i' := if (0 <=? i)%Z && (i <? Z.of_nat (length (cb_items c)))%Z then i else (-1)%Z in
  (ComboBox (cb_items c) i', negb (i' =? cb_index c)%Z).

Definition cb_currentText (c : combobox) : string :=
  if (cb_index c <? 0)%Z then "" else default "" (cb_items c !! Z.to_nat (cb_index c)).

(** An item is current. *)
Definition cb_inv (c : combobox) : Prop := (0 <= cb_index c < Z.of_nat (length (cb_items c)))%Z.

Lemma pb_new_inv : pb_inv pb_new.
Proof. unfold pb_inv; simpl; lia. Qed.

Lemma pb_setValue_inv (v : Z) (b : progress_bar) : pb_inv b -> pb_inv (pb_setValue v b).
Proof.
  unfold pb_inv, pb_setValue. destruct b as [lo hi x]; simpl. intros [Hr Hv].
  destruct (Z.eqb_spec x v), (Z.ltb_spec hi v), (Z.ltb_spec v lo),
    (Z.eqb_spec hi 0), (Z.eqb_spec lo 0); simpl; lia.
Qed.

Lemma pb_setRange_inv (lo hi : Z) (b : progress_bar) : pb_inv b -> pb_inv (pb_setRange lo hi b).
Proof.
  unfold pb_inv, pb_setRange, pb_reset. destruct b as [lo0 hi0 x]; simpl. intros [Hr Hv].
  destruct (Z.eqb_spec lo lo0), (Z.eqb_spec hi hi0); simpl; try lia;
  destruct (Z.ltb_spec x (lo - 1)), (Z.ltb_spec (Z.max lo hi) x); simpl; lia.
Qed.

(** A value inside a proper range is displayed as given. *)
Lemma pb_setValue_in_range (v : Z) (b : progress_bar) :
  (pb_min b <= v <= pb_max b)%Z -> pb_value (pb_setValue v b) = v.
Proof.
  unfold pb_setValue. intros Hv.
  destruct (Z.eqb_spec (pb_value b) v); [done |].
  destruct (Z.ltb_spec (pb_max b) v), (Z.ltb_spec v (pb_min b)); simpl; try lia; done.
Qed.

(** A value outside a proper range leaves the bar unchanged. *)
Lemma pb_setValue_out_of_range (v : Z) (b : progress_bar) :
  (v < pb_min b \/ pb_max b < v)%Z -> (pb_min b <> 0 \/ pb_max b <> 0)%Z ->
  pb_setValue v b = b.
Proof.
  unfold pb_setValue. intros Hv Hr.
  destruct (Z.eqb_spec (pb_value b) v); [done |].
  destruct (Z.ltb_spec (pb_max b) v), (Z.ltb_spec v (pb_min b)),
    (Z.eqb_spec (pb_max b) 0), (Z.eqb_spec (pb_min b) 0); simpl; try lia; done.
Qed.

(** [setValue] never changes the range. *)
Lemma pb_setValue_min (v : Z) (b : progress_bar) : pb_min (pb_setValue v b) = pb_min b.
Proof. unfold pb_setValue. by case_if_match. Qed.

Lemma pb_setValue_max (v : Z) (b : progress_bar) : pb_max (pb_setValue v b) = pb_max b.
Proof. unfold pb_setValue. by case_if_match. Qed.

(** [QProgressBar()], [setRange(0, n)], [setValue(0)]: a fresh bar of range
    [0 .. n] at 0. *)
Lemma pb_fresh_range (n : Z) :
  (0 <= n)%Z ->
  let b := pb_setValue 0 (pb_setRange 0 n pb_new) in
  pb_min b = 0%Z /\ pb_max b = n /\ pb_value b = 0%Z /\ pb_inv b.
Proof.
  intros Hn. unfold pb_setRange, pb_new, pb_setValue, pb_inv, pb_reset. simpl.
  destruct (Z.eqb_spec n 100) as [-> | Hne]; simpl; [lia |].
  rewrite Z.max_r by lia. destruct (Z.ltb_spec n (-1)); simpl; [lia |].
  destruct (Z.ltb_spec n 0); simpl; [lia |]. lia.
Qed.

#[export] Hint Resolve pb_new_inv pb_setValue_inv pb_setRange_inv : ml.
#[export] Hint Rewrite pb_setValue_min pb_setValue_max : ml_rw.

Lemma sb_new_inv : sb_inv sb_new.
Proof. unfold sb_inv; simpl; lia. Qed.

Lemma sb_bound_range (lo hi v : Z) : (lo <= hi)%Z -> (lo <= sb_bound lo hi v <= hi)%Z.
Proof. unfold sb_bound; lia. Qed.

(** A value in range is kept as given. *)
Lemma sb_bound_id (lo hi v : Z) : (lo <= v <= hi)%Z -> sb_bound lo hi v = v.
Proof. unfold sb_bound; lia. Qed.

Lemma sb_setValue_inv (v : Z) (b : spinbox) : sb_inv b -> sb_inv (sb_setValue v b).
Proof. unfold sb_inv, sb_setValue, sb_bound; simpl; lia. Qed.

Lemma sb_setRange_inv (lo hi : Z) (b : spinbox) : sb_inv (sb_setRange lo hi b).
Proof. unfold sb_inv, sb_setRange, sb_bound; simpl; lia. Qed.

Lemma sb_setValue_range (v : Z) (b : spinbox) :
  sb_min (sb_setValue v b) = sb_min b /\ sb_max (sb_setValue v b) = sb_max b.
Proof. done. Qed.

Lemma cb_setCurrentIndex_items (i : Z) (c : combobox) :
  cb_items (cb_setCurrentIndex i c).1 = cb_items c.
Proof. done. Qed.

(** Selecting an index in range makes its item the current text. *)
Lemma cb_setCurrentIndex_text (i : nat) (c : combobox) (x : string) :
  cb_items c !! i = Some x -> cb_currentText (cb_setCurrentIndex (Z.of_nat i) c).1 = x.
Proof.
  intros Hi. pose proof (lookup_lt_Some _ _ _ Hi).
  unfold cb_setCurrentIndex, cb_currentText; simpl.
  destruct (Z.leb_spec 0 (Z.of_nat i)), (Z.ltb_spec (Z.of_nat i) (Z.of_nat (length (cb_items c))));
    simpl; try lia.
  destruct (Z.ltb_spec (Z.of_nat i) 0); [lia |]. by rewrite Nat2Z.id, Hi.
Qed.

#[export] Hint Resolve sb_new_inv sb_setValue_inv sb_setRange_inv : ml.

Lemma cb_addItems_new_inv (items : list string) : items <> [] -> cb_inv (cb_addItems items cb_new).
Proof.
  intros Hne. unfold cb_inv, cb_addItems; simpl.
  rewrite bool_decide_false by done. simpl. destruct items; [done |]. simpl. lia.
Qed.

Lemma cb_addItems_inv (items : list string) (c : combobox) : cb_inv c -> cb_inv (cb_addItems items c).
Proof.
  unfold cb_inv, cb_addItems. intros Hc. destruct (Z.ltb_spec (cb_index c) 0); [lia |]. simpl.
  rewrite length_app. lia.
Qed.

Lemma cb_addItems_items (items : list string) (c : combobox) :
  cb_items (cb_addItems items c) = cb_items c ++ items.
Proof. unfold cb_addItems. by case_if_match. Qed.

(** Choosing an item of the popup keeps an item current. *)
Lemma cb_setCurrentIndex_inv (i : nat) (c : combobox) :
  (i < length (cb_items c))%nat -> cb_inv (cb_setCurrentIndex (Z.of_nat i) c).1.
Proof.
  intros Hi. unfold cb_inv, cb_setCurrentIndex; simpl.
  destruct (Z.leb_spec 0 (Z.of_nat i)), (Z.ltb_spec (Z.of_nat i) (Z.of_nat (length (cb_items c))));
    simpl; lia.
Qed.

(** The current text is one of the items. *)
Lemma cb_currentText_in (c : combobox) : cb_inv c -> cb_currentText c ∈ cb_items c.
Proof.
  unfold cb_inv, cb_currentText. intros Hc. destruct (Z.ltb_spec (cb_index c) 0); [lia |].
  destruct (lookup_lt_is_Some_2 (cb_items c) (Z.to_nat (cb_index c))) as [x Hx]; [lia |].
  rewrite Hx. simpl. by eapply list_elem_of_lookup_2.
Qed.
