(* ===== verification/Runner.v ===== *)
(** * The process runner: [CommandRunnerThread]

    Two versions of the class exist:
    - src/threads.py (imported by src/MasterLinux.py): the chroot branch is
      a placeholder, so [chroot_path] is ignored; the read loop exits at
      once and the whole output is collected by [communicate()];
    - the copy at the top of src/MasterLinux_v2.py: prefixes [chroot
      <root>] and, unless [is_dpkg_command], wraps the command in
      [/bin/bash -c "<argv joined by spaces>"]; reads stdout line by line
      while [is_running], then collects the rest with [communicate()].
    Both emit [command_output_signal] for each chunk and one
    [command_finished_signal] with the return code (the v2 one only when
    its loop does not hang, below), or an error line and [-1] when
    [Popen] raises.

    The launched process is given by an environment ([ProcessEnv]): for an
    argv and a working directory, either the child's writes to its stdout
    and stderr pipes, in order, and its exit code, or the exception
    [Popen] raises.  [stop_thread] is modelled by the number of loop
    iterations that run before the thread observes [is_running = False]
    ([None]: never stopped).

    The v2 loop reads only stdout while stderr is a pipe too, read by
    nobody until [communicate()].  A child whose writes to stderr exceed
    the pipe buffer (64 KiB on Linux) blocks in that write; once the loop
    has read the complete lines written before, [readline()] waits for a
    line that never comes and the thread emits nothing more, no finished
    signal either ([v2_hangs]).  [communicate()] (the threads.py runner,
    and the v2 runner once the loop has exited) drains both pipes and
    cannot block so.  Decoding errors of [text=True] are not modelled. *)

From S2P Require Import Prelude PyStr.

Open Scope string_scope.

(** ** Data *)

(** The [command] argument: a string (split on whitespace) or a list. *)
Inductive command : Type :=
  | CmdStr (s : string)
  | CmdList (argv : list string).

(** The constructor arguments and the [is_running] flag. *)
Record runner := Runner {
  r_command : command;
  r_working_dir : option string;
  r_chroot_path : option string;
  r_is_dpkg_command : bool
}.

(** The two pipes [Popen(..., stdout=PIPE, stderr=PIPE)] gives the child. *)
Inductive pipe : Type := StdoutPipe | StderrPipe.

#[export] Instance pipe_eq_dec : EqDecision pipe.
Proof. solve_decision. Defined.

(** What [subprocess.Popen] launches: the child's writes to its pipes, in
    the order it makes them, and its exit code. *)
Record process := Process {
  p_writes : list (pipe * string);
  p_returncode : Z
}.

(** Everything the child writes to one pipe. *)
Definition pipe_text (which : pipe) (ws : list (pipe * string)) : string :=
  foldr (fun w acc => if decide (w.1 = which) then w.2 ++ acc else acc) EmptyString ws.

Definition p_stdout (p : process) : string := pipe_text StdoutPipe (p_writes p).
Definition p_stderr (p : process) : string := pipe_text StderrPipe (p_writes p).

(** A child that writes its standard output, then its standard error. *)
Definition simple_process (out err : string) (rc : Z) : process :=
  Process [(StdoutPipe, out); (StderrPipe, err)] rc.

Inductive spawn_result : Type :=
  | Spawned (p : process)
  | SpawnNotFound (msg : string)   (** [FileNotFoundError] *)
  | SpawnFailed (msg : string).    (** any other exception *)

(** The operating system, as the runner sees it. *)
Class ProcessEnv := {
  spawn : list string -> option string -> spawn_result
}.

(** The two signals of the thread. *)
Inductive signal : Type :=
  | SigOutput (text : string)
  | SigFinished (code : Z).

Definition nl : string := char (ascii_of_nat 10).

(** Python truthiness of [Optional[str]]: [None] and [""] are false. *)
Definition truthy (o : option string) : bool :=
  match o with
  | Some s => negb (String.eqb s EmptyString)
  | None => false
  end.

(** [final_command.split()] when the command is a string. *)
Definition argv_of (c : command) : list string :=
  match c with
  | CmdStr s => split_ws s
  | CmdList l => l
  end.

(** ** Building the argv *)

(** threads.py, lines 19-27: both branches keep the command. *)
Definition final_command_v1 (r : runner) : list string :=
  let final_command :=
    if truthy (r_chroot_path r) then r_command r else r_command r in
  argv_of final_command.

(** MasterLinux_v2.py, lines 21-35. *)
Definition final_command_v2 (r : runner) : list string :=
  match r_chroot_path r with
  | Some root =>
      if truthy (Some root) then
        let command_list := argv_of (r_command r) in
        if r_is_dpkg_command r then ["chroot"; root] ++ command_list
        else ["chroot"; root; "/bin/bash"; "-c"; join " " command_list]
      else argv_of (r_command r)
  | None => argv_of (r_command r)
  end.

(** ** Reading the output *)

(** [readline()]: the lines of a text, each with its newline. *)
Fixpoint lines_go (s cur : string) : list string :=
  match s with
  | EmptyString => if String.eqb cur EmptyString then [] else [cur]
  | String c s' =>
      if Ascii.eqb c (ascii_of_nat 10) then (cur ++ char c) :: lines_go s' EmptyString
      else lines_go s' (cur ++ char c)
  end.

Definition lines_of (s : string) : list string := lines_go s EmptyString.

(** The [while self.is_running] loop (v2, lines 45-50): [budget] is the
    number of iterations before the stop flag is observed.  At end of
    file the loop breaks once the process has exited.  Returns the
    emitted lines and the unread ones. *)
Fixpoint read_loop (budget : option nat) (ls : list string) : list string * list string :=
  match budget with
  | Some O => ([], ls)
  | _ =>
      match ls with
      | [] => ([], [])
      | l :: ls' =>
          let '(emitted, rest) := read_loop (option_map pred budget) ls' in
          (l :: emitted, rest)
      end
  end.

(** [communicate()] and the last emissions (v2 lines 52-58, threads.py
    lines 40-45). *)
Definition communicate_signals (stdout stderr : string) (rc : Z) : list signal :=
  (if String.eqb stdout EmptyString then [] else [SigOutput stdout])
  ++ (if String.eqb stderr EmptyString then [] else [SigOutput stderr])
  ++ [SigFinished rc].

(** The [except] clauses (v2 lines 60-66, threads.py lines 46-51). *)
Definition spawn_error_signals (res : spawn_result) : list signal :=
  match res with
  | SpawnNotFound msg => [SigOutput ("Error: Command not found: " ++ msg ++ nl); SigFinished (-1)]
  | SpawnFailed msg => [SigOutput ("Error executing command: " ++ msg ++ nl); SigFinished (-1)]
  | Spawned _ => []
  end.

#[export] Instance command_eq_dec : EqDecision command.
Proof. solve_decision. Defined.

#[export] Instance runner_eq_dec : EqDecision runner.
Proof. solve_decision. Defined.

(** An attribute holding a thread: never assigned (reading it raises
    [AttributeError]), [None], or a started thread. *)
Inductive thread_attr : Type :=
  | AttrUnset
  | AttrNone
  | AttrThread (r : runner).

(** ** The stderr pipe during the v2 loop *)

(** Linux's default pipe buffer: 16 pages of 4 KiB. *)
Definition pipe_capacity : nat := 65536.
#[global] Opaque pipe_capacity.

(** The child while the loop reads only stdout: stdout is drained, stderr
    fills up.  The stdout written before a write to stderr no longer fits
    ([Some]), or [None] when the child ends without blocking. *)
Fixpoint stdout_before_block (ws : list (pipe * string)) (err_used : nat) : option string :=
  match ws with
  | [] => None
  | (StdoutPipe, s) :: ws' => String.append s <$> stdout_before_block ws' err_used
  | (StderrPipe, s) :: ws' =>
      if (err_used + String.length s <=? pipe_capacity)%nat
      then stdout_before_block ws' (err_used + String.length s)
      else Some EmptyString
  end.

(** The lines [readline()] can return before end of file: those ending
    in a newline. *)
Definition complete_lines (s : string) : list string :=
  filter (fun l => endswith nl l = true) (lines_of s).

(** The v2 loop hangs when the child blocks and the loop runs out of
    complete lines before it observes the stop flag; the result is the
    lines it emits before [readline()] blocks for good. *)
Definition v2_hangs (budget : option nat) (p : process) : option (list string) :=
  match stdout_before_block (p_writes p) 0 with
  | None => None
  | Some written =>
      let avail := complete_lines written in
      match budget with
      | Some k => if (k <=? length avail)%nat then None else Some avail
      | None => Some avail
      end
  end.

Section Run.
Context `{ProcessEnv}.

(** [CommandRunnerThread.run] of threads.py. *)
Definition run_v1 (r : runner) : list signal :=
  match spawn (final_command_v1 r) (r_working_dir r) with
  | Spawned p => communicate_signals (p_stdout p) (p_stderr p) (p_returncode p)
  | res => spawn_error_signals res
  end.

(** [CommandRunnerThread.run] of MasterLinux_v2.py, stopped after
    [budget] iterations: the read loop, then [communicate()], unless the
    loop hangs on a child blocked writing to stderr. *)
Definition run_v2 (budget : option nat) (r : runner) : list signal :=
  match spawn (final_command_v2 r) (r_working_dir r) with
  | Spawned p =>
      match v2_hangs budget p with
      | Some avail => map SigOutput avail
      | None =>
          let '(emitted, rest) := read_loop budget (lines_of (p_stdout p)) in
          map SigOutput emitted
          ++ communicate_signals (String.concat EmptyString rest) (p_stderr p) (p_returncode p)
      end
  | res => spawn_error_signals res
  end.
End Run.

(** ** The spec's command description *)

(** §3 "Command Spec" and §6: argv, an optional target root, and whether
    the argv is passed through a shell inside the root. *)
Record spec_command := SpecCommand {
  sc_argv : list string;
  sc_target_root : option string;
  sc_shell_wrap : bool
}.

(** The argv the spec requires for a command (§4.1, §6). *)
Definition spec_argv (c : spec_command) : list string :=
  match sc_target_root c with
  | None => sc_argv c
  | Some root =>
      if sc_shell_wrap c then ["chroot"; root; "/bin/bash"; "-c"; join " " (sc_argv c)]
      else ["chroot"; root] ++ sc_argv c
  end.

(** The spec's reading of a runner's arguments. *)
Definition to_spec (r : runner) : spec_command :=
  SpecCommand (argv_of (r_command r)) (r_chroot_path r) (negb (r_is_dpkg_command r)).

(** ** Observations on the emitted signals *)

(** The text of all output signals, in order. *)
Definition output_text (sigs : list signal) : string :=
  foldr (fun s acc => match s with SigOutput t => t ++ acc | SigFinished _ => acc end)
        EmptyString sigs.

(** The codes of the finished signals, in order. *)
Definition finished_codes (sigs : list signal) : list Z :=
  foldr (fun s acc => match s with SigOutput _ => acc | SigFinished c => c :: acc end) [] sigs.

(** ** Lemmas on lines and the read loop *)






Lemma output_text_app (s1 s2 : list signal) :
  output_text (s1 ++ s2)%list = output_text s1 ++ output_text s2.
Proof. induction s1 as [|[] s1 IH]; simpl; rewrite ?IH, ?str_app_assoc; done. Qed.

Lemma output_text_map (l : list string) :
  output_text (map SigOutput l) = foldr String.append EmptyString l.
Proof. induction l; simpl; congruence. Qed.

Lemma communicate_output (out err : string) (rc : Z) :
  output_text (communicate_signals out err rc) = out ++ err.
Proof.
  unfold communicate_signals.
  destruct (String.eqb_spec out EmptyString) as [->|], (String.eqb_spec err EmptyString) as [->|];
    simpl; rewrite ?str_app_nil_r; done.
Qed.

Lemma communicate_codes (out err : string) (rc : Z) :
  finished_codes (communicate_signals out err rc) = [rc].
Proof. unfold communicate_signals. by destruct (String.eqb out _), (String.eqb err _). Qed.

Lemma finished_codes_app (s1 s2 : list signal) :
  finished_codes (s1 ++ s2)%list = (finished_codes s1 ++ finished_codes s2)%list.
Proof. induction s1 as [|[] s1 IH]; simpl; rewrite ?IH; done. Qed.

Lemma finished_codes_map (l : list string) : finished_codes (map SigOutput l) = [].
Proof. induction l; done. Qed.

#[export] Hint Rewrite output_text_app output_text_map communicate_output communicate_codes
  finished_codes_app finished_codes_map : ml_rw.

(** ** Observational equivalence of signal traces

    What a slot connected to a runner can observe: the concatenated text
    of the output signals and the codes of the finished signals.  Two
    traces are equivalent when they agree on both; the chunking of the
    text is not observed. *)
Definition sig_equiv (s1 s2 : list signal) : Prop :=
  output_text s1 = output_text s2 /\ finished_codes s1 = finished_codes s2.

Declare Scope signal_scope.
Delimit Scope signal_scope with sig.
Infix "≡ₛ" := sig_equiv (at level 70, no associativity) : signal_scope.
Open Scope signal_scope.

#[export] Instance sig_equiv_equivalence : Equivalence sig_equiv.
Proof.
  split; [done | intros ?? [??]; by split |].
  intros ??? [H1 H2] [H3 H4]; split; congruence.
Qed.

#[export] Instance app_sig_proper : Proper (sig_equiv ==> sig_equiv ==> sig_equiv) (@app signal).
Proof. intros ?? [H1 H2] ?? [H3 H4]. split; autorewrite with ml_rw; congruence. Qed.

Lemma communicate_shape (out err : string) (rc : Z) :
  exists outs, communicate_signals out err rc = (map SigOutput outs ++ [SigFinished rc])%list.
Proof.
  unfold communicate_signals.
  destruct (String.eqb out _), (String.eqb err _); simpl;
    [exists [] | exists [err] | exists [out] | exists [out; err]]; reflexivity.
Qed.

Lemma spawn_error_shape (res : spawn_result) :
  (forall p, res <> Spawned p) ->
  exists outs, spawn_error_signals res = (map SigOutput outs ++ [SigFinished (-1)])%list.
Proof.
  destruct res as [p | msg | msg]; intros Hres; [by destruct (Hres p) | |]; simpl; eexists [_]; reflexivity.
Qed.

(** ** Theorems *)

(** C7: The argv built by the v2 runner is the one the spec prescribes:
    unchanged without a target root, [chroot root] followed by the argv
    for a package tool ([is_dpkg_command]), and [chroot root /bin/bash -c]
    with the space-joined argv otherwise.  (An empty root string counts
    as no root in Python and is excluded.) *)
Theorem final_command_v2_refines (r : runner) :
  r_chroot_path r <> Some EmptyString -> final_command_v2 r = spec_argv (to_spec r).
Proof.
  unfold final_command_v2, spec_argv, to_spec, truthy; simpl.
  destruct (r_chroot_path r) as [root|]; [| done]. intros Hroot.
  destruct (String.eqb_spec root EmptyString); [congruence |].
  by destruct (r_is_dpkg_command r).
Qed.

(** C24: The v1 runner (threads.py) never prefixes [chroot]: a command meant
    for the extracted tree, e.g. the package removal of MasterLinux.py
    step 6, is executed on the host system. *)
Theorem final_command_v1_runs_on_host (r : runner) :
  final_command_v1 r = spec_argv (SpecCommand (argv_of (r_command r)) None false).
Proof. unfold final_command_v1. by destruct (truthy _). Qed.

(** Without a target root both runners build the same argv. *)
Lemma final_command_v1_v2 (r : runner) :
  truthy (r_chroot_path r) = false -> final_command_v1 r = final_command_v2 r.
Proof.
  intros Ht. unfold final_command_v1, final_command_v2.
  destruct (r_chroot_path r) as [root|]; by rewrite ?Ht.
Qed.

(** ** The pipe buffer *)

(** The child blocks exactly when its standard error does not fit in the
    pipe. *)
Lemma stdout_before_block_none (ws : list (pipe * string)) (u : nat) :
  (u <= pipe_capacity)%nat ->
  stdout_before_block ws u = None
  <-> (u + String.length (pipe_text StderrPipe ws) <= pipe_capacity)%nat.
Proof.
  revert u; induction ws as [|[[] s] ws IH]; intros u Hu; cbn [stdout_before_block pipe_text].
  - split; [intros _; cbn; lia | done].
  - rewrite fmap_None. apply IH, Hu.
  - simpl. rewrite str_length_app. destruct (Nat.leb_spec (u + String.length s) pipe_capacity).
    + rewrite IH by done. lia.
    + split; [discriminate | lia].
Qed.

(** A process whose standard error fits in the pipe buffer. *)
Definition stderr_fits (p : process) : Prop := (String.length (p_stderr p) <= pipe_capacity)%nat.



Lemma v2_hangs_overflow (p : process) :
  ~ stderr_fits p -> exists avail, v2_hangs None p = Some avail.
Proof.
  intros Hf. unfold v2_hangs.
  destruct (stdout_before_block _ 0) eqn:E; [by eexists |].
  apply stdout_before_block_none in E; [done | apply Nat.le_0_l].
Qed.


Section RunTheorems.
Context `{ProcessEnv}.



Theorem run_v1_one_finished (r : runner) :
  exists outs rc, run_v1 r = (map SigOutput outs ++ [SigFinished rc])%list.
Proof.
  unfold run_v1. destruct (spawn _ _) as [p | msg | msg].
  - destruct (communicate_shape (p_stdout p) (p_stderr p) (p_returncode p)) as [outs ->]. eauto.
  - edestruct (spawn_error_shape (SpawnNotFound msg)) as [outs ->]; [done | eauto].
  - edestruct (spawn_error_shape (SpawnFailed msg)) as [outs ->]; [done | eauto].
Qed.




(** C9: The v2 runner deadlocks on a process that writes more than a pipe
    buffer to stderr: the thread never emits [finished], so the stage
    waiting for it never continues, whereas the threads.py runner
    ([communicate()] drains both pipes) reports the return code when it
    launches the same argv. *)
Theorem run_v2_stderr_deadlock (r : runner) (p : process) :
  spawn (final_command_v2 r) (r_working_dir r) = Spawned p ->
  (pipe_capacity < String.length (p_stderr p))%nat ->
  finished_codes (run_v2 None r) = []
  /\ (truthy (r_chroot_path r) = false -> finished_codes (run_v1 r) = [p_returncode p]).
Proof.
  intros Hs Hlen. split.
  - destruct (v2_hangs_overflow p) as [avail Hh]; [unfold stderr_fits; lia |].
    unfold run_v2. rewrite Hs, Hh. apply finished_codes_map.
  - intros Ht. unfold run_v1. rewrite (final_command_v1_v2 r Ht), Hs. apply communicate_codes.
Qed.





(** A missing executable is reported as one error line and code [-1]. *)
Theorem run_v2_not_found (budget : option nat) (r : runner) (msg : string) :
  spawn (final_command_v2 r) (r_working_dir r) = SpawnNotFound msg ->
  run_v2 budget r = [SigOutput ("Error: Command not found: " ++ msg ++ nl); SigFinished (-1)].
Proof. intros Hs. unfold run_v2. by rewrite Hs. Qed.
End RunTheorems.

(** ** Concrete runs *)

(** A process table in which [chroot] prints two lines and a warning and
    every other program is missing. *)
Definition demo_process : process :=
  simple_process ("Reading package lists" ++ nl ++ "Done" ++ nl) "W: warning" 0.

Definition demo_env : ProcessEnv := {|
  spawn := fun argv _ =>
    if String.eqb (hd EmptyString argv) "chroot" then Spawned demo_process
    else SpawnNotFound "[Errno 2] No such file or directory: 'xorriso'"
|}.

(** [apt-get purge -y vim] in the extracted tree, run as a package tool. *)
Definition demo_purge : runner :=
  Runner (CmdList ["apt-get"; "purge"; "-y"; "vim"]) None (Some "/work/extracted_iso") true.

Definition demo_xorriso : runner :=
  Runner (CmdList ["xorriso"; "-osirrox"; "on"]) None None false.

Lemma final_command_v2_refines_witness :
  r_chroot_path demo_purge <> Some EmptyString
  /\ final_command_v2 demo_purge = spec_argv (to_spec demo_purge).
Proof. split; [discriminate | apply final_command_v2_refines; discriminate]. Defined.




(** [xorriso -osirrox on] extracting an image: its progress messages go to
    stderr, about 80 KB of them, then one line to stdout. *)
Definition xorriso_progress : string :=
  String.concat EmptyString (repeat ("xorriso : UPDATE :   1024 files restored in 1 s" ++ nl) 1700).

Definition xorriso_process : process :=
  Process [(StderrPipe, xorriso_progress); (StdoutPipe, "Extraction done" ++ nl)] 0.

Definition xorriso_env : ProcessEnv := {| spawn := fun _ _ => Spawned xorriso_process |}.

Lemma run_v2_stderr_deadlock_witness :
  @spawn xorriso_env (final_command_v2 demo_xorriso) (r_working_dir demo_xorriso) = Spawned xorriso_process
  /\ (pipe_capacity < String.length (p_stderr xorriso_process))%nat
  /\ finished_codes (@run_v2 xorriso_env None demo_xorriso) = []
  /\ (truthy (r_chroot_path demo_xorriso) = false ->
      finished_codes (@run_v1 xorriso_env demo_xorriso) = [p_returncode xorriso_process]).
Proof.
  assert (Hs : @spawn xorriso_env (final_command_v2 demo_xorriso) (r_working_dir demo_xorriso)
               = Spawned xorriso_process) by reflexivity.
  assert (Hl : (pipe_capacity < String.length (p_stderr xorriso_process))%nat)
    by (apply Nat.ltb_lt; vm_compute; reflexivity).
  split; [exact Hs |]. split; [exact Hl |].
  exact (@run_v2_stderr_deadlock xorriso_env demo_xorriso xorriso_process Hs Hl).
Defined.

(** The same extraction stopped before the loop's first read is drained by
    [communicate()] and reports its code. *)
Example xorriso_stopped_finishes :
  finished_codes (@run_v2 xorriso_env (Some 0) demo_xorriso) = [0%Z].
Proof. vm_compute. reflexivity. Qed.

Lemma run_v2_not_found_witness :
  @spawn demo_env (final_command_v2 demo_xorriso) (r_working_dir demo_xorriso)
    = SpawnNotFound "[Errno 2] No such file or directory: 'xorriso'"
  /\ @run_v2 demo_env None demo_xorriso
    = [SigOutput ("Error: Command not found: " ++ "[Errno 2] No such file or directory: 'xorriso'" ++ nl);
       SigFinished (-1)].
Proof.
  assert (Hs : @spawn demo_env (final_command_v2 demo_xorriso) (r_working_dir demo_xorriso)
               = SpawnNotFound "[Errno 2] No such file or directory: 'xorriso'") by reflexivity.
  split; [exact Hs | exact (@run_v2_not_found demo_env None demo_xorriso _ Hs)].
Defined.

(** The v1 runner sends the removal of [vim] to the host's apt-get, where
    the spec prescribes [chroot /work/extracted_iso apt-get purge -y vim]. *)
Example purge_on_host :
  final_command_v1 demo_purge = ["apt-get"; "purge"; "-y"; "vim"]
  /\ spec_argv (to_spec demo_purge) = ["chroot"; "/work/extracted_iso"; "apt-get"; "purge"; "-y"; "vim"].
Proof. split; reflexivity. Qed.

(** The stop flag raised after the first line changes only the chunking. *)
Example stop_after_one_line :
  @run_v2 demo_env (Some 1) demo_purge
  = [SigOutput ("Reading package lists" ++ nl); SigOutput ("Done" ++ nl);
     SigOutput "W: warning"; SigFinished 0].
Proof. reflexivity. Qed.

