(* ===== verification/Progress.v ===== *)
(** * The progress parsers

    [_process_extraction_output] (src/MasterLinux.py:556-568, identical in
    src/MasterLinux_v2.py:784-795) and [_process_iso_recreation_output]
    (src/MasterLinux.py:886-900, src/MasterLinux_v2.py:1138-1151) receive
    each output chunk of the extraction and re-creation runs and move the
    step 3 and step 7 progress bars.

    Both are modelled as handlers on the widget state they touch, in the
    [py] result type: a [try ... except (ValueError, IndexError): pass]
    becomes [py_catch]; an exception the handler does not catch is an
    [inl] result, which PyQt6 turns into a call to [qFatal] (the
    application aborts).

    The extraction marker is the literal of the source, the ASCII word
    [files] followed by Tamil letters (UTF-8 bytes here); xorriso never
    prints it, so the extraction bar never moves before the final
    [setValue(100)]. *)

From S2P Require Import Prelude PyStr PyFloat Qt.

Open Scope string_scope.
Open Scope py_scope.

(** ** Extraction ([xorriso -osirrox on -extract]) *)

Definition extraction_marker : string := "filesினாலும்".

(** The body of the [try] up to the percentage (lines 560-564). *)
Definition parse_extraction (output_text : string) : py Z :=
  let? part0 := py_index (split_sep extraction_marker output_text) 0 in
  let numbers := split_ws part0 in
  let? a := py_index numbers (-2) in
  let? current := py_int (strip a) in
  let? b := py_index numbers (-1) in
  let? total := py_int (strip b) in
  percent_of current total.

(** [_process_extraction_output] on the step 3 bar. *)
Definition process_extraction_output (output_text : string) (bar : progress_bar)
    : py progress_bar :=
  if contains extraction_marker output_text then
    py_catch [ValueError; IndexError]
      (let? percent := parse_extraction output_text in py_ret (pb_setValue percent bar))
      (fun _ => bar)
  else py_ret bar.

(** ** Re-creation ([xorriso -as mkisofs]) *)

(** The step 7 widgets the handler writes: the log and the bar. *)
Record recreation_view := RecreationView {
  rv_log : string;
  rv_bar : progress_bar
}.

Definition update_marker : string := "xorriso : UPDATE : ".

(** [_process_iso_recreation_output]: append the chunk to the log, then
    read a trailing [N%] after the last colon. *)
Definition process_iso_recreation_output (output_text : string) (v : recreation_view)
    : py recreation_view :=
  let log := rv_log v ++ output_text in
  if contains update_marker output_text then
    py_catch [ValueError; IndexError]
      (let parts := split_sep ":" output_text in
       let? last := py_index parts (-1) in
       let progress_part := strip last in
       if endswith "%" progress_part then
         let? progress_percent := py_int (drop_last progress_part) in
         py_ret (RecreationView log (pb_setValue progress_percent (rv_bar v)))
       else py_ret (RecreationView log (rv_bar v)))
      (fun _ => RecreationView log (rv_bar v))
  else py_ret (RecreationView log (rv_bar v)).

(** ** Lemmas *)

(** Close [forall d, d < 10 -> p (digit_char d) = true] by evaluation. *)
Ltac by_digits := let d := fresh "d" in let Hd := fresh "Hd" in
  intros d Hd; do 10 (destruct d as [|d]; [reflexivity |]); lia.

(** [int(s.strip())] of a printed count is the count. *)
Lemma py_int_strip_str_nat (n : nat) : py_int (strip (str_nat n)) = inr (Z.of_nat n).
Proof.
  rewrite strip_none by (apply str_nat_forallb; by_digits). apply py_int_str_nat.
Qed.

(** The part before the marker of ["<c> <t> " + marker + rest]. *)
Lemma split_extraction_counts (c t : nat) (post : string) :
  exists l, split_sep extraction_marker
              (str_nat c ++ " " ++ str_nat t ++ " " ++ extraction_marker ++ post)
            = (str_nat c ++ " " ++ str_nat t ++ " ") :: l.
Proof.
  unfold split_sep, extraction_marker.
  replace (str_nat c ++ " " ++ str_nat t ++ " " ++ "filesினாலும்" ++ post)
    with ((str_nat c ++ " " ++ str_nat t ++ " ") ++ "filesினாலும்" ++ post)
    by (rewrite !str_app_assoc; reflexivity).
  destruct (split_go_first "f" "ilesினாலும்" (str_nat c ++ " " ++ str_nat t ++ " ") post EmptyString)
    as [l Hl]; [| by exists l].
  rewrite !str_forallb_app, !str_nat_forallb by by_digits. reflexivity.
Qed.

Lemma split_ws_two_counts (c t : nat) :
  split_ws (str_nat c ++ " " ++ str_nat t ++ " ") = [str_nat c; str_nat t].
Proof.
  assert (Hw : forall n, str_forallb (fun x => negb (is_space x)) (str_nat n) = true)
    by (intros n; apply str_nat_forallb; by_digits).
  unfold split_ws. rewrite split_ws_go_word by apply Hw. cbn [String.append].
  rewrite split_ws_go_space by (done || apply str_nat_nonempty).
  rewrite split_ws_go_word by apply Hw. cbn [String.append].
  rewrite split_ws_go_space by (done || apply str_nat_nonempty). reflexivity.
Qed.

(** The extraction parser reads the two counts before the marker. *)
Lemma parse_extraction_counts (c t : nat) (post : string) :
  parse_extraction (str_nat c ++ " " ++ str_nat t ++ " " ++ extraction_marker ++ post)
  = percent_of (Z.of_nat c) (Z.of_nat t).
Proof.
  unfold parse_extraction. destruct (split_extraction_counts c t post) as [l ->].
  rewrite py_index_head, py_bind_inr, split_ws_two_counts.
  destruct (py_index_pair (str_nat c) (str_nat t)) as [-> ->].
  rewrite py_bind_inr, py_int_strip_str_nat, py_bind_inr, py_bind_inr, py_int_strip_str_nat.
  reflexivity.
Qed.

Lemma contains_marker_counts (c t : nat) (post : string) :
  contains extraction_marker
    (str_nat c ++ " " ++ str_nat t ++ " " ++ extraction_marker ++ post) = true.
Proof.
  replace (str_nat c ++ " " ++ str_nat t ++ " " ++ extraction_marker ++ post)
    with ((str_nat c ++ " " ++ str_nat t ++ " ") ++ extraction_marker ++ post)
    by (rewrite !str_app_assoc; reflexivity).
  apply contains_app_middle.
Qed.

Lemma process_extraction_counts (c t : nat) (post : string) (bar : progress_bar) :
  process_extraction_output (str_nat c ++ " " ++ str_nat t ++ " " ++ extraction_marker ++ post) bar
  = py_catch [ValueError; IndexError]
      (let? percent := percent_of (Z.of_nat c) (Z.of_nat t) in py_ret (pb_setValue percent bar))
      (fun _ => bar).
Proof.
  unfold process_extraction_output. by rewrite contains_marker_counts, parse_extraction_counts.
Qed.

(** A 7-bit character. *)
Definition is_ascii (c : ascii) : bool := (nat_of_ascii c <? 128)%nat.

(** ** Theorems *)

(** C29: The extraction bar is never moved by ASCII output: the marker the
    parser looks for contains non-ASCII bytes, so xorriso's progress lines
    ("... N of M files ...", §8's example) are ignored. *)
Theorem extraction_ascii_no_update (output_text : string) (bar : progress_bar) :
  str_forallb is_ascii output_text = true ->
  process_extraction_output output_text bar = inr bar.
Proof.
  intros Ha. unfold process_extraction_output.
  rewrite (contains_false_forallb is_ascii); [reflexivity | exact Ha | reflexivity].
Qed.

(** C30: A chunk that carries the marker after a total of [0] makes the handler
    raise [ZeroDivisionError], which the [except (ValueError, IndexError)]
    clause does not catch (§4.2 requires a guard). *)
Theorem extraction_zero_total_raises (c : nat) (post : string) (bar : progress_bar) :
  process_extraction_output (str_nat c ++ " " ++ str_nat 0 ++ " " ++ extraction_marker ++ post) bar
  = inl ZeroDivisionError.
Proof. by rewrite process_extraction_counts. Qed.

(** C31: With a non-zero total, the handler sets the bar to
    [int((current / total) * 100)], a value of [0 .. 100] equal to the
    exact floor or one less. *)
Theorem extraction_counts_percent (c t : nat) (post : string) (bar : progress_bar) :
  (c <= t)%nat -> (1 <= t <= 128)%nat ->
  exists p, process_extraction_output
              (str_nat c ++ " " ++ str_nat t ++ " " ++ extraction_marker ++ post) bar
            = inr (pb_setValue p bar)
            /\ (0 <= p <= 100)%Z
            /\ (p = percent_spec (Z.of_nat c) (Z.of_nat t)
                \/ p = percent_spec (Z.of_nat c) (Z.of_nat t) - 1)%Z.
Proof.
  intros Hc Ht. rewrite process_extraction_counts.
  destruct (percent_of_bounds (Z.of_nat c) (Z.of_nat t)) as (p & Hp & Hb); [lia | lia |].
  rewrite Hp. eauto.
Qed.

(** The re-creation handler never raises: its [try] body fails only with
    [IndexError] or [ValueError], both caught. *)
Theorem recreation_never_raises (output_text : string) (v : recreation_view) :
  exists v', process_iso_recreation_output output_text v = inr v'.
Proof.
  unfold process_iso_recreation_output. destruct (contains _ _); [| eauto].
  apply py_catch_total. intros e.
  destruct (py_index _ (-1)) as [e1|last] eqn:E1; simpl.
  - intros [= <-]. apply py_index_error in E1 as ->. repeat constructor.
  - destruct (endswith _ _); [| discriminate].
    destruct (py_int _) as [e2|n] eqn:E2; simpl; [| discriminate].
    intros [= <-]. apply py_int_error in E2 as ->. repeat constructor.
Qed.

Lemma strip_percent_str_nat (n : nat) : strip (" " ++ str_nat n ++ "%") = str_nat n ++ "%".
Proof.
  cbn [String.append]. rewrite strip_space_cons by reflexivity. apply strip_none.
  rewrite str_forallb_app, str_nat_forallb by by_digits. reflexivity.
Qed.

(** On a line ["xorriso : UPDATE : <anything>: <n>%"] the handler logs the
    chunk and sets the bar to [n] (§8: ["... : 57%"] gives [57]). *)
Theorem recreation_update_percent (mid : string) (n : nat) (v : recreation_view) :
  let t := update_marker ++ mid ++ ": " ++ str_nat n ++ "%" in
  process_iso_recreation_output t v
  = inr (RecreationView (rv_log v ++ t) (pb_setValue (Z.of_nat n) (rv_bar v))).
Proof.
  intros t. unfold process_iso_recreation_output.
  replace (contains update_marker t) with true
    by (symmetry; apply (contains_app_middle update_marker EmptyString)).
  assert (Ht : t = (update_marker ++ mid) ++ String ":" (" " ++ str_nat n ++ "%"))
    by (unfold t; rewrite str_app_assoc; reflexivity).
  destruct (split_sep_last_char ":" (update_marker ++ mid) (" " ++ str_nat n ++ "%")) as [l Hl].
  { apply (contains_false_forallb (fun x => negb (Ascii.eqb x ":"))); [| reflexivity].
    cbn [String.append str_forallb]. rewrite str_forallb_app, str_nat_forallb by by_digits.
    reflexivity. }
  rewrite <- Ht in Hl. unfold char in Hl. rewrite Hl, py_index_last, py_bind_inr, strip_percent_str_nat.
  replace (str_nat n ++ "%") with (str_nat n ++ char "%") by reflexivity.
  rewrite endswith_app, drop_last_app_char, py_int_str_nat. reflexivity.
Qed.

Example recreation_spec_example :
  process_iso_recreation_output "xorriso : UPDATE : 1.2% done, estimate finish : 57%"
    (RecreationView EmptyString pb_new)
  = inr (RecreationView "xorriso : UPDATE : 1.2% done, estimate finish : 57%"
                        (ProgressBar 0 100 57)).
Proof. vm_compute. reflexivity. Qed.

Lemma extraction_ascii_no_update_witness :
  str_forallb is_ascii "xorriso : UPDATE : 12 of 40 files" = true
  /\ process_extraction_output "xorriso : UPDATE : 12 of 40 files" pb_new = inr pb_new.
Proof. split; [reflexivity | apply extraction_ascii_no_update; reflexivity]. Defined.

Lemma extraction_counts_percent_witness :
  (12 <= 40)%nat /\ (1 <= 40 <= 128)%nat
  /\ exists p, process_extraction_output
                 (str_nat 12 ++ " " ++ str_nat 40 ++ " " ++ extraction_marker ++ EmptyString) pb_new
               = inr (pb_setValue p pb_new)
               /\ (0 <= p <= 100)%Z
               /\ (p = percent_spec (Z.of_nat 12) (Z.of_nat 40)
                   \/ p = percent_spec (Z.of_nat 12) (Z.of_nat 40) - 1)%Z.
Proof. split; [lia | split; [lia | apply extraction_counts_percent; lia]]. Defined.
