(* ===== verification/Packages.v ===== *)
(** * The package table and the apt listing parsers

    [PackageListModel] and [PackageSortFilterProxyModel]
    (src/package_models.py, copied in src/MasterLinux_v2.py:75-166) keep
    the package rows as a Python list of dicts
    [{'name', 'version', 'remove', 'status'?}]; here a row is a record
    whose [pkg_status] is [None] when the dict has no ['status'] key.  The
    listing parsers turn [apt list] output into rows:
    [_process_package_list_output] (MasterLinux.py:720-738),
    [_fetch_installed_packages] and [_fetch_available_packages]
    (MasterLinux_v2.py:824-872) and the kernel list of
    [show_kernel_selection] (MasterLinux.py:281-291). *)

From S2P Require Import Prelude PyStr.

Open Scope string_scope.
Open Scope py_scope.

(** ** Rows *)

(** The three status strings the code stores: ['removing'], ['removed'],
    ['error']. *)
Inductive removal_status : Type := Removing | Removed | StatusError.

#[export] Instance removal_status_eq_dec : EqDecision removal_status.
Proof. solve_decision. Defined.

Record package := Package {
  pkg_name : string;
  pkg_version : string;
  pkg_remove : bool;
  pkg_status : option removal_status
}.

#[export] Instance package_eq_dec : EqDecision package.
Proof. solve_decision. Defined.

(** A fresh row: [{'name': n, 'version': v, 'remove': False}]. *)
Definition new_package (name version : string) : package := Package name version false None.

Definition with_remove (b : bool) (p : package) : package :=
  Package (pkg_name p) (pkg_version p) b (pkg_status p).

Definition with_status (s : option removal_status) (p : package) : package :=
  Package (pkg_name p) (pkg_version p) (pkg_remove p) s.

(** ** [PackageListModel] *)

(** Item roles the model answers. *)
Inductive role : Type := DisplayRole | CheckStateRole | BackgroundRole | EditRole.

(** What [data] returns. *)
Inductive cell : Type :=
  | CellText (s : string)
  | CellChecked (b : bool)
  | CellColor (palette_role : string)
  | CellNone.

(** [data(index, role)] of package_models.py (lines 16-37): the
    background branch computes nothing. *)
Definition data_v1 (rows : list package) (row col : nat) (r : role) : cell :=
  match rows !! row with
  | None => CellNone
  | Some p =>
      match r, col with
      | DisplayRole, 1 => CellText (pkg_name p)
      | DisplayRole, 2 => CellText (pkg_version p)
      | CheckStateRole, 0 => CellChecked (pkg_remove p)
      | _, _ => CellNone
      end
  end.

(** [data(index, role)] of MasterLinux_v2.py (lines 87-111): the background
    follows the status. *)
Definition data_v2 (rows : list package) (row col : nat) (r : role) : cell :=
  match rows !! row with
  | None => CellNone
  | Some p =>
      match r, col with
      | DisplayRole, 1 => CellText (pkg_name p)
      | DisplayRole, 2 => CellText (pkg_version p)
      | CheckStateRole, 0 => CellChecked (pkg_remove p)
      | BackgroundRole, _ =>
          match pkg_status p with
          | Some Removing => CellColor "Mid"
          | Some Removed => CellColor "Highlight"
          | Some StatusError => CellColor "Window"
          | None => CellNone
          end
      | _, _ => CellNone
      end
  end.

(** [setData(index, value, role)] (package_models.py 51-58): only the check box of
    column 0 is editable.  An index outside the rows is invalid and
    refused. *)
Definition setData (rows : list package) (row col : nat) (checked : bool) (r : role)
    : list package * bool :=
  if decide (row < length rows)%nat then
    match r, col with
    | CheckStateRole, 0 => (alter (with_remove checked) row rows, true)
    | _, _ => (rows, false)
    end
  else (rows, false).

(** [get_checked_packages()] (package_models.py 60-61). *)
Definition get_checked_packages (rows : list package) : list string :=
  pkg_name <$> filter (fun p => pkg_remove p = true) rows.

(** [set_package_status(name, status)] (package_models.py 63-66): every row with
    that name. *)
Definition set_package_status (name : string) (s : removal_status) (rows : list package)
    : list package :=
  (fun p => if String.eqb (pkg_name p) name then with_status (Some s) p else p) <$> rows.

(** [clear_package_statuses()] (package_models.py 68-71). *)
Definition clear_package_statuses (rows : list package) : list package :=
  with_status None <$> rows.

(** The column headers, [rowCount()] and [columnCount()]
    (package_models.py 8-14). *)
Definition headers : list string := ["Remove"; "Package Name"; "Version"].

Definition rowCount (rows : list package) : nat := length rows.

Definition columnCount : nat := length headers.

Inductive orientation : Type := Horizontal | Vertical.

(** A header is a text or Qt's default (the section number). *)
Inductive header_value : Type := HeaderText (s : string) | HeaderDefault.

(** [headerData(section, orientation, role)] (package_models.py 39-42). *)
Definition headerData (section : nat) (o : orientation) (r : role) : py header_value :=
  match o, r with
  | Horizontal, DisplayRole =>
      match headers !! section with
      | Some h => py_ret (HeaderText h)
      | None => py_raise IndexError
      end
  | _, _ => py_ret HeaderDefault
  end.

(** The item flags [flags] combines. *)
Inductive item_flag : Type := ItemIsSelectable | ItemIsUserCheckable | ItemIsEnabled.

#[export] Instance item_flag_eq_dec : EqDecision item_flag.
Proof. solve_decision. Defined.

(** [index.isValid()] for the indexes a view creates: inside the table. *)
Definition index_valid (rows : list package) (row col : nat) : bool :=
  (row <? rowCount rows)%nat && (col <? columnCount)%nat.

(** [flags(index)] (package_models.py 44-49): the check column is
    checkable but not selectable; the other columns are selectable. *)
Definition flags (rows : list package) (row col : nat) : list item_flag :=
  if index_valid rows row col then
    if (col =? 0)%nat then [ItemIsUserCheckable; ItemIsEnabled] else [ItemIsEnabled; ItemIsSelectable]
  else [].

(** ** [PackageSortFilterProxyModel] *)

(** [setFilterText] stores the lowered text; [filterAcceptsRow]
    (package_models.py 82-89) matches it in the lowered name or version. *)
Definition filterAcceptsRow (filter_text : string) (p : package) : bool :=
  if String.eqb filter_text EmptyString then true
  else contains filter_text (lower (pkg_name p)) || contains filter_text (lower (pkg_version p)).

Definition setFilterText (text : string) : string := lower text.

(** The source rows the proxy shows, in order.  The view sorts on its
    sort indicator, by default the check column, whose display data is
    empty for every row; Qt's stable sort then keeps the source order.
    Sorting on another column (a header click) is not modelled. *)
Fixpoint proxy_rows_go (filter_text : string) (rows : list package) (i : nat) : list nat :=
  match rows with
  | [] => []
  | p :: rest =>
      (if filterAcceptsRow filter_text p then [i] else []) ++ proxy_rows_go filter_text rest (S i)
  end.

Definition proxy_rows (filter_text : string) (rows : list package) : list nat :=
  proxy_rows_go filter_text rows 0.

(** [QSortFilterProxyModel.mapToSource] on a row of the view. *)
Definition mapToSource (filter_text : string) (rows : list package) (row : nat) : option nat :=
  proxy_rows filter_text rows !! row.

(** ** Parsing [apt list] *)

Definition newline : string := char (ascii_of_nat 10).

(** [parts[0].split("/")[0]] and [parts[1].split(",")[0]]. *)
Definition name_version (line : string) : py package :=
  let parts := split_ws line in
  let? p0 := py_index parts 0 in
  let? name := py_index (split_sep "/" p0) 0 in
  let? p1 := py_index parts 1 in
  let? version := py_index (split_sep "," p1) 0 in
  py_ret (new_package name version).

(** The loop of [_process_package_list_output] / [_fetch_installed_packages]:
    a line is a package when it has a ['/'] and [',now']. *)
Fixpoint parse_installed_go (lines : list string) : py (list package) :=
  match lines with
  | [] => py_ret []
  | line :: rest =>
      if contains "/" line && contains ",now" line then
        let? p := name_version line in
        let? ps := parse_installed_go rest in
        py_ret (p :: ps)
      else parse_installed_go rest
  end.

Definition parse_installed (output_text : string) : py (list package) :=
  parse_installed_go (split_sep newline (strip output_text)).

(** [_fetch_available_packages] (MasterLinux_v2.py 856-865): every line with a ['/']
    that does not start with ["Listing..."]. *)
Fixpoint parse_available_go (lines : list string) : py (list package) :=
  match lines with
  | [] => py_ret []
  | line :: rest =>
      if contains "/" line && negb (startswith "Listing..." line) then
        let? p := name_version line in
        let? ps := parse_available_go rest in
        py_ret (p :: ps)
      else parse_available_go rest
  end.

Definition parse_available (output_text : string) : py (list package) :=
  parse_available_go (split_sep newline (strip output_text)).

(** [_process_package_list_output] on the model: parsed rows are appended
    when there are some; an [IndexError] escapes the slot. *)
Definition process_package_list_output (output_text : string) (rows : list package)
    : py (list package) :=
  let? package_data := parse_installed output_text in
  py_ret (if decide (package_data = []) then rows else (rows ++ package_data)%list).

(** ** Lines as [apt list --installed] prints them *)

Record apt_entry := AptEntry {
  ae_name : string;
  ae_suite : string;
  ae_version : string;
  ae_arch : string
}.

(** ["name/suite,now version arch [installed]"]. *)
Definition apt_line (e : apt_entry) : string :=
  ae_name e ++ "/" ++ ae_suite e ++ ",now " ++ ae_version e ++ " " ++ ae_arch e ++ " [installed]".

(** The output of [apt list --installed]: a header, then one line per
    package. *)
Definition apt_listing (es : list apt_entry) : string :=
  join newline ("Listing... Done" :: map apt_line es).

(** No whitespace (newlines included). *)
Definition plain (s : string) : bool := str_forallb (fun x => negb (is_space x)) s.

Definition no_char (c : ascii) (s : string) : bool := str_forallb (fun x => negb (Ascii.eqb x c)) s.

(** An entry apt can print: names without ['/'], versions without [','],
    no field with whitespace, non-empty version and architecture. *)
Definition entry_wf (e : apt_entry) : bool :=
  plain (ae_name e) && no_char "/" (ae_name e) && plain (ae_suite e)
  && plain (ae_version e) && no_char "," (ae_version e)
  && negb (String.eqb (ae_version e) EmptyString)
  && plain (ae_arch e) && negb (String.eqb (ae_arch e) EmptyString).

(** ** Lemmas on the listing *)

Ltac wf_split H :=
  unfold entry_wf in H; repeat match type of H with
  | _ && _ = true => apply andb_prop in H as [H ?]
  end.

Lemma apt_line_words (e : apt_entry) :
  apt_line e = join " " [ae_name e ++ "/" ++ ae_suite e ++ ",now"; ae_version e; ae_arch e; "[installed]"].
Proof. unfold apt_line. cbn [join]. rewrite !str_app_assoc. reflexivity. Qed.

Lemma name_version_apt_line (e : apt_entry) :
  entry_wf e = true -> name_version (apt_line e) = inr (new_package (ae_name e) (ae_version e)).
Proof.
  intros H. wf_split H. unfold plain in *.
  apply negb_true_iff, String.eqb_neq in H2. apply negb_true_iff, String.eqb_neq in H0.
  assert (Hw : Forall (fun w => str_forallb (fun x => negb (is_space x)) w = true /\ w <> EmptyString)
                 [ae_name e ++ "/" ++ ae_suite e ++ ",now"; ae_version e; ae_arch e; "[installed]"]).
  { repeat constructor; try done.
    - by rewrite !str_forallb_app, H, H5.
    - by destruct (ae_name e). }
  unfold name_version. rewrite apt_line_words, split_ws_join by done.
  rewrite py_index_head, py_bind_inr.
  destruct (split_sep_char_head "/" (ae_name e) (ae_suite e ++ ",now")) as [l Hl].
  { by apply contains_char_false. }
  unfold char in Hl. cbn [String.append]. rewrite Hl.
  rewrite py_index_head, py_bind_inr. change (py_index _ 1) with (inr (ae_version e) : py string).
  rewrite py_bind_inr. unfold split_sep. rewrite (split_go_no_occ "," (ae_version e)).
  - reflexivity.
  - by apply (contains_char_false ",").
Qed.

Lemma apt_line_no_newline (e : apt_entry) :
  entry_wf e = true -> contains newline (apt_line e) = false.
Proof.
  intros H. wf_split H. unfold plain in *. apply contains_char_false.
  assert (Hp : forall s, str_forallb (fun x => negb (is_space x)) s = true ->
                         str_forallb (fun x => negb (Ascii.eqb x (ascii_of_nat 10))) s = true).
  { intros s. apply str_forallb_impl. intros c Hc.
    destruct (Ascii.eqb_spec c (ascii_of_nat 10)) as [->|]; [discriminate | done]. }
  unfold apt_line. rewrite !str_forallb_app, (Hp _ H), (Hp _ H5), (Hp _ H4), (Hp _ H1).
  reflexivity.
Qed.

Lemma split_apt_listing (es : list apt_entry) :
  Forall (fun e => entry_wf e = true) es ->
  split_sep newline (apt_listing es) = "Listing... Done" :: map apt_line es.
Proof.
  intros Hes. apply split_join_char; [done |]. constructor; [reflexivity |].
  apply Forall_map. eapply Forall_impl; [exact Hes |]. intros e. apply apt_line_no_newline.
Qed.

(** Everything of an [apt list] line but its closing bracket. *)
Definition apt_line_body (e : apt_entry) : string :=
  ae_name e ++ "/" ++ ae_suite e ++ ",now " ++ ae_version e ++ " " ++ ae_arch e ++ " [installed".

Lemma apt_line_body_close (e : apt_entry) : apt_line e = apt_line_body e ++ char "]".
Proof. unfold apt_line, apt_line_body. rewrite !str_app_assoc. reflexivity. Qed.

Lemma strip_apt_listing (es : list apt_entry) : strip (apt_listing es) = apt_listing es.
Proof.
  unfold apt_listing. destruct es as [|e es'] using rev_ind; [reflexivity |].
  rewrite map_app. cbn [map].
  rewrite (app_comm_cons _ _ "Listing... Done"), join_snoc by done.
  destruct (join_cons_head newline "L" "isting... Done" (map apt_line es')) as [t ->].
  rewrite apt_line_body_close.
  change (String "L" t ++ newline ++ apt_line_body e ++ char "]")
    with (String "L" (t ++ newline ++ apt_line_body e ++ char "]")).
  apply (strip_bounded_ex "L" "]"); [reflexivity | reflexivity |].
  exists (t ++ newline ++ apt_line_body e). by rewrite !str_app_assoc.
Qed.

Lemma parse_installed_go_apt (es : list apt_entry) :
  Forall (fun e => entry_wf e = true) es ->
  parse_installed_go (map apt_line es) = inr (map (fun e => new_package (ae_name e) (ae_version e)) es).
Proof.
  induction 1 as [|e es He Hes IH]; [reflexivity |]. cbn [map parse_installed_go].
  replace (contains "/" (apt_line e)) with true
    by (symmetry; apply (contains_app_middle "/" (ae_name e))).
  replace (contains ",now" (apt_line e)) with true
    by (symmetry;
        replace (apt_line e) with ((ae_name e ++ "/" ++ ae_suite e) ++ ",now"
                                   ++ (" " ++ ae_version e ++ " " ++ ae_arch e ++ " [installed]"))
          by (unfold apt_line; rewrite !str_app_assoc; reflexivity);
        apply contains_app_middle).
  rewrite name_version_apt_line, py_bind_inr, IH by done. reflexivity.
Qed.

(** ** Theorems *)

(** C32: Parsing what [apt list --installed] prints gives back, in order, the
    name and version of every listed package, as fresh unselected rows. *)
Theorem apt_listing_roundtrip (es : list apt_entry) :
  Forall (fun e => entry_wf e = true) es ->
  parse_installed (apt_listing es)
  = inr (map (fun e => new_package (ae_name e) (ae_version e)) es).
Proof.
  intros Hes. unfold parse_installed.
  rewrite strip_apt_listing, split_apt_listing by done.
  cbn [parse_installed_go]. replace (contains "/" "Listing... Done") with false by reflexivity.
  apply parse_installed_go_apt, Hes.
Qed.

(** §3 requires package names to be unique; a multi-arch listing makes the
    parser return two rows with the same name. *)
Example multiarch_duplicate_names :
  parse_installed (apt_listing [AptEntry "libc6" "jammy" "2.35" "amd64";
                                AptEntry "libc6" "jammy" "2.35" "i386"])
  = inr [new_package "libc6" "2.35"; new_package "libc6" "2.35"].
Proof. vm_compute. reflexivity. Qed.

(** The listing loop over two blocks of lines: the packages of the first,
    then those of the second. *)
Lemma parse_installed_go_app (pre rest : list string) (ps : list package) :
  parse_installed_go pre = inr ps ->
  parse_installed_go (pre ++ rest) = (let? qs := parse_installed_go rest in py_ret (ps ++ qs)%list).
Proof.
  revert ps; induction pre as [|l pre IH]; intros ps Hpre; cbn [app parse_installed_go] in *.
  - injection Hpre as <-. by destruct (parse_installed_go rest).
  - destruct (contains "/" l && contains ",now" l); [| by apply IH].
    destruct (name_version l) as [e|p]; [discriminate |]. rewrite py_bind_inr in *.
    destruct (parse_installed_go pre) as [e|ps'] eqn:E; [discriminate |].
    rewrite py_bind_inr in Hpre. injection Hpre as <-. rewrite (IH ps' eq_refl).
    by destruct (parse_installed_go rest).
Qed.

(** A non-empty line without whitespace is one field, and has no
    [parts[1]]. *)
Lemma name_version_one_field (line : string) :
  plain line = true -> line <> EmptyString -> name_version line = inl IndexError.
Proof.
  intros Hp Hne. unfold name_version.
  assert (Hw : split_ws line = [line]).
  { unfold split_ws. rewrite <- (str_app_nil_r line) at 1. rewrite split_ws_go_word by done.
    cbn [split_ws_go String.append]. by destruct (String.eqb_spec line EmptyString). }
  rewrite Hw, py_index_head, py_bind_inr.
  destruct (split_sep "/" line) as [|p0 l0] eqn:E; [by apply split_go_nonempty in E |].
  rewrite py_index_head, py_bind_inr. reflexivity.
Qed.

(** C33: In the loop over the lines of [apt list --installed], once the
    lines before it parse, a line without whitespace that contains ['/']
    and [',now'] (a single field, as in a truncated listing) raises
    [IndexError] out of the slot (MasterLinux.py:728), whatever follows. *)
Theorem parse_installed_one_field (pre rest : list string) (ps : list package) (line : string) :
  parse_installed_go pre = inr ps -> plain line = true ->
  contains "/" line = true -> contains ",now" line = true ->
  parse_installed_go (pre ++ line :: rest) = inl IndexError.
Proof.
  intros Hpre Hp H1 H2. rewrite (parse_installed_go_app _ _ _ Hpre).
  cbn [parse_installed_go]. rewrite H1, H2. cbn [andb].
  rewrite name_version_one_field; [reflexivity | done |].
  intros ->. by vm_compute in H1.
Qed.

Lemma parse_installed_one_field_witness :
  parse_installed_go ["Listing... Done"] = inr [] /\ plain "foo/bar,now" = true
  /\ contains "/" "foo/bar,now" = true /\ contains ",now" "foo/bar,now" = true
  /\ parse_installed_go (["Listing... Done"] ++ ["foo/bar,now"]) = inl IndexError.
Proof.
  assert (H0 : parse_installed_go ["Listing... Done"] = inr []) by (vm_compute; reflexivity).
  assert (Hp : plain "foo/bar,now" = true) by (vm_compute; reflexivity).
  assert (H1 : contains "/" "foo/bar,now" = true) by (vm_compute; reflexivity).
  assert (H2 : contains ",now" "foo/bar,now" = true) by (vm_compute; reflexivity).
  split_and!; [exact H0 | exact Hp | exact H1 | exact H2 |].
  exact (parse_installed_one_field ["Listing... Done"] [] [] "foo/bar,now" H0 Hp H1 H2).
Defined.

Lemma with_status_twice (s s' : option removal_status) (p : package) :
  with_status s (with_status s' p) = with_status s p.
Proof. reflexivity. Qed.

Lemma pkg_name_with_status (s : option removal_status) (p : package) :
  pkg_name (with_status s p) = pkg_name p.
Proof. reflexivity. Qed.

#[export] Hint Rewrite with_status_twice pkg_name_with_status : ml_rw.

Lemma set_package_status_lookup (name : string) (s : removal_status) (rows : list package) (i : nat) :
  set_package_status name s rows !! i
  = (fun p => if String.eqb (pkg_name p) name then with_status (Some s) p else p) <$> rows !! i.
Proof. apply list_lookup_fmap. Qed.

(** Setting the statuses of a list of names, one after the other: every
    row whose name is listed ends with its name's status. *)
Lemma set_statuses_lookup (f : string -> removal_status) (names : list string)
    (rows : list package) (i : nat) (r : package) :
  rows !! i = Some r ->
  foldl (fun rows name => set_package_status name (f name) rows) rows names !! i
  = Some (if decide (pkg_name r ∈ names) then with_status (Some (f (pkg_name r))) r else r).
Proof.
  induction names as [|n ns IH] in rows, r |- *; intros Hi; cbn [foldl].
  - by rewrite decide_False by apply not_elem_of_nil.
  - erewrite IH; [| rewrite set_package_status_lookup, Hi; reflexivity].
    destruct (String.eqb_spec (pkg_name r) n) as [<- | Hne]; simpl.
    + rewrite (decide_True _ _ (list_elem_of_here _ _)). by destruct (decide _).
    + destruct (decide (pkg_name r ∈ ns)), (decide (pkg_name r ∈ n :: ns)) as [Hin | Hin];
        rewrite ?elem_of_cons in Hin; naive_solver.
Qed.

(** Checking the box of row [i] puts that row's name in the removal
    list, and changes no other row. *)
Theorem setData_check (rows : list package) (i : nat) (p : package) :
  rows !! i = Some p ->
  setData rows i 0 true CheckStateRole = (<[i := with_remove true p]> rows, true)
  /\ pkg_name p ∈ get_checked_packages (<[i := with_remove true p]> rows).
Proof.
  intros Hi. assert (Hlt : (i < length rows)%nat) by (eapply lookup_lt_Some; eauto).
  split.
  - unfold setData. rewrite decide_True by done. f_equal.
    apply list_eq. intros j. rewrite list_lookup_alter.
    destruct (decide (i = j)) as [->|Hne].
    + by rewrite list_lookup_insert_eq, Hi.
    + by rewrite list_lookup_insert_ne.
  - unfold get_checked_packages. apply list_elem_of_fmap. exists (with_remove true p).
    split; [done |]. apply list_elem_of_filter. split; [done |].
    apply list_elem_of_lookup. exists i. by apply list_lookup_insert_eq.
Qed.

Lemma setData_check_witness :
  [new_package "vim" "9.0"] !! 0 = Some (new_package "vim" "9.0")
  /\ setData [new_package "vim" "9.0"] 0 0 true CheckStateRole
     = (<[0 := with_remove true (new_package "vim" "9.0")]> [new_package "vim" "9.0"], true)
  /\ pkg_name (new_package "vim" "9.0")
       ∈ get_checked_packages (<[0 := with_remove true (new_package "vim" "9.0")]> [new_package "vim" "9.0"]).
Proof. split; [reflexivity | apply setData_check; reflexivity]. Defined.

Lemma apt_listing_roundtrip_witness :
  Forall (fun e => entry_wf e = true) [AptEntry "bash" "jammy" "5.1-6ubuntu1" "amd64"]
  /\ parse_installed (apt_listing [AptEntry "bash" "jammy" "5.1-6ubuntu1" "amd64"])
     = inr (map (fun e => new_package (ae_name e) (ae_version e))
                [AptEntry "bash" "jammy" "5.1-6ubuntu1" "amd64"]).
Proof.
  assert (H : Forall (fun e => entry_wf e = true) [AptEntry "bash" "jammy" "5.1-6ubuntu1" "amd64"])
    by (repeat constructor).
  split; [exact H | exact (apt_listing_roundtrip _ H)].
Defined.
