(* ===== verification/Delegate.v ===== *)
(** * [CenteredIconDelegate] (src/widgets.py 23-43, MasterLinux_v2.py 322-344)

    The delegate of the package tables paints the check column itself: it
    takes the cell rectangle, cuts it to a square of the row's height
    ([adjusted]), centres that square on the cell ([moveCenter]) and asks
    the style to draw a check box there.  [QRect] is Qt 6's (qrect.h): two
    corners, inclusive, so [width() = x2 - x1 + 1]; [center()] and
    [moveCenter] divide by 2 with C++'s truncating division ([Z.quot]).
    Cell coordinates are small non-negative [int]s, so the 32-bit
    arithmetic never wraps and [Z] is exact.

    Neither version reaches the drawing: src/widgets.py passes a
    [QCheckBox] widget where [QStyle.drawControl] takes a [QStyleOption]
    ([TypeError]); MasterLinux_v2.py builds a [QStyleOptionButton] but
    calls [option.style()], which [QStyleOptionViewItem] does not have
    ([AttributeError]).  [paint] of the other columns is the default. *)

From S2P Require Import Prelude Packages.

Local Open Scope Z_scope.

Record qrect := QRect {
  r_x1 : Z;
  r_y1 : Z;
  r_x2 : Z;
  r_y2 : Z
}.

(** [QRect(x, y, w, h)]. *)
Definition qrect_of (x y w h : Z) : qrect := QRect x y (x + w - 1) (y + h - 1).

Definition width (r : qrect) : Z := r_x2 r - r_x1 r + 1.
Definition height (r : qrect) : Z := r_y2 r - r_y1 r + 1.

Definition adjusted (dx1 dy1 dx2 dy2 : Z) (r : qrect) : qrect :=
  QRect (r_x1 r + dx1) (r_y1 r + dy1) (r_x2 r + dx2) (r_y2 r + dy2).

Definition center (r : qrect) : Z * Z := ((r_x1 r + r_x2 r) ÷ 2, (r_y1 r + r_y2 r) ÷ 2)%Z.

Definition moveCenter (p : Z * Z) (r : qrect) : qrect :=
  let w := (r_x2 r - r_x1 r)%Z in
  let h := (r_y2 r - r_y1 r)%Z in
  let x1 := (p.1 - w ÷ 2)%Z in
  let y1 := (p.2 - h ÷ 2)%Z in
  QRect x1 y1 (x1 + w) (y1 + h).

(** Lines 26-27 (v2 325-326): the check box rectangle of a cell. *)
Definition checkbox_rect (cell : qrect) : qrect :=
  moveCenter (center cell) (adjusted 0 0 (- width cell + height cell) 0 cell).

(** What [paint] does. *)
Inductive paint_result : Type :=
  | DefaultPaint.                 (** [super().paint(painter, option, index)] *)

(** Lines 30-34: the placeholder state, 2 for a checked row, 0 otherwise. *)
Definition check_state_v1 (rows : list package) (row : nat) : Z :=
  match data_v1 rows row 0 CheckStateRole with CellChecked true => 2 | _ => 0 end%Z.

(** [paint(painter, option, index)] of src/widgets.py: in the check column
    the rectangle and state are computed, then [drawControl] receives the
    [QCheckBox] [opt] as its style option and raises [TypeError]. *)
Definition paint_v1 (rows : list package) (row col : nat) (cell : qrect) : py paint_result :=
  if (col =? 0)%nat then
    let _ := checkbox_rect cell in
    let _ := check_state_v1 rows row in
    py_raise TypeError
  else py_ret DefaultPaint.

(** Lines 328-331 of MasterLinux_v2.py: [Qt.CheckState.Checked] ([true])
    for a checked row, [Unchecked] otherwise. *)
Definition check_state_v2 (rows : list package) (row : nat) : bool :=
  match data_v2 rows row 0 CheckStateRole with CellChecked true => true | _ => false end.

(** [paint] of MasterLinux_v2.py: [option.style()] raises
    [AttributeError] (the assignment of a [Qt.CheckState] to the
    [QStyle.StateFlag] field [opt.state] just before may already be
    refused). *)
Definition paint_v2 (rows : list package) (row col : nat) (cell : qrect) : py paint_result :=
  if (col =? 0)%nat then
    let _ := checkbox_rect cell in
    let _ := check_state_v2 rows row in
    py_raise AttributeError
  else py_ret DefaultPaint.


(** ** Geometry of the check box *)

Lemma quot2_bounds (x : Z) : (0 <= x)%Z -> (2 * (x ÷ 2) <= x <= 2 * (x ÷ 2) + 1)%Z.
Proof.
  intros Hx. rewrite Z.quot_div_nonneg by lia.
  pose proof (Z.div_mod x 2 ltac:(lia)). pose proof (Z.mod_pos_bound x 2 ltac:(lia)). lia.
Qed.

Lemma quot2_unique (x q : Z) : (0 <= x)%Z -> (2 * q <= x <= 2 * q + 1)%Z -> x ÷ 2 = q.
Proof.
  intros Hx Hq. rewrite Z.quot_div_nonneg by lia. symmetry. apply Z.div_unique with (x - 2 * q); lia.
Qed.

(** The centre of a rectangle whose left edge is [x1] and whose width is
    [k + 1] is [x1 + k ÷ 2]. *)
Lemma quot2_shift (x1 k : Z) : (0 <= x1)%Z -> (0 <= k)%Z -> (x1 + (x1 + k)) ÷ 2 = (x1 + k ÷ 2)%Z.
Proof.
  intros Hx Hk. pose proof (quot2_bounds k Hk). apply quot2_unique; lia.
Qed.

(** C35: For a cell at non-negative coordinates at least as wide as it is
    high, the rectangle [CenteredIconDelegate.paint] computes for the
    check box is a square of the row's height, spans the cell's rows,
    lies inside the cell and has the cell's centre. *)
Theorem checkbox_rect_centered (cell : qrect) :
  (0 <= r_x1 cell)%Z -> (0 <= r_y1 cell)%Z -> (1 <= height cell <= width cell)%Z ->
  let r := checkbox_rect cell in
  width r = height cell /\ height r = height cell
  /\ r_y1 r = r_y1 cell /\ r_y2 r = r_y2 cell
  /\ (r_x1 cell <= r_x1 r)%Z /\ (r_x2 r <= r_x2 cell)%Z
  /\ center r = center cell.
Proof.
  destruct cell as [a b c d]. unfold width, height; simpl. intros Ha Hb Hh.
  unfold checkbox_rect, moveCenter, adjusted, center, width, height; simpl.
  set (k := (d - b)%Z). set (j := (c - a)%Z).
  replace (b + d)%Z with (b + (b + k))%Z by (subst k; lia).
  replace (a + c)%Z with (a + (a + j))%Z by (subst j; lia).
  rewrite !quot2_shift by lia.
  replace (c + (- (j + 1) + (k + 1)) - (a + 0)) with k by (subst j k; lia).
  replace (d + 0 - (b + 0)) with k by (subst k; lia).
  pose proof (quot2_bounds k ltac:(lia)). pose proof (quot2_bounds j ltac:(lia)).
  assert (j ÷ 2 - k ÷ 2 <= j - k) by (destruct (Z.eq_dec j k) as [-> | Hne]; lia).
  rewrite (quot2_shift (a + j ÷ 2 - k ÷ 2)), (quot2_shift (b + k ÷ 2 - k ÷ 2)) by lia.
  split_and!; f_equal; lia.
Qed.

(** The check column of src/widgets.py: every cell raises. *)
Lemma paint_v1_check_column (rows : list package) (row : nat) (cell : qrect) :
  paint_v1 rows row 0 cell = inl TypeError.
Proof. done. Qed.

(** A 300 by 24 cell at (0, 48): the check box is the 24 by 24 square at
    (138, 48). *)
Example checkbox_rect_row_3 : checkbox_rect (qrect_of 0 48 300 24) = qrect_of 138 48 24 24.
Proof. reflexivity. Qed.

Lemma checkbox_rect_centered_witness :
  let cell := qrect_of 0 48 300 24 in
  (0 <= r_x1 cell) /\ (0 <= r_y1 cell) /\ (1 <= height cell <= width cell)
  /\ (let r := checkbox_rect cell in
      width r = height cell /\ height r = height cell
      /\ r_y1 r = r_y1 cell /\ r_y2 r = r_y2 cell
      /\ (r_x1 cell <= r_x1 r) /\ (r_x2 r <= r_x2 cell)
      /\ center r = center cell).
Proof.
  simpl. split; [lia |]. split; [lia |]. split; [vm_compute; split; discriminate |].
  apply checkbox_rect_centered; vm_compute; try split; discriminate.
Defined.
