(* ===== verification/Commands.v ===== *)
(** * The commands the wizards build

    The argv lists both wizards hand to the runner, and the file-system
    effects that come with them:
    - the extraction command of [_extract_iso] (src/MasterLinux.py
      525-553, src/MasterLinux_v2.py 757-782);
    - the options of [AdvancedCompressionDialog.get_compression_options]
      (src/dialogs.py 110-120) and the re-creation command of
      [_start_iso_recreation] (MasterLinux.py 817-884, MasterLinux_v2.py
      1073-1136), with the boot-logo installation it does on the way;
    - the output path of [browse_output_iso_location] (MasterLinux.py
      335-346);
    - the ISO information of [_populate_iso_info] (MasterLinux.py 348-390,
      MasterLinux_v2.py 672-712) and the kernel list of
      [show_kernel_selection] (MasterLinux.py 272-309), which run a
      command synchronously with [subprocess.run(..., check=True)];
    - the configuration batch of [_apply_package_changes]
      (MasterLinux_v2.py 905-1008).

    The file system is a set of directories and a map from file paths to
    contents ([fsys]); [os.path.exists] is membership in either. *)

From stdpp Require Import gmap.
From S2P Require Import Prelude PyStr Runner Packages.

Open Scope string_scope.
Open Scope py_scope.

(** ** The file system *)

Record fsys := FS {
  fs_dirs : gset string;
  fs_files : gmap string string
}.

(** [os.path.exists(p)]. *)
Definition fs_exists (fs : fsys) (p : string) : bool :=
  bool_decide (p ∈ fs_dirs fs) || bool_decide (is_Some (fs_files fs !! p)).

(** [os.makedirs(d)] (the parents are not modelled). *)
Definition fs_makedirs (fs : fsys) (d : string) : fsys := FS ({[d]} ∪ fs_dirs fs) (fs_files fs).

(** [shutil.copy(src, dst)]: an [IOError] when the source is not a file or
    the destination's directory does not exist. *)
Definition fs_copy (fs : fsys) (src dst : string) : py fsys :=
  match fs_files fs !! src with
  | Some c => if bool_decide (dirname dst ∈ fs_dirs fs) then py_ret (FS (fs_dirs fs) (<[dst := c]> (fs_files fs)))
              else py_raise FileNotFoundError
  | None => py_raise FileNotFoundError
  end.

(** [open(p, "a").write(s)] on an existing file. *)
Definition fs_append (fs : fsys) (p s : string) : fsys :=
  match fs_files fs !! p with
  | Some c => FS (fs_dirs fs) (<[p := c ++ s]> (fs_files fs))
  | None => FS (fs_dirs fs) (<[p := s]> (fs_files fs))
  end.

(** ** Extraction *)

(** [os.path.join(working_folder, "extracted_iso")]. *)
Definition extracted_path (working_folder : string) : string := path_join working_folder "extracted_iso".

(** [cmd] of [_extract_iso]. *)
Definition extract_command (iso_file extracted : string) : list string :=
  ["xorriso"; "-osirrox"; "on"; "-indev"; iso_file; "-extract"; "/"; extracted].

(** ** Compression options and re-creation *)

Record compression_options := CompressionOptions {
  co_method : string;
  co_level : Z;
  co_threads : Z;
  co_custom_command : string
}.

(** [get_compression_options()]: the custom command only for ["Custom"]. *)
Definition get_compression_options (method : string) (level threads : Z) (custom_text : string)
    : compression_options :=
  CompressionOptions method level threads (if String.eqb method "Custom" then custom_text else "").

(** The default of [_start_iso_recreation]. *)
Definition default_compression : compression_options := CompressionOptions "gzip" 6 0 "".

(** [self.compression_options] is [{}] until the dialog is accepted. *)
Definition effective_compression (opts : option compression_options) : compression_options :=
  default (default_compression) opts.

(** The fixed part of the xorriso command. *)
Definition recreation_base (output_iso_file : string) : list string :=
  ["xorriso"; "-as"; "mkisofs"; "-r"; "-J"; "-joliet-long"; "-l"; "-cache-inodes"; "-follow-links";
   "-o"; output_iso_file; "-b"; "isolinux/isolinux.bin"; "-c"; "isolinux/boot.cat"; "-no-emul-boot";
   "-boot-load-size"; "4"; "-boot-info-table"; "-isohybrid-mbr"; "isolinux/isohdpfx.bin";
   "-eltorito-alt-boot"; "-e"; "boot/grub/efi.img"; "-no-emul-boot"; "-isohybrid-gpt-basdat"].

(** [cmd] of [_start_iso_recreation]: the preseed option when the file
    exists, then the source directory. *)
Definition recreation_command (fs : fsys) (output_iso_file preseed_file extracted : string) : list string :=
  (recreation_base output_iso_file
   ++ (if negb (String.eqb preseed_file "") && fs_exists fs preseed_file
       then ["-preseed"; preseed_file] else [])
   ++ [extracted])%list.

(** The boot-logo block of [_start_iso_recreation]: copy the logo to
    [isolinux/logo.png] and append the menu lines to [isolinux.cfg];
    a failed copy is a warning. *)
Definition install_boot_logo (fs : fsys) (boot_logo_path extracted : string) : fsys * list string :=
  if negb (String.eqb boot_logo_path "") && fs_exists fs boot_logo_path then
    let isolinux_dir := path_join extracted "isolinux" in
    let fs1 := if fs_exists fs isolinux_dir then fs else fs_makedirs fs isolinux_dir in
    let logo_dest_path := path_join isolinux_dir "logo.png" in
    match fs_copy fs1 boot_logo_path logo_dest_path with
    | inr fs2 =>
        let cfg_path := path_join isolinux_dir "isolinux.cfg" in
        if fs_exists fs2 cfg_path
        then (fs_append fs2 cfg_path (nl ++ "UI vesamenu.c32" ++ nl ++ "MENU BACKGROUND logo.png" ++ nl), [])
        else (fs2, [])
    | inl _ => (fs1, ["Failed to copy boot logo"])
    end
  else (fs, []).

(** ** The output path *)

(** The suggested path of [browse_output_iso_location]. *)
Definition default_output_path (iso_file : string) : string :=
  path_join (dirname iso_file) ("custom-" ++ basename iso_file).

(** [if not file_path.lower().endswith(".iso"): file_path += ".iso"]. *)
Definition ensure_iso_suffix (file_path : string) : string :=
  if endswith ".iso" (lower file_path) then file_path else file_path ++ ".iso".

(** ** Synchronous commands *)

(** [subprocess.run(cmd, capture_output=True, text=True, check=True)]. *)
Inductive run_result : Type :=
  | RunOk (stdout : string)
  | RunNotFound                       (** [FileNotFoundError] *)
  | RunCalledProcessError (stderr : string)
  | RunOtherError.

Section Sync.
Context `{ProcessEnv}.

Definition subprocess_run (cmd : list string) : run_result :=
  match spawn cmd None with
  | Spawned p => if (p_returncode p =? 0)%Z then RunOk (p_stdout p) else RunCalledProcessError (p_stderr p)
  | SpawnNotFound _ => RunNotFound
  | SpawnFailed _ => RunOtherError
  end.

End Sync.

(** ** [_populate_iso_info] *)

Record iso_info := IsoInfo {
  iso_name : string;
  iso_version : string;
  iso_architecture : string
}.

(** The loop over the report lines: the last [System_ID=] and
    [Application_ID=] lines win; [line.split("=")[1].strip("'")]. *)
Fixpoint iso_report_go (lines : list string) (iso_name iso_version : string) : py (string * string) :=
  match lines with
  | [] => py_ret (iso_name, iso_version)
  | line :: rest =>
      if startswith "System_ID=" line then
        let? v := py_index (split_sep "=" line) 1 in iso_report_go rest (strip_chars "'" v) iso_version
      else if startswith "Application_ID=" line then
        let? v := py_index (split_sep "=" line) 1 in iso_report_go rest iso_name (strip_chars "'" v)
      else iso_report_go rest iso_name iso_version
  end.

(** The architecture guessed from the file name. *)
Definition iso_architecture_of (iso_path : string) : string :=
  let filename := lower (basename iso_path) in
  if contains "amd64" filename then "amd64"
  else if contains "i386" filename then "i386"
  else if contains "arm64" filename then "arm64"
  else "Unknown".

(** What the slot does to the three fields, or the dialog it shows. *)
Inductive iso_info_outcome : Type :=
  | InfoUnchanged
  | InfoSet (info : iso_info)
  | InfoDialog (message : string).

(** The report options: [-report_system_id - -report_application_id -] in
    MasterLinux.py, [-report_system_area as_mkisofs] in MasterLinux_v2.py. *)
Definition report_args_v1 : list string := ["-report_system_id"; "-"; "-report_application_id"; "-"].
Definition report_args_v2 : list string := ["-report_system_area"; "as_mkisofs"].

(** The [try] body after [subprocess.run] and the [except] clauses, on
    the result of the run. *)
Definition iso_info_of_run (iso_path : string) (r : run_result) : iso_info_outcome :=
  match r with
  | RunOk out =>
      match iso_report_go (split_sep newline (strip out)) "Unknown" "Unknown" with
      | inr (n, v) => InfoSet (IsoInfo n v (iso_architecture_of iso_path))
      | inl _ => InfoDialog "An unexpected error occurred during ISO info extraction"
      end
  | RunNotFound => InfoDialog "xorriso command not found. Is it installed?"
  | RunCalledProcessError err => InfoDialog ("Error extracting ISO info with xorriso: " ++ err)
  | RunOtherError => InfoDialog "An unexpected error occurred during ISO info extraction"
  end.

(** The command [_populate_iso_info] runs. *)
Definition iso_info_command (report_args : list string) (iso_path : string) : list string :=
  "xorriso" :: "-indev" :: iso_path :: report_args.

Section IsoInfo.
Context `{ProcessEnv}.

Definition populate_iso_info (report_args : list string) (iso_path : string) : iso_info_outcome :=
  if String.eqb iso_path "" then InfoUnchanged
  else iso_info_of_run iso_path (subprocess_run (iso_info_command report_args iso_path)).

End IsoInfo.

(** ** [show_kernel_selection] *)

Record kernel := Kernel {
  k_name : string;
  k_version : string;
  k_remove : bool
}.

(** One listing line: [parts[0].split("/")[0]] (or ["Unknown"]) and
    [parts[1].split(",")[0]] (or ["Unknown"]). *)
Definition kernel_line (line : string) : py kernel :=
  let parts := split_ws line in
  let? p0 := py_index parts 0 in
  let kernel_name := match split_sep "/" p0 with k :: _ => k | [] => "Unknown" end in
  let? p1 := py_index parts 1 in
  let version := match split_sep "," p1 with v :: _ => v | [] => "Unknown" end in
  py_ret (Kernel kernel_name version false).

Fixpoint parse_kernels (lines : list string) : py (list kernel) :=
  match lines with
  | [] => py_ret []
  | line :: rest =>
      if contains "linux-image-" line && contains "installed" line then
        let? k := kernel_line line in
        let? ks := parse_kernels rest in
        py_ret (k :: ks)
      else parse_kernels rest
  end.

Inductive kernel_outcome : Type :=
  | KernelNotExtracted                 (** the warning before any command *)
  | KernelNoneFound                    (** "No alternative kernels found." *)
  | KernelDialog (kernels : list kernel)
  | KernelError (message : string).

(** The listing command; [apt_tool] is ["apt"] in MasterLinux.py and
    ["apt-get"] in MasterLinux_v2.py. *)
Definition kernel_command (apt_tool extracted : string) : list string :=
  ["chroot"; extracted; apt_tool; "list"; "--installed"; "linux-image-*"].

(** The [try] body after [subprocess.run] and the [except] clauses. *)
Definition kernel_outcome_of_run (r : run_result) : kernel_outcome :=
  match r with
  | RunOk out =>
      match parse_kernels (split_sep newline (strip out)) with
      | inr [] => KernelNoneFound
      | inr ks => KernelDialog ks
      | inl _ => KernelError "An unexpected error occurred"
      end
  | RunNotFound => KernelError "'chroot' or 'apt' command not found."
  | RunCalledProcessError err => KernelError ("Error listing kernels: " ++ err)
  | RunOtherError => KernelError "An unexpected error occurred"
  end.

(** The guard on the extracted tree. *)
Definition kernel_guard (fs : fsys) (extracted : string) : bool :=
  String.eqb extracted "" || negb (fs_exists fs extracted).

Section Kernels.
Context `{ProcessEnv}.

Definition show_kernel_selection (fs : fsys) (apt_tool extracted : string) : kernel_outcome :=
  if kernel_guard fs extracted then KernelNotExtracted
  else kernel_outcome_of_run (subprocess_run (kernel_command apt_tool extracted)).

End Kernels.

(** ** [_apply_package_changes] (MasterLinux_v2.py) *)

(** The step-4 form the slot reads. *)
Record config_form := ConfigForm {
  cf_arch : string;                 (** [step4_arch_combo] *)
  cf_variant : string;              (** [step4_variant_combo] *)
  cf_release : string;              (** [step4_release_combo] *)
  cf_mirror : string;               (** [step4_mirror_line_edit] *)
  cf_base_packages : bool;          (** [step4_base_packages_checkbox] *)
  cf_desktop_env : string;          (** [step4_desktop_env_combo] *)
  cf_addition_rows : list package;  (** [step4_addition_package_model] *)
  cf_removal_rows : list package;   (** [step4_removal_package_model] *)
  cf_hostname : string;             (** [step4_hostname_line_edit] *)
  cf_locale : string;               (** [step4_locales_combo] *)
  cf_upgrade : bool;                (** [step4_upgrade_packages_checkbox] *)
  cf_autoremove : bool              (** [step4_autoremove_checkbox] *)
}.

Definition base_packages : list string :=
  ["ubuntu-standard"; "casper"; "discover"; "laptop-detect"; "os-prober"; "network-manager";
   "net-tools"; "wireless-tools"; "wpagui"; "locales"; "grub-common"; "grub-gfxpayload-lists";
   "grub-pc"; "grub-pc-bin"; "grub2-common"; "grub-efi-amd64-signed"; "shim-signed"; "mtools";
   "binutils"; "ubiquity"; "ubiquity-casper"; "ubiquity-frontend-gtk"; "ubiquity-slideshow-ubuntu";
   "ubiquity-ubuntu-artwork"].

(** [commands.append((label, argv))] when [b]. *)
Definition add_if (b : bool) (entry : string * list string) : list (string * list string) :=
  if b then [entry] else [].

(** The list [commands] the slot builds, in the order of the code. *)
Definition build_commands (form : config_form) (extracted : string) : list (string * list string) :=
  let applications_to_add := get_checked_packages (cf_addition_rows form) in
  let packages_to_remove := get_checked_packages (cf_removal_rows form) in
  let hostname := cf_hostname form in
  ([("Bootstrap Base System",
    ["debootstrap"; "--arch"; cf_arch form; "--variant"; cf_variant form; cf_release form;
     extracted; cf_mirror form])]
  ++ add_if (cf_base_packages form)
       ("Install Base Packages",
        ["apt-get"; "install"; "-y"; "--force-yes"; "--allow-unauthenticated"] ++ base_packages)
  ++ add_if (String.eqb (cf_desktop_env form) "GNOME")
       ("Install GNOME Desktop",
        ["apt-get"; "install"; "-y"; "--no-install-recommends"; "plymouth-themes";
         "ubuntu-gnome-desktop"; "ubuntu-gnome-wallpapers"])
  ++ add_if (negb (bool_decide (applications_to_add = [])))
       ("Install Applications", ["apt-get"; "install"; "-y"] ++ applications_to_add)
  ++ add_if (negb (bool_decide (packages_to_remove = [])))
       ("Remove Packages", ["apt-get"; "purge"; "-y"] ++ packages_to_remove)
  ++ add_if (negb (String.eqb hostname ""))
       ("Set Hostname", ["/bin/bash"; "-c"; String.append "echo '" (String.append hostname "' > /etc/hostname")])
  ++ add_if (negb (String.eqb (cf_locale form) ""))
       ("Reconfigure Locales", ["dpkg-reconfigure"; "locales"])
  ++ add_if (cf_upgrade form) ("Upgrade Packages", ["apt-get"; "upgrade"; "-y"])
  ++ add_if (cf_autoremove form) ("Run apt Autoremove", ["apt-get"; "autoremove"; "-y"]))%list.

(** The text of the confirmation question. *)
Definition confirmation_message (commands : list (string * list string)) : string :=
  foldl (fun msg entry => msg ++ "- " ++ entry.1 ++ nl)
    ("Confirm system configuration changes:" ++ nl ++ nl ++ "Actions to be performed:" ++ nl) commands.

Inductive apply_outcome : Type :=
  | ApplyNothing                                (** "No configuration changes selected." *)
  | ApplyDeclined                               (** the question answered No *)
  | ApplyExecute (commands : list (string * list string)).

(** The slot; [reply] is the user's answer to the question it shows. *)
Definition apply_package_changes (form : config_form) (extracted : string) (reply : string -> bool)
    : apply_outcome :=
  let commands := build_commands form extracted in
  match commands with
  | [] => ApplyNothing
  | _ => if reply (confirmation_message commands) then ApplyExecute commands else ApplyDeclined
  end.

(** ** Lemmas *)

Lemma lower_iso : lower ".iso" = ".iso".
Proof. reflexivity. Qed.

Lemma add_if_forall (P : string * list string -> Prop) (b : bool) (e : string * list string) :
  P e -> Forall P (add_if b e).
Proof. destruct b; simpl; auto. Qed.

(** The first entry of [build_commands] is always the bootstrap. *)
Lemma build_commands_head (form : config_form) (extracted : string) :
  exists rest, build_commands form extracted
  = ("Bootstrap Base System",
     ["debootstrap"; "--arch"; cf_arch form; "--variant"; cf_variant form; cf_release form;
      extracted; cf_mirror form]) :: rest.
Proof. eexists. reflexivity. Qed.


(** A non-empty locale puts [dpkg-reconfigure locales] in the batch. *)
Lemma build_commands_locale (form : config_form) (extracted : string) :
  cf_locale form <> "" ->
  ("Reconfigure Locales", ["dpkg-reconfigure"; "locales"]) ∈ build_commands form extracted.
Proof.
  intros Hl. unfold build_commands. destruct (String.eqb_spec (cf_locale form) "") as [|_]; [done |].
  cbn [negb]. rewrite !elem_of_app. do 6 right. left. unfold add_if. by left.
Qed.

Lemma split_sep_cons (sep s : string) : exists x xs, split_sep sep s = x :: xs.
Proof.
  destruct (split_sep sep s) as [|x xs] eqn:E; [| eauto].
  exfalso. exact (split_go_nonempty _ _ _ _ E).
Qed.

(** The ["Unknown"] defaults of [show_kernel_selection] are dead: [split]
    never returns an empty list, and the line parser is the one of the
    package lists. *)
Lemma kernel_line_name_version (line : string) :
  kernel_line line = (let? p := name_version line in py_ret (Kernel (pkg_name p) (pkg_version p) false)).
Proof.
  unfold kernel_line, name_version.
  destruct (py_index (split_ws line) 0) as [e | p0]; [reflexivity |]. cbn [py_bind].
  destruct (split_sep_cons "/" p0) as (k & ks & ->). cbn [py_index]. simpl.
  destruct (py_index (split_ws line) 1) as [e | p1]; [reflexivity |]. cbn [py_bind].
  destruct (split_sep_cons "," p1) as (v & vs & ->). reflexivity.
Qed.

Lemma apt_line_installed (e : apt_entry) : contains "installed" (apt_line e) = true.
Proof.
  unfold apt_line. repeat apply contains_app_r.
  change " [installed]" with (" [" ++ "installed" ++ "]"). apply contains_app_middle.
Qed.

Lemma kernel_line_apt (e : apt_entry) :
  entry_wf e = true -> kernel_line (apt_line e) = inr (Kernel (ae_name e) (ae_version e) false).
Proof. intros H. by rewrite kernel_line_name_version, name_version_apt_line. Qed.

Lemma parse_kernels_apt (es : list apt_entry) :
  Forall (fun e => entry_wf e = true /\ contains "linux-image-" (ae_name e) = true) es ->
  parse_kernels (map apt_line es) = inr (map (fun e => Kernel (ae_name e) (ae_version e) false) es).
Proof.
  induction 1 as [|e es [Hwf Hk] _ IH]; [reflexivity |]. cbn [map parse_kernels].
  assert (Hl : contains "linux-image-" (apt_line e) = true) by (unfold apt_line; by apply contains_app_l).
  rewrite Hl, apt_line_installed. simpl.
  by rewrite kernel_line_apt, IH.
Qed.

(** ** Properties *)

(** [browse_output_iso_location] always yields a path whose lower-case
    form ends in [.iso]; a path that already does is kept, and applying
    the fix twice is applying it once. *)
Theorem ensure_iso_suffix_spec (p : string) :
  endswith ".iso" (lower (ensure_iso_suffix p)) = true
  /\ ensure_iso_suffix (ensure_iso_suffix p) = ensure_iso_suffix p
  /\ (endswith ".iso" (lower p) = true -> ensure_iso_suffix p = p).
Proof.
  assert (Happ : endswith ".iso" (lower (p ++ ".iso")) = true)
    by (rewrite lower_app, lower_iso; apply endswith_app).
  unfold ensure_iso_suffix. destruct (endswith ".iso" (lower p)) eqn:E.
  - by rewrite E.
  - by rewrite Happ.
Qed.

(** C38: [_apply_package_changes] always asks: the bootstrap entry is always
    in the list, so the branch "No configuration changes selected." is
    unreachable, and the slot runs the whole list exactly when the user
    answers Yes to the question listing it. *)
Theorem apply_package_changes_asks (form : config_form) (extracted : string) (reply : string -> bool) :
  apply_package_changes form extracted reply
  = if reply (confirmation_message (build_commands form extracted))
    then ApplyExecute (build_commands form extracted) else ApplyDeclined.
Proof.
  unfold apply_package_changes. destruct (build_commands_head form extracted) as [rest ->]. reflexivity.
Qed.

Section KernelTheorems.
Context `{ProcessEnv}.

(** [show_kernel_selection] on an extracted tree whose [apt list
    --installed linux-image-*] succeeds with a listing of kernel packages
    offers exactly those kernels, by name and version, in the listing's
    order, none marked for removal. *)
Theorem show_kernel_selection_lists (fs : fsys) (apt_tool extracted : string) (p : process)
    (es : list apt_entry) :
  String.eqb extracted "" = false -> fs_exists fs extracted = true ->
  spawn ["chroot"; extracted; apt_tool; "list"; "--installed"; "linux-image-*"] None = Spawned p ->
  p_returncode p = 0%Z -> p_stdout p = apt_listing es -> es <> [] ->
  Forall (fun e => entry_wf e = true /\ contains "linux-image-" (ae_name e) = true) es ->
  show_kernel_selection fs apt_tool extracted
  = KernelDialog (map (fun e => Kernel (ae_name e) (ae_version e) false) es).
Proof.
  intros He Hx Hs Hrc Hout Hne Hall.
  unfold show_kernel_selection, kernel_guard, kernel_command, subprocess_run.
  rewrite He, Hx, Hs, Hrc, Hout. simpl.
  assert (Hwf : Forall (fun e => entry_wf e = true) es) by (eapply Forall_impl; [exact Hall | intros ? []; done]).
  rewrite strip_apt_listing, split_apt_listing by exact Hwf. cbn [parse_kernels].
  change (contains "linux-image-" "Listing... Done") with false. simpl.
  rewrite parse_kernels_apt by exact Hall. destruct es; done.
Qed.

End KernelTheorems.

(** C26: A hostname is pasted unescaped between the single quotes of a
    [bash -c] script: for any command [cmd], the hostname
    ['; <cmd>; echo '] puts in the batch an entry whose script is
    [echo ''; <cmd>; echo '' > /etc/hostname], so the chroot runs [cmd]. *)
Theorem hostname_injection (form : config_form) (extracted cmd : string) :
  cf_hostname form = "'; " ++ cmd ++ "; echo '" ->
  ("Set Hostname", ["/bin/bash"; "-c"; "echo ''; " ++ cmd ++ "; echo '' > /etc/hostname"])
    ∈ build_commands form extracted.
Proof.
  intros Hh. unfold build_commands. cbv zeta. rewrite Hh. simpl.
  rewrite !str_app_assoc. simpl. set_solver.
Qed.

Definition injection_form : config_form :=
  ConfigForm "amd64" "minbase" "jammy" "http://archive.ubuntu.com/ubuntu" false ""
    [] [] "'; reboot; echo '" "" false false.

Lemma hostname_injection_witness :
  cf_hostname injection_form = "'; " ++ "reboot" ++ "; echo '" /\
  ("Set Hostname", ["/bin/bash"; "-c"; "echo ''; " ++ "reboot" ++ "; echo '' > /etc/hostname"])
    ∈ build_commands injection_form "/work/extracted_iso".
Proof. split; [reflexivity | apply hostname_injection; reflexivity]. Defined.

(** [line.split("=")[1]] drops everything after a second ['=']. *)
Example iso_report_truncates :
  iso_report_go ["System_ID='LINUX'"; "Application_ID='Ubuntu 22.04 LTS build=2'"] "Unknown" "Unknown"
  = inr ("LINUX", "Ubuntu 22.04 LTS build").
Proof. reflexivity. Qed.

(** ** Concrete runs *)

Definition kernel_entry : apt_entry :=
  AptEntry "linux-image-6.5.0-14-generic" "jammy-updates" "6.5.0-14.14~22.04.1" "amd64".

(** A tree where only [chroot] exists, and lists one kernel. *)
Definition kernel_env : ProcessEnv := {|
  spawn := fun argv _ =>
    if String.eqb (hd EmptyString argv) "chroot"
    then Spawned (simple_process (apt_listing [kernel_entry]) "" 0)
    else SpawnNotFound "[Errno 2] No such file or directory"
|}.

Definition extracted_fs : fsys := FS {["/work/extracted_iso"]} ∅.

Lemma show_kernel_selection_lists_witness :
  @show_kernel_selection kernel_env extracted_fs "apt" "/work/extracted_iso"
  = KernelDialog [Kernel "linux-image-6.5.0-14-generic" "6.5.0-14.14~22.04.1" false].
Proof.
  apply (@show_kernel_selection_lists kernel_env extracted_fs "apt" "/work/extracted_iso"
           (simple_process (apt_listing [kernel_entry]) "" 0) [kernel_entry]);
    [reflexivity | reflexivity | reflexivity | reflexivity | reflexivity | done |].
  repeat constructor.
Defined.
