(* ===== verification/Dialogs.v ===== *)
(** * The dialogs of src/dialogs.py

    The three [QDialog]s the wizards open from step 7 (copied in
    src/MasterLinux_v2.py:173-303).  Each dialog is a record of the widgets
    its methods read and write, a constructor for its [__init__], one
    definition per method, and the user's inputs while [exec()] runs as
    an inductive type folded over the state.  [exec()] ends with OK
    ([accept]) or Cancel ([reject]).

    - [Preseed]: the line edit of [PreseedDialog] and [browse_preseed_file].
    - [Kernel]: [KernelSelectionDialog], a [QListView] in single selection
      over a [PackageListModel] of the kernels.  The view shows the model's
      column 0, the check column, which has no display text and is not
      selectable ([Packages.flags]): the dialog lists unlabelled check
      boxes and [get_selected_kernel] never returns a kernel.
    - [Compression]: [AdvancedCompressionDialog], its combo box, spin boxes
      and custom group, [toggle_custom_options] on [currentIndexChanged],
      and [get_compression_options]; the options it returns refine the
      spec's compression record (spec section 6, "Image-creation
      invocation"). *)

From stdpp Require Import sets.
From S2P Require Import Prelude PyStr Qt Packages Commands.

Open Scope string_scope.
Open Scope py_scope.

(** How [exec()] returned: OK or Cancel (also Escape and closing). *)
Inductive dialog_result : Type := Accepted | Rejected.

(** [if dialog.exec():]. *)
Definition exec_accepted (r : dialog_result) : bool :=
  match r with Accepted => true | Rejected => false end.

Module Preseed.

(** The text of [self.preseed_file_path]. *)
Record preseed_dialog := PreseedDialogState { preseed_file_path : string }.

(** [PreseedDialog.__init__]: an empty line edit (the placeholder is not text). *)
Definition PreseedDialog : preseed_dialog := PreseedDialogState "".

(** [browse_preseed_file()] with the path the file dialog returned ([""]
    on Cancel). *)
Definition browse_preseed_file (file_path : string) (d : preseed_dialog) : preseed_dialog :=
  if String.eqb file_path "" then d else PreseedDialogState file_path.

Definition get_preseed_file_path (d : preseed_dialog) : string := preseed_file_path d.

(** What the user does while the dialog runs. *)
Inductive preseed_input : Type :=
  | PreseedBrowse (file_path : string)   (** Browse, then the file dialog's answer *)
  | PreseedType (text : string).         (** editing the line edit to [text] *)

Definition preseed_input_step (d : preseed_dialog) (i : preseed_input) : preseed_dialog :=
  match i with
  | PreseedBrowse p => browse_preseed_file p d
  | PreseedType t => PreseedDialogState t
  end.

Definition run_preseed_dialog (inputs : list preseed_input) : preseed_dialog :=
  foldl preseed_input_step PreseedDialog inputs.

End Preseed.

Module Kernel.

(** [self.kernel_model._package_data] and the rows of
    [self.kernel_list.selectedIndexes()]. *)
Record kernel_dialog := KernelSelectionDialogState {
  kernel_model : list package;
  selected_rows : list nat
}.

(** A kernel dict [{'name', 'version', 'remove'}] as a model row. *)
Definition kernel_row (k : kernel) : package :=
  Package (k_name k) (k_version k) (k_remove k) None.

(** [KernelSelectionDialog.__init__]: the model holds the kernel dicts,
    nothing is selected; [current_kernel] is unused. *)
Definition KernelSelectionDialog (available_kernels : list kernel) (current_kernel : string)
    : kernel_dialog :=
  KernelSelectionDialogState (kernel_row <$> available_kernels) [].

(** The column the [QListView] shows ([modelColumn], 0 by default). *)
Definition model_column : nat := 0.

(** A click on a row in single selection: the selection is cleared and
    the item is selected when its flags allow it. *)
Definition select_row (row : nat) (d : kernel_dialog) : kernel_dialog :=
  KernelSelectionDialogState (kernel_model d)
    (if bool_decide (ItemIsSelectable ∈ flags (kernel_model d) row model_column) then [row] else []).

(** A click on a row's check box: [setData] with the toggled state. *)
Definition toggle_row (row : nat) (d : kernel_dialog) : kernel_dialog :=
  let checked := default false (pkg_remove <$> kernel_model d !! row) in
  KernelSelectionDialogState
    (setData (kernel_model d) row model_column (negb checked) CheckStateRole).1 (selected_rows d).

(** [get_selected_kernel()]. *)
Definition get_selected_kernel (d : kernel_dialog) : py (option string) :=
  match selected_rows d with
  | [] => py_ret None
  | row :: _ =>
      match kernel_model d !! row with
      | Some p => py_ret (Some (pkg_name p))
      | None => py_raise IndexError
      end
  end.

Inductive kernel_input : Type :=
  | KernelClick (row : nat)
  | KernelCheck (row : nat).

Definition kernel_input_step (d : kernel_dialog) (i : kernel_input) : kernel_dialog :=
  match i with
  | KernelClick row => select_row row d
  | KernelCheck row => toggle_row row d
  end.

Definition run_kernel_dialog (available_kernels : list kernel) (inputs : list kernel_input)
    : kernel_dialog :=
  foldl kernel_input_step (KernelSelectionDialog available_kernels "") inputs.

End Kernel.

Module Compression.

Record compression_dialog := CompressionDialogState {
  compression_method_combo : combobox;
  custom_options_shown : bool;       (** [custom_options_group] visible *)
  custom_command : string;           (** the text of [self.custom_command] *)
  level_spinbox : spinbox;
  threads_spinbox : spinbox
}.

Definition compression_methods : list string := ["gzip"; "xz"; "bzip2"; "lzma"; "Custom"].

(** [AdvancedCompressionDialog.__init__], given [os.cpu_count()]: the
    combo box is filled before [currentIndexChanged] is connected, the
    custom group is hidden, the level is [0 .. 9] at 6 and the threads
    [0 .. os.cpu_count()] at 0.  [os.cpu_count()] is [None] when the
    count cannot be determined, and [setRange(0, None)] raises
    [TypeError]. *)
Definition AdvancedCompressionDialog (cpu_count : option Z) : py compression_dialog :=
  match cpu_count with
  | None => py_raise TypeError
  | Some n =>
      py_ret (CompressionDialogState (cb_addItems compression_methods cb_new) false ""
                (sb_setValue 6 (sb_setRange 0 9 sb_new)) (sb_setValue 0 (sb_setRange 0 n sb_new)))
  end.

(** [toggle_custom_options()]. *)
Definition toggle_custom_options (d : compression_dialog) : compression_dialog :=
  CompressionDialogState (compression_method_combo d)
    (String.eqb (cb_currentText (compression_method_combo d)) "Custom")
    (custom_command d) (level_spinbox d) (threads_spinbox d).

(** Choosing item [i] of the combo box: [toggle_custom_options] runs when
    the index changes. *)
Definition select_method (i : nat) (d : compression_dialog) : compression_dialog :=
  let (c, changed) := cb_setCurrentIndex (Z.of_nat i) (compression_method_combo d) in
  let d' := CompressionDialogState c (custom_options_shown d) (custom_command d)
              (level_spinbox d) (threads_spinbox d) in
  if changed then toggle_custom_options d' else d'.

(** [get_compression_options()]: the widgets' values (lines 111-113), then
    the dict of [Commands.get_compression_options]. *)
Definition get_compression_options_of (d : compression_dialog) : compression_options :=
  get_compression_options (cb_currentText (compression_method_combo d))
    (sb_value (level_spinbox d)) (sb_value (threads_spinbox d)) (custom_command d).

Inductive compression_input : Type :=
  | SelectMethod (i : nat)
  | TypeCustomCommand (text : string)
  | SetLevel (v : Z)
  | SetThreads (v : Z).

(** One input; the hidden custom line edit takes no typing. *)
Definition compression_input_step (d : compression_dialog) (i : compression_input)
    : compression_dialog :=
  match i with
  | SelectMethod k => select_method k d
  | TypeCustomCommand t =>
      if custom_options_shown d then
        CompressionDialogState (compression_method_combo d) true t (level_spinbox d) (threads_spinbox d)
      else d
  | SetLevel v =>
      CompressionDialogState (compression_method_combo d) (custom_options_shown d) (custom_command d)
        (sb_setValue v (level_spinbox d)) (threads_spinbox d)
  | SetThreads v =>
      CompressionDialogState (compression_method_combo d) (custom_options_shown d) (custom_command d)
        (level_spinbox d) (sb_setValue v (threads_spinbox d))
  end.

(** The popup offers the five methods only. *)
Definition compression_input_ok (i : compression_input) : bool :=
  match i with SelectMethod k => (k <? length compression_methods)%nat | _ => true end.

Definition run_compression_dialog (cpu_count : option Z) (inputs : list compression_input)
    : py compression_dialog :=
  let? d := AdvancedCompressionDialog cpu_count in
  py_ret (foldl compression_input_step d inputs).

(** The spec's compression record: a method of the five, with a custom
    command only for ["Custom"], a level in [0 .. 9] and a thread count. *)
Inductive spec_method : Type := Gzip | Xz | Bzip2 | Lzma | Custom (command : string).

Record spec_compression := SpecCompression {
  spec_kind : spec_method;
  spec_level : Z;
  spec_threads : Z
}.

Definition spec_compression_valid (cpus : Z) (s : spec_compression) : Prop :=
  (0 <= spec_level s <= 9)%Z /\ (0 <= spec_threads s <= cpus)%Z.

(** The dict the program passes for a spec value. *)
Definition encode_compression (s : spec_compression) : compression_options :=
  let '(m, c) := match spec_kind s with
                 | Gzip => ("gzip", "") | Xz => ("xz", "") | Bzip2 => ("bzip2", "")
                 | Lzma => ("lzma", "") | Custom c => ("Custom", c)
                 end in
  CompressionOptions m (spec_level s) (spec_threads s) c.

(** What a dialog state is: the five items with one of them current, the
    custom group shown exactly for ["Custom"], the level in [0 .. 9] and
    the threads in [0 .. cpus]. *)
Definition compression_dialog_inv (cpus : Z) (d : compression_dialog) : Prop :=
  cb_items (compression_method_combo d) = compression_methods
  /\ (0 <= cb_index (compression_method_combo d) < 5)%Z
  /\ custom_options_shown d = String.eqb (cb_currentText (compression_method_combo d)) "Custom"
  /\ sb_inv (level_spinbox d) /\ sb_min (level_spinbox d) = 0%Z /\ sb_max (level_spinbox d) = 9%Z
  /\ sb_inv (threads_spinbox d) /\ sb_min (threads_spinbox d) = 0%Z
  /\ sb_max (threads_spinbox d) = cpus.

End Compression.

(** ** The kernel dialog selects nothing *)

(** No cell of the check column is selectable. *)
Lemma flags_check_column (rows : list package) (row : nat) :
  ItemIsSelectable ∉ flags rows row 0.
Proof. unfold flags. case_if_match; set_solver. Qed.

Lemma kernel_input_step_unselected (d : Kernel.kernel_dialog) (i : Kernel.kernel_input) :
  Kernel.selected_rows d = [] -> Kernel.selected_rows (Kernel.kernel_input_step d i) = [].
Proof.
  destruct i as [row|row]; simpl; [| done]. intros _.
  rewrite bool_decide_false; [done | apply flags_check_column].
Qed.

(** C14: Whatever the user clicks or checks in the kernel dialog,
    [get_selected_kernel()] returns [None]: the list view shows the
    model's check column, whose items are not selectable, so
    [selectedIndexes()] stays empty and the dialog can never yield a
    kernel. *)
Theorem kernel_dialog_never_selects (available_kernels : list kernel) (inputs : list Kernel.kernel_input) :
  Kernel.get_selected_kernel (Kernel.run_kernel_dialog available_kernels inputs) = py_ret None.
Proof.
  unfold Kernel.get_selected_kernel, Kernel.run_kernel_dialog.
  rewrite (foldl_invariant (fun d => Kernel.selected_rows d = []) (fun _ => True)); try done.
  - intros d i _. apply kernel_input_step_unselected.
  - by apply Forall_true.
Qed.

(** ** The compression dialog *)

Section CompressionDialog.
Import Compression.

Lemma compression_new_inv (n : Z) :
  (0 <= n)%Z -> exists d, AdvancedCompressionDialog (Some n) = inr d /\ compression_dialog_inv n d.
Proof.
  intros Hn. eexists; split; [reflexivity |].
  unfold compression_dialog_inv, sb_setValue, sb_setRange, sb_bound, sb_inv; simpl. split_and!; simpl; done || lia.
Qed.

Lemma select_method_inv (n : Z) (k : nat) (d : compression_dialog) :
  (k < 5)%nat -> compression_dialog_inv n d -> compression_dialog_inv n (select_method k d).
Proof.
  intros Hk Hinv. pose proof Hinv as (Hitems & Hidx & Hshown & ? & ? & ? & ? & ? & ?).
  unfold select_method, cb_setCurrentIndex. rewrite Hitems. simpl.
  change (Z.of_nat 5) with 5%Z.
  destruct (Z.leb_spec 0 (Z.of_nat k)), (Z.ltb_spec (Z.of_nat k) 5); try lia. simpl.
  destruct (Z.eqb_spec (Z.of_nat k) (cb_index (compression_method_combo d))) as [Heq | Hne]; simpl.
  - (* the same item: no signal, the dialog is unchanged *)
    destruct d as [[items idx] ? ? ? ?]; simpl in *. by subst.
  - unfold compression_dialog_inv, toggle_custom_options; simpl. split_and!; auto; lia.
Qed.

Lemma compression_input_step_inv (n : Z) (d : compression_dialog) (i : compression_input) :
  compression_input_ok i = true -> compression_dialog_inv n d ->
  compression_dialog_inv n (compression_input_step d i).
Proof.
  intros Hok Hinv. destruct i as [k|t|v|v]; simpl in *.
  - apply Nat.ltb_lt in Hok. by apply select_method_inv.
  - destruct (custom_options_shown d) eqn:E; [| exact Hinv].
    destruct Hinv as (? & ? & Hs & ?). unfold compression_dialog_inv; simpl. rewrite <- Hs, E. auto.
  - destruct Hinv as (? & ? & ? & ? & ? & ? & ? & ? & ?). unfold compression_dialog_inv; simpl.
    split_and!; simpl; auto using sb_setValue_inv; lia.
  - destruct Hinv as (? & ? & ? & ? & ? & ? & ? & ? & ?). unfold compression_dialog_inv; simpl.
    split_and!; simpl; auto using sb_setValue_inv; lia.
Qed.

(** Every dialog the user can produce satisfies the invariant. *)
Lemma run_compression_dialog_inv (n : Z) (inputs : list compression_input) :
  (0 <= n)%Z -> Forall (fun i => compression_input_ok i = true) inputs ->
  exists d, run_compression_dialog (Some n) inputs = inr d /\ compression_dialog_inv n d.
Proof.
  intros Hn Hok. destruct (compression_new_inv n Hn) as (d0 & Hd0 & Hinv0).
  unfold run_compression_dialog. rewrite Hd0. simpl. eexists; split; [reflexivity |].
  eapply foldl_invariant; [exact Hinv0 | | exact Hok].
  intros d i Hi Hd. by apply compression_input_step_inv.
Qed.

(** The current text is one of the five methods. *)
Lemma compression_current_text (n : Z) (d : compression_dialog) :
  compression_dialog_inv n d ->
  cb_currentText (compression_method_combo d) ∈ compression_methods.
Proof.
  intros (Hitems & Hidx & _). rewrite <- Hitems. apply cb_currentText_in.
  unfold cb_inv. rewrite Hitems. simpl. lia.
Qed.

(** The spec record of a dialog state. *)
Definition spec_of_dialog (d : compression_dialog) : spec_compression :=
  let kind := match cb_currentText (compression_method_combo d) with
              | "xz" => Xz | "bzip2" => Bzip2 | "lzma" => Lzma
              | "Custom" => Custom (custom_command d) | _ => Gzip
              end in
  SpecCompression kind (sb_value (level_spinbox d)) (sb_value (threads_spinbox d)).

(** A dialog state in the invariant encodes a valid spec record. *)
Lemma compression_inv_encodes (n : Z) (d : compression_dialog) :
  compression_dialog_inv n d ->
  spec_compression_valid n (spec_of_dialog d)
  /\ get_compression_options_of d = encode_compression (spec_of_dialog d).
Proof.
  intros Hinv. pose proof (compression_current_text n d Hinv) as Htext.
  destruct Hinv as (_ & _ & _ & Hl & Hl0 & Hl9 & Ht & Ht0 & Htn).
  split; [unfold spec_compression_valid, sb_inv in *; simpl; lia |].
  unfold get_compression_options_of, get_compression_options, encode_compression, spec_of_dialog.
  repeat (apply elem_of_cons in Htext as [-> | Htext]; [reflexivity |]).
  by apply not_elem_of_nil in Htext.
Qed.

(** C15: The compression dialog refines the spec's compression record: for
    any [os.cpu_count()] value [n] and any inputs the dialog offers, the
    dialog opens and [get_compression_options()] is the encoding of a
    spec record with one of the five methods, a level in [0 .. 9] and a
    thread count in [0 .. n], whose custom command is non-empty only for
    ["Custom"]. *)
Theorem compression_options_refine (n : Z) (inputs : list compression_input) :
  (0 <= n)%Z -> Forall (fun i => compression_input_ok i = true) inputs ->
  exists d, run_compression_dialog (Some n) inputs = inr d
    /\ spec_compression_valid n (spec_of_dialog d)
    /\ get_compression_options_of d = encode_compression (spec_of_dialog d).
Proof.
  intros Hn Hok. destruct (run_compression_dialog_inv n inputs Hn Hok) as (d & Hrun & Hinv).
  exists d. split; [exact Hrun |]. by apply compression_inv_encodes.
Qed.

End CompressionDialog.

(** ** Sessions *)

Definition demo_kernels : list kernel :=
  [Kernel "linux-image-6.8.0-45-generic" "6.8.0-45.45" false;
   Kernel "linux-image-generic" "6.8.0.45.45" false].

(** Clicking both rows and checking the first: no kernel comes back, and
    the check went into the dialog's copy of the kernel dicts. *)
Example kernel_session :
  let d := Kernel.run_kernel_dialog demo_kernels
             [Kernel.KernelClick 0; Kernel.KernelCheck 0; Kernel.KernelClick 1] in
  Kernel.get_selected_kernel d = py_ret None
  /\ pkg_remove <$> Kernel.kernel_model d = [true; false].
Proof. vm_compute. split; reflexivity. Qed.

Definition demo_compression_inputs : list Compression.compression_input :=
  [Compression.TypeCustomCommand "ignored"; Compression.SelectMethod 4;
   Compression.TypeCustomCommand "xz -9 --threads=0"; Compression.SetLevel 12;
   Compression.SetThreads 3].

(** Typing into the hidden custom field is lost, the level is clamped
    to 9. *)
Example compression_session :
  (let? d := Compression.run_compression_dialog (Some 8%Z) demo_compression_inputs in
   py_ret (Compression.get_compression_options_of d))
  = py_ret (CompressionOptions "Custom" 9 3 "xz -9 --threads=0").
Proof. vm_compute. reflexivity. Qed.

Lemma compression_options_refine_witness :
  (0 <= 8)%Z /\ Forall (fun i => Compression.compression_input_ok i = true) demo_compression_inputs
  /\ exists d, Compression.run_compression_dialog (Some 8%Z) demo_compression_inputs = inr d
       /\ Compression.spec_compression_valid 8 (spec_of_dialog d)
       /\ Compression.get_compression_options_of d = Compression.encode_compression (spec_of_dialog d).
Proof.
  split; [lia |]. split; [repeat constructor |].
  apply (compression_options_refine 8 demo_compression_inputs); [lia | repeat constructor].
Defined.
