(* ===== verification/ConfigForm.v ===== *)
(** * The configuration form of MasterLinux_v2.py (step 4)

    [_init_ui] (src/MasterLinux_v2.py 440-520) builds the form the
    configuration batch reads: three combo boxes for the debootstrap
    architecture, variant and release, the mirror and hostname line
    edits, the desktop and locale combo boxes and three check boxes.
    [_apply_package_changes] (905-980) reads them into the values
    [Commands.config_form] holds and builds its batch from them
    ([Commands.build_commands]).  The user's edits of the form are a list
    of inputs folded over the widgets.

    The combo boxes always hold one of their fixed items, so the
    bootstrap's architecture, variant and release come from fixed lists
    (only the mirror and the hostname are free text, see
    [Commands.hostname_injection]), and the locale is never empty: the
    ["Reconfigure Locales"] step is always in the batch. *)

From stdpp Require Import sets.
From S2P Require Import Prelude PyStr Qt Packages Commands.

Open Scope string_scope.

Record config_widgets := ConfigWidgets {
  step4_arch_combo : combobox;
  step4_variant_combo : combobox;
  step4_release_combo : combobox;
  step4_mirror_line_edit : string;
  step4_base_packages_checkbox : bool;
  step4_desktop_env_combo : combobox;
  step4_hostname_line_edit : string;
  step4_locales_combo : combobox;
  step4_upgrade_packages_checkbox : bool;
  step4_autoremove_checkbox : bool
}.

Definition arch_items : list string := ["amd64"; "i386"; "arm64"].
Definition variant_items : list string := ["minbase"; "standard"].
Definition release_items : list string := ["noble"; "jammy"; "focal"; "bionic"].
Definition locale_items : list string := ["en_US.UTF-8"; "de_DE.UTF-8"; "fr_FR.UTF-8"].

(** Lines 480-481: the base packages box, checked. *)
Definition base_packages_checked_init : bool := true.

(** Lines 488-490: the desktop combo box, ["None"] then ["GNOME"]. *)
Definition desktop_env_combo_init : combobox := cb_addItems ["GNOME"] (cb_addItems ["None"] cb_new).

(** Lines 514-523 (settings tab): hostname, locale combo box, upgrade and
    autoremove boxes. *)
Definition settings_tab_init : string * combobox * bool * bool :=
  ("ubuntu-custom", cb_addItems locale_items cb_new, false, true).

(** The form as [_init_ui] leaves it; lines 450-459 build the base tab. *)
Definition config_widgets_init : config_widgets :=
  let '(hostname, locales, upgrade, autoremove) := settings_tab_init in
  ConfigWidgets (cb_addItems arch_items cb_new) (cb_addItems variant_items cb_new)
    (cb_addItems release_items cb_new) "http://us.archive.ubuntu.com/ubuntu/" base_packages_checked_init
    desktop_env_combo_init hostname locales upgrade autoremove.

(** The widgets of the form a user can change. *)
Inductive form_combo : Type := ArchCombo | VariantCombo | ReleaseCombo | DesktopCombo | LocaleCombo.
Inductive form_check : Type := BasePackagesCheck | UpgradeCheck | AutoremoveCheck.

Inductive form_input : Type :=
  | FormSelect (which : form_combo) (i : nat)
  | FormMirror (text : string)
  | FormHostname (text : string)
  | FormCheck (which : form_check) (checked : bool).

Definition form_combo_of (which : form_combo) (f : config_widgets) : combobox :=
  match which with
  | ArchCombo => step4_arch_combo f | VariantCombo => step4_variant_combo f
  | ReleaseCombo => step4_release_combo f | DesktopCombo => step4_desktop_env_combo f
  | LocaleCombo => step4_locales_combo f
  end.

Definition set_form_combo (which : form_combo) (c : combobox) (f : config_widgets) : config_widgets :=
  let 'ConfigWidgets a v r m b d h l u x := f in
  match which with
  | ArchCombo => ConfigWidgets c v r m b d h l u x
  | VariantCombo => ConfigWidgets a c r m b d h l u x
  | ReleaseCombo => ConfigWidgets a v c m b d h l u x
  | DesktopCombo => ConfigWidgets a v r m b c h l u x
  | LocaleCombo => ConfigWidgets a v r m b d h c u x
  end.

(** One edit; no slot is connected to these widgets' signals. *)
Definition form_input_step (f : config_widgets) (i : form_input) : config_widgets :=
  let 'ConfigWidgets a v r m b d h l u x := f in
  match i with
  | FormSelect which k => set_form_combo which (cb_setCurrentIndex (Z.of_nat k) (form_combo_of which f)).1 f
  | FormMirror t => ConfigWidgets a v r t b d h l u x
  | FormHostname t => ConfigWidgets a v r m b d t l u x
  | FormCheck BasePackagesCheck c => ConfigWidgets a v r m c d h l u x
  | FormCheck UpgradeCheck c => ConfigWidgets a v r m b d h l c x
  | FormCheck AutoremoveCheck c => ConfigWidgets a v r m b d h l u c
  end.

(** The popups offer their items only. *)
Definition form_input_ok (f : config_widgets) (i : form_input) : bool :=
  match i with
  | FormSelect which k => (k <? length (cb_items (form_combo_of which f)))%nat
  | _ => true
  end.

(** The edits in order, each offered by the form it is made on. *)
Fixpoint run_config_form (f : config_widgets) (inputs : list form_input) : option config_widgets :=
  match inputs with
  | [] => Some f
  | i :: rest => if form_input_ok f i then run_config_form (form_input_step f i) rest else None
  end.

(** What [_apply_package_changes] reads ([currentText()], [text()],
    [isChecked()]), with the two package models of the step. *)
Definition read_config_form (f : config_widgets) (addition_rows removal_rows : list package) : config_form :=
  ConfigForm (cb_currentText (step4_arch_combo f)) (cb_currentText (step4_variant_combo f))
    (cb_currentText (step4_release_combo f)) (step4_mirror_line_edit f)
    (step4_base_packages_checkbox f) (cb_currentText (step4_desktop_env_combo f))
    addition_rows removal_rows (step4_hostname_line_edit f) (cb_currentText (step4_locales_combo f))
    (step4_upgrade_packages_checkbox f) (step4_autoremove_checkbox f).

(** Every combo box has an item current, and each keeps its items. *)
Definition form_inv (f : config_widgets) : Prop :=
  cb_items (step4_arch_combo f) = arch_items /\ cb_inv (step4_arch_combo f)
  /\ cb_items (step4_variant_combo f) = variant_items /\ cb_inv (step4_variant_combo f)
  /\ cb_items (step4_release_combo f) = release_items /\ cb_inv (step4_release_combo f)
  /\ cb_items (step4_desktop_env_combo f) = ["None"; "GNOME"] /\ cb_inv (step4_desktop_env_combo f)
  /\ cb_items (step4_locales_combo f) = locale_items /\ cb_inv (step4_locales_combo f).

Lemma config_widgets_init_inv : form_inv config_widgets_init.
Proof.
  unfold form_inv, config_widgets_init; simpl.
  split_and!; try reflexivity; try (apply cb_addItems_new_inv; discriminate).
  all: apply cb_addItems_inv, cb_addItems_new_inv; discriminate.
Qed.

Lemma form_input_step_inv (f : config_widgets) (i : form_input) :
  form_inv f -> form_input_ok f i = true -> form_inv (form_input_step f i).
Proof.
  destruct f as [a v r m b d h l u x]. unfold form_inv; simpl.
  intros (Ha & Ha' & Hv & Hv' & Hr & Hr' & Hd & Hd' & Hl & Hl') Hok.
  destruct i as [[] k|t|t|[] ck]; simpl in *; try (split_and!; assumption);
    apply Nat.ltb_lt in Hok; split_and!; try assumption; by apply cb_setCurrentIndex_inv.
Qed.

Lemma run_config_form_inv (f f' : config_widgets) (inputs : list form_input) :
  form_inv f -> run_config_form f inputs = Some f' -> form_inv f'.
Proof.
  revert f. induction inputs as [|i rest IH]; simpl; intros f Hf.
  - by intros [= <-].
  - destruct (form_input_ok f i) eqn:Hok; [| discriminate].
    apply IH. by apply form_input_step_inv.
Qed.

(** The current text of a combo box in the invariant is one of its items. *)
Lemma form_text_in (c : combobox) (items : list string) :
  cb_items c = items -> cb_inv c -> cb_currentText c ∈ items.
Proof. intros <-. apply cb_currentText_in. Qed.

(** No locale item is empty. *)
Lemma locale_text_nonempty (f : config_widgets) :
  form_inv f -> cb_currentText (step4_locales_combo f) <> "".
Proof.
  intros (_ & _ & _ & _ & _ & _ & _ & _ & Hl & Hl') Hempty.
  pose proof (form_text_in _ _ Hl Hl') as Hin. rewrite Hempty in Hin.
  unfold locale_items in Hin. set_solver.
Qed.

(** The locale chosen is never used: choosing another item of the
    Default Locale box leaves the batch unchanged. *)
Lemma locale_choice_ignored (f : config_widgets) (k : nat) (addition_rows removal_rows : list package)
    (extracted : string) :
  form_inv f -> (k < length locale_items)%nat ->
  build_commands (read_config_form (form_input_step f (FormSelect LocaleCombo k)) addition_rows removal_rows)
    extracted
  = build_commands (read_config_form f addition_rows removal_rows) extracted.
Proof.
  intros Hf Hk.
  assert (Hf' : form_inv (form_input_step f (FormSelect LocaleCombo k))).
  { apply form_input_step_inv; [done |]. destruct Hf as (_ & _ & _ & _ & _ & _ & _ & _ & Hl & _).
    destruct f; simpl in *. rewrite Hl. by apply Nat.ltb_lt. }
  pose proof (locale_text_nonempty _ Hf) as H1. pose proof (locale_text_nonempty _ Hf') as H2.
  destruct f as [a v r m b d h l u x]. cbn [form_input_step set_form_combo form_combo_of] in *.
  revert H1 H2. unfold read_config_form. cbn [step4_arch_combo step4_variant_combo step4_release_combo
    step4_mirror_line_edit step4_base_packages_checkbox step4_desktop_env_combo step4_hostname_line_edit
    step4_locales_combo step4_upgrade_packages_checkbox step4_autoremove_checkbox].
  generalize (cb_currentText (cb_setCurrentIndex (Z.of_nat k) l).1) as l2.
  generalize (cb_currentText l) as l1. intros l1 l2 H1 H2.
  unfold build_commands. cbn [cf_locale].
  by rewrite (proj2 (String.eqb_neq _ _) H1), (proj2 (String.eqb_neq _ _) H2).
Qed.

(** C27: Whatever the user edits on the step-4 form of MasterLinux_v2.py,
    the batch [_apply_package_changes] builds bootstraps with an
    architecture, variant and release taken from the combo boxes' fixed
    items, and always contains the ["Reconfigure Locales"] step: the
    locale combo box is never empty, so the [if locale:] guard never
    skips it. *)
Theorem config_form_fixed_choices (inputs : list form_input) (f : config_widgets)
    (addition_rows removal_rows : list package) (extracted : string) :
  run_config_form config_widgets_init inputs = Some f ->
  let form := read_config_form f addition_rows removal_rows in
  cf_arch form ∈ arch_items /\ cf_variant form ∈ variant_items /\ cf_release form ∈ release_items
  /\ ("Reconfigure Locales", ["dpkg-reconfigure"; "locales"]) ∈ build_commands form extracted.
Proof.
  intros Hrun. pose proof (run_config_form_inv _ _ _ config_widgets_init_inv Hrun)
    as (Ha & Ha' & Hv & Hv' & Hr & Hr' & _ & _ & Hl & Hl').
  simpl. split_and!; try (by apply form_text_in).
  apply build_commands_locale. simpl. apply locale_text_nonempty.
  exact (run_config_form_inv _ _ _ config_widgets_init_inv Hrun).
Qed.

(** The form as it opens, Architecture set to arm64 and the hostname
    edited: the bootstrap argv. *)
Definition demo_form_inputs : list form_input :=
  [FormSelect ArchCombo 2; FormHostname "kiosk"; FormCheck UpgradeCheck true].

Example demo_form_bootstrap :
  match run_config_form config_widgets_init demo_form_inputs with
  | Some f => head (build_commands (read_config_form f [] []) "/work/extracted_iso")
  | None => None
  end
  = Some ("Bootstrap Base System",
          ["debootstrap"; "--arch"; "arm64"; "--variant"; "minbase"; "noble"; "/work/extracted_iso";
           "http://us.archive.ubuntu.com/ubuntu/"]).
Proof. vm_compute. reflexivity. Qed.

Definition demo_form : config_widgets :=
  default config_widgets_init (run_config_form config_widgets_init demo_form_inputs).

Lemma config_form_fixed_choices_witness :
  run_config_form config_widgets_init demo_form_inputs = Some demo_form
  /\ (let form := read_config_form demo_form [] [] in
      cf_arch form ∈ arch_items /\ cf_variant form ∈ variant_items /\ cf_release form ∈ release_items
      /\ ("Reconfigure Locales", ["dpkg-reconfigure"; "locales"]) ∈ build_commands form "/work/extracted_iso").
Proof.
  assert (H : run_config_form config_widgets_init demo_form_inputs = Some demo_form)
    by (vm_compute; reflexivity).
  split; [exact H |]. exact (config_form_fixed_choices demo_form_inputs demo_form [] [] _ H).
Defined.
