(* ===== verification/Terminal.v ===== *)
(** * The chroot terminal of step 4 (src/MasterLinux.py)

    The terminal is a text area whose last line after the prompt ["$ "]
    is the command.  [eventFilter] (598-611) sends Return/Enter to
    [_get_terminal_command] (613-623) and [_start_command_execution]
    (625-661), and Up/Down to [_navigate_command_history] (679-697).  A
    command runs as [CommandRunnerThread([command], chroot_path=...)],
    whose output is appended by [_append_to_terminal] (674-677) and whose
    finished signal calls [_command_execution_finished] (663-667);
    [stop_terminal_command] (669-673) stops the thread's reading.

    The state keeps, besides the widget text and the history, the
    attribute [command_runner_thread] and the list of threads started and
    not finished yet: a stopped thread's process keeps running and its
    finished signal still arrives (see [Runner.run_v1_one_finished]). *)

From stdpp Require Import relations.
From S2P Require Import Prelude PyStr Runner.

Open Scope string_scope.
Open Scope py_scope.

Record terminal := Terminal {
  t_text : string;                (** [step4_terminal.toPlainText()] *)
  t_history : list string;        (** [step4_terminal_command_history] *)
  t_history_index : Z;            (** [step4_terminal_history_index] *)
  t_thread : option runner;       (** [command_runner_thread], while running *)
  t_pending : list runner;        (** started threads whose finished signal is due *)
  t_stop_visible : bool           (** [terminal_stop_button] shown *)
}.

(** The text [go_to_step(4)] puts in the terminal. *)
Definition terminal_banner : string := "# Type 'help' for basic commands." ++ nl ++ nl ++ "$ ".

(** [__init__]. *)
Definition terminal_init : terminal := Terminal terminal_banner [] (-1) None [] false.

(** [_append_to_terminal(text)]. *)
Definition append_to_terminal (text : string) (t : terminal) : terminal :=
  Terminal (t_text t ++ text) (t_history t) (t_history_index t) (t_thread t) (t_pending t) (t_stop_visible t).

(** [_get_terminal_command()]: the stripped text after the last prompt,
    recorded in the history when not empty. *)
Definition get_terminal_command (t : terminal) : option string * terminal :=
  let text_content := t_text t in
  let prompt_index := rfind "$ " text_content in
  if (prompt_index =? -1)%Z then (None, t)
  else
    let command := strip (drop_str (Z.to_nat (prompt_index + 2)) text_content) in
    if String.eqb command "" then (None, t)
    else
      let history := (t_history t ++ [command])%list in
      (Some command, Terminal (t_text t) history (Z.of_nat (length history)) (t_thread t) (t_pending t)
                       (t_stop_visible t)).

Definition help_text : string :=
  nl ++ "Available commands:" ++ nl
  ++ "  help - Show this help message" ++ nl
  ++ "  ls   - List files in current directory (in chroot)" ++ nl
  ++ "  pwd  - Print working directory (in chroot)" ++ nl
  ++ "  echo <text> - Print text (in chroot)" ++ nl
  ++ "  exit - Exit chroot environment" ++ nl
  ++ "  apt update - Update package lists (requires sudo)" ++ nl
  ++ "  apt install <package> - Install package (requires sudo)" ++ nl
  ++ "  apt remove <package> - Remove package (requires sudo)" ++ nl
  ++ "  dpkg -i <package.deb> - Install a .deb package (requires sudo)" ++ nl
  ++ "  dpkg -r <package> - Remove a package (requires sudo)" ++ nl.

(** The thread of a terminal command. *)
Definition terminal_runner (extracted command : string) : runner :=
  Runner (CmdList [command]) None (Some extracted) false.

(** [_start_command_execution(command)]; the boolean says whether it
    called [go_to_step(5)] (the command [exit]). *)
Definition start_command_execution (extracted command : string) (t : terminal) : terminal * bool :=
  if t_thread t is Some _ then
    (append_to_terminal (nl ++ "Previous command still running. Please wait or stop it." ++ nl ++ "$ ") t, false)
  else
    let help_command := lower (strip command) in
    if String.eqb help_command "help" then (append_to_terminal (help_text ++ nl ++ "$ ") t, false)
    else if String.eqb help_command "exit" then
      (append_to_terminal (nl ++ "Exiting chroot environment." ++ nl) t, true)
    else
      let t1 := append_to_terminal nl t in
      let r := terminal_runner extracted command in
      (Terminal (t_text t1) (t_history t1) (t_history_index t1) (Some r) (t_pending t1 ++ [r])%list true,
       false).

(** [_command_execution_finished(return_code)], for the thread [r]: the
    slot is connected to every thread's signal. *)
Definition command_execution_finished (r : runner) (t : terminal) : terminal :=
  let t1 := append_to_terminal "$ " t in
  Terminal (t_text t1) (t_history t1) (t_history_index t1) None (remove_one r (t_pending t1)) false.

(** [stop_terminal_command()]. *)
Definition stop_terminal_command (t : terminal) : terminal :=
  if t_thread t is Some _ then
    let t1 := append_to_terminal (nl ++ "[Command stopped by user]" ++ nl ++ "$ ") t in
    Terminal (t_text t1) (t_history t1) (t_history_index t1) None (t_pending t1) (t_stop_visible t1)
  else t.

(** The wrap-around of [_navigate_command_history]. *)
Definition wrap_index (index : Z) (n : nat) : Z :=
  if (index <? 0)%Z then (Z.of_nat n - 1)%Z
  else if (Z.of_nat n <=? index)%Z then 0%Z
  else index.

(** [_navigate_command_history(direction)]. *)
Definition navigate_command_history (direction : Z) (t : terminal) : py terminal :=
  match t_history t with
  | [] => py_ret t
  | history =>
      let index := wrap_index (t_history_index t + direction) (length history) in
      let? command_to_set := py_index history index in
      let text_content := t_text t in
      let prompt_index := rfind "$ " text_content in
      let text := if (prompt_index =? -1)%Z then text_content
                  else substring 0 (Z.to_nat (prompt_index + 2)) text_content ++ command_to_set in
      py_ret (Terminal text (t_history t) index (t_thread t) (t_pending t) (t_stop_visible t))
  end.

(** The keys [eventFilter] handles. *)
Inductive key : Type :=
  | KeyReturn
  | KeyUp
  | KeyDown.

(** [eventFilter] on a key press in the terminal; the boolean is the
    [go_to_step(5)] of [exit]. *)
Definition terminal_key (extracted : string) (k : key) (t : terminal) : py (terminal * bool) :=
  match k with
  | KeyReturn =>
      match get_terminal_command t with
      | (Some command, t1) => py_ret (start_command_execution extracted command t1)
      | (None, t1) => py_ret (t1, false)
      end
  | KeyUp => let? t1 := navigate_command_history (-1) t in py_ret (t1, false)
  | KeyDown => let? t1 := navigate_command_history 1 t in py_ret (t1, false)
  end.

(** What [go_to_step(4)] does to the terminal: the stop button shown,
    the banner and prompt written (MasterLinux.py 466-471). *)
Definition terminal_enter (t : terminal) : terminal :=
  Terminal terminal_banner (t_history t) (t_history_index t) (t_thread t) (t_pending t) true.

(** ** Reachable terminal states *)

(** The operations the rest of the application performs on the terminal:
    a key press, text appended by a slot, the finished signal of a
    started thread, the Stop button, entering step 4. *)
Inductive tstep (extracted : string) : terminal -> terminal -> Prop :=
  | tstep_key k t t' b : terminal_key extracted k t = inr (t', b) -> tstep extracted t t'
  | tstep_append text t : tstep extracted t (append_to_terminal text t)
  | tstep_finished r t : r ∈ t_pending t -> tstep extracted t (command_execution_finished r t)
  | tstep_stop t : tstep extracted t (stop_terminal_command t)
  | tstep_enter t : tstep extracted t (terminal_enter t).

(** The well-formedness of a terminal: the history index is [-1] (fresh),
    a position of the history or one past its end, and a running thread
    is one whose finished signal is still due. *)
Definition term_wf (t : terminal) : Prop :=
  (-1 <= t_history_index t <= Z.of_nat (length (t_history t)))%Z
  /\ (forall r, t_thread t = Some r -> r ∈ t_pending t).

(** ** Lemmas *)

(** The last prompt of [before ++ "$ " ++ cmd] is the one before [cmd]. *)
Lemma rfind_prompt (before cmd : string) :
  contains "$ " cmd = false ->
  rfind "$ " (before ++ "$ " ++ cmd) = Z.of_nat (String.length before).
Proof.
  intros Hc. assert (H1 : rfind "$ " ("$ " ++ cmd) = 0%Z).
  { cbn [String.append rfind]. rewrite (rfind_none _ _ Hc). destruct cmd; reflexivity. }
  rewrite rfind_app; rewrite H1; lia.
Qed.

Lemma wrap_index_range (index : Z) (n : nat) :
  (0 < n)%nat -> (0 <= wrap_index index n < Z.of_nat n)%Z.
Proof.
  unfold wrap_index. intros Hn.
  destruct (Z.ltb_spec index 0); [lia |]. destruct (Z.leb_spec (Z.of_nat n) index); lia.
Qed.

Lemma py_index_in_range {A} (l : list A) (i : Z) :
  (0 <= i < Z.of_nat (length l))%Z -> exists x, py_index l i = inr x /\ l !! Z.to_nat i = Some x.
Proof.
  intros Hi. destruct (lookup_lt_is_Some_2 l (Z.to_nat i)) as [x Hx]; [lia |].
  exists x. split; [| done]. rewrite <- (Z2Nat.id i) by lia. by apply py_index_nat.
Qed.

(** ** Properties *)

(** Every terminal operation keeps [term_wf]. *)
Lemma append_to_terminal_wf (text : string) (t : terminal) :
  term_wf t -> term_wf (append_to_terminal text t).
Proof. done. Qed.

Lemma navigate_command_history_wf (direction : Z) (t t' : terminal) :
  term_wf t -> navigate_command_history direction t = inr t' -> term_wf t'.
Proof.
  unfold navigate_command_history. intros Hwf. pose proof Hwf as [Hi Hp].
  destruct (t_history t) as [|h hs] eqn:Eh; unfold py_ret; [by intros [= <-] |].
  pose proof (wrap_index_range (t_history_index t + direction) (length (h :: hs))) as Hw.
  destruct (py_index _ _); [discriminate |]. simpl. intros [= <-].
  split; [simpl in *; lia | exact Hp].
Qed.

Lemma get_terminal_command_wf (t : terminal) : term_wf t -> term_wf (get_terminal_command t).2.
Proof.
  unfold get_terminal_command. intros Hwf. pose proof Hwf as [_ Hp].
  case_if_match; try exact Hwf. split; [simpl; lia | exact Hp].
Qed.

Lemma start_command_execution_wf (extracted command : string) (t : terminal) :
  term_wf t -> term_wf (start_command_execution extracted command t).1.
Proof.
  unfold start_command_execution. intros Hwf.
  destruct (t_thread t) eqn:Et; [exact Hwf |]. case_if_match; try exact Hwf.
  split; [exact (proj1 Hwf) |]. intros r [= <-]. simpl. set_solver.
Qed.

Lemma terminal_key_wf (extracted : string) (k : key) (t t' : terminal) (b : bool) :
  term_wf t -> terminal_key extracted k t = inr (t', b) -> term_wf t'.
Proof.
  intros Hwf. destruct k; simpl.
  - pose proof (get_terminal_command_wf t Hwf) as Hg.
    destruct (get_terminal_command t) as [[command|] t1]; unfold py_ret; intros H; injection H as H.
    + pose proof (start_command_execution_wf extracted command t1 Hg) as Hs. by rewrite H in Hs.
    + by subst.
  - destruct (navigate_command_history (-1) t) eqn:E; [discriminate |]. intros [= <- _].
    exact (navigate_command_history_wf _ _ _ Hwf E).
  - destruct (navigate_command_history 1 t) eqn:E; [discriminate |]. intros [= <- _].
    exact (navigate_command_history_wf _ _ _ Hwf E).
Qed.

Lemma tstep_wf (extracted : string) (t t' : terminal) :
  term_wf t -> tstep extracted t t' -> term_wf t'.
Proof.
  intros Hwf Hs. destruct Hs as [k t t' b Hk | text t | r t _ | t | t].
  - exact (terminal_key_wf extracted k t t' b Hwf Hk).
  - exact (append_to_terminal_wf text t Hwf).
  - split; [exact (proj1 Hwf) | discriminate].
  - unfold stop_terminal_command. destruct (t_thread t); [| exact Hwf].
    split; [exact (proj1 Hwf) | discriminate].
  - exact Hwf.
Qed.

(** C16: The terminal is always well formed: in every state reached from
    the one [__init__] builds, by any sequence of key presses, appended
    output, finished signals of started commands, Stop clicks and
    entries into step 4, the history index lies in [-1 .. len(history)]
    and the thread the Stop button acts on is one whose finished signal
    is still due. *)
Theorem terminal_reachable_wf (extracted : string) (t : terminal) :
  rtc (tstep extracted) terminal_init t -> term_wf t.
Proof.
  intros Hrtc. remember terminal_init as t0 eqn:E0.
  assert (H0 : term_wf t0) by (subst; split; [simpl; lia | discriminate]). clear E0.
  induction Hrtc as [x | x y z Hxy _ IH]; [exact H0 |].
  exact (IH (tstep_wf extracted x y H0 Hxy)).
Qed.

(** [_navigate_command_history] with a non-empty history never raises,
    whatever the stored index and the direction: the wrap-around always
    lands in [0 .. len(history) - 1]. *)
Theorem navigate_history_bounds (direction : Z) (t : terminal) :
  t_history t <> [] ->
  exists t', navigate_command_history direction t = inr t'
  /\ (0 <= t_history_index t' < Z.of_nat (length (t_history t)))%Z /\ t_history t' = t_history t.
Proof.
  intros Hne. unfold navigate_command_history. destruct (t_history t) as [|h hs] eqn:Eh; [done |].
  pose proof (wrap_index_range (t_history_index t + direction) (length (h :: hs)) ltac:(simpl; lia)) as Hr.
  destruct (py_index_in_range (h :: hs) _ Hr) as (x & -> & _). simpl.
  eexists. split; [reflexivity |]. simpl. split; [exact Hr | reflexivity].
Qed.

(** Reading the command after the last prompt. *)
Lemma get_terminal_command_prompt (t : terminal) (before cmd : string) :
  t_text t = before ++ "$ " ++ cmd -> contains "$ " cmd = false -> strip cmd = cmd ->
  String.eqb cmd "" = false ->
  fst (get_terminal_command t) = Some cmd
  /\ t_history (snd (get_terminal_command t)) = (t_history t ++ [cmd])%list
  /\ t_history_index (snd (get_terminal_command t)) = Z.of_nat (S (length (t_history t))).
Proof.
  intros Ht Hc Hs Hne. unfold get_terminal_command. rewrite Ht, rfind_prompt by exact Hc.
  destruct (Z.eqb_spec (Z.of_nat (String.length before)) (-1)); [lia |].
  replace (Z.to_nat (Z.of_nat (String.length before) + 2)) with (String.length (before ++ "$ "))
    by (rewrite str_length_app; simpl; lia).
  rewrite <- str_app_assoc, drop_str_app, Hs, Hne. simpl. rewrite length_app. simpl.
  split_and!; [done | done | f_equal; lia].
Qed.

(** C36: Return on a terminal whose text ends with the prompt and a command
    (no prompt inside, no surrounding whitespace) reads back exactly that
    command and records it as the newest history entry. *)
Theorem get_terminal_command_roundtrip (t : terminal) (before cmd : string) :
  t_text t = before ++ "$ " ++ cmd -> contains "$ " cmd = false -> strip cmd = cmd ->
  String.eqb cmd "" = false ->
  fst (get_terminal_command t) = Some cmd
  /\ t_history (snd (get_terminal_command t)) = (t_history t ++ [cmd])%list
  /\ t_history_index (snd (get_terminal_command t)) = Z.of_nat (S (length (t_history t))).
Proof. exact (get_terminal_command_prompt t before cmd). Qed.

(** C34: A terminal command is run as a one-element argv on the host: for
    [ls -la] threads.py executes the program named ["ls -la"], and not in
    the extracted tree. *)
Theorem terminal_command_single_argv (extracted : string) (t : terminal) (before cmd : string) :
  t_thread t = None -> t_text t = before ++ "$ " ++ cmd -> contains "$ " cmd = false ->
  strip cmd = cmd -> String.eqb cmd "" = false ->
  String.eqb (lower cmd) "help" = false -> String.eqb (lower cmd) "exit" = false ->
  exists t', terminal_key extracted KeyReturn t = inr (t', false)
  /\ t_thread t' = Some (terminal_runner extracted cmd)
  /\ final_command_v1 (terminal_runner extracted cmd) = [cmd].
Proof.
  intros Hidle Ht Hc Hs Hne Hh He.
  destruct (get_terminal_command_prompt t before cmd Ht Hc Hs Hne) as (H1 & _).
  unfold terminal_key. destruct (get_terminal_command t) as [oc t1] eqn:E. simpl in H1. subst oc.
  assert (Hidle1 : t_thread t1 = None).
  { revert E. unfold get_terminal_command. case_if_match; intros [= <- <-]; auto. }
  unfold start_command_execution. rewrite Hidle1, Hs, Hh, He. eexists. split_and!; try reflexivity.
  unfold final_command_v1. by destruct (truthy _).
Qed.

(** C25: [stop_terminal_command] only forgets the running thread: its
    process keeps running and its finished signal is still due, so the
    next command starts a second process beside it, against the spec's
    one-process-at-a-time rule. *)
Theorem stop_then_run_concurrent (extracted cmd : string) (t : terminal) (r : runner) :
  t_thread t = Some r -> r ∈ t_pending t ->
  String.eqb (lower (strip cmd)) "help" = false -> String.eqb (lower (strip cmd)) "exit" = false ->
  let t' := fst (start_command_execution extracted cmd (stop_terminal_command t)) in
  t_thread t' = Some (terminal_runner extracted cmd)
  /\ r ∈ t_pending t' /\ terminal_runner extracted cmd ∈ t_pending t'.
Proof.
  intros Hr Hin Hh He t'. subst t'. unfold stop_terminal_command. rewrite Hr.
  unfold start_command_execution. simpl. rewrite Hh, He. simpl.
  split_and!; [done | apply elem_of_app; by left | apply elem_of_app; right; by left].
Qed.

(** ** Concrete runs *)

Definition terminal_ls : terminal :=
  Terminal (terminal_banner ++ "ls -la") ["pwd"] 1 None [] false.

Lemma navigate_history_bounds_witness :
  exists t', navigate_command_history 5 terminal_ls = inr t' /\ t_history_index t' = 0%Z.
Proof.
  destruct (navigate_history_bounds 5 terminal_ls) as (t' & E & Hr & Hh); [done |].
  exists t'. split; [exact E |]. simpl in Hr. lia.
Defined.

Lemma get_terminal_command_roundtrip_witness :
  fst (get_terminal_command terminal_ls) = Some "ls -la".
Proof.
  apply (get_terminal_command_roundtrip terminal_ls ("# Type 'help' for basic commands." ++ nl ++ nl)
           "ls -la"); reflexivity.
Defined.

Lemma terminal_command_single_argv_witness :
  final_command_v1 (terminal_runner "/work/extracted_iso" "ls -la") = ["ls -la"].
Proof.
  destruct (terminal_command_single_argv "/work/extracted_iso" terminal_ls
              ("# Type 'help' for basic commands." ++ nl ++ nl) "ls -la")
    as (t' & _ & _ & H); [reflexivity .. | exact H].
Defined.

Lemma stop_then_run_concurrent_witness :
  let r := terminal_runner "/work/extracted_iso" "apt update" in
  let t := Terminal (terminal_banner ++ "apt update") ["apt update"] 1 (Some r) [r] true in
  t_pending (fst (start_command_execution "/work/extracted_iso" "pwd" (stop_terminal_command t)))
  = [r; terminal_runner "/work/extracted_iso" "pwd"].
Proof.
  simpl.
  destruct (stop_then_run_concurrent "/work/extracted_iso" "pwd"
              (Terminal (terminal_banner ++ "apt update") ["apt update"] 1
                 (Some (terminal_runner "/work/extracted_iso" "apt update"))
                 [terminal_runner "/work/extracted_iso" "apt update"] true)
              (terminal_runner "/work/extracted_iso" "apt update")) as (_ & _ & _);
    [reflexivity | by left | reflexivity | reflexivity |].
  reflexivity.
Defined.

(** Step 4 entered, [ls -la] typed after the prompt, Return pressed. *)
Definition terminal_after_ls : terminal :=
  match terminal_key "/work/extracted_iso" KeyReturn
          (append_to_terminal "ls -la" (terminal_enter terminal_init)) with
  | inr (t, _) => t
  | inl _ => terminal_init
  end.

Lemma terminal_reachable_wf_witness :
  rtc (tstep "/work/extracted_iso") terminal_init terminal_after_ls /\ term_wf terminal_after_ls.
Proof.
  assert (H : rtc (tstep "/work/extracted_iso") terminal_init terminal_after_ls).
  { eapply rtc_l; [apply tstep_enter |]. eapply rtc_l; [apply (tstep_append _ "ls -la") |].
    eapply rtc_l; [apply (tstep_key _ KeyReturn _ _ false); vm_compute; reflexivity |].
    apply rtc_refl. }
  split; [exact H | exact (terminal_reachable_wf _ _ H)].
Defined.
