(* ===== verification/Batch.v ===== *)
(** * The batch sequencers

    Two loops run a list of commands one at a time, each started from the
    finished signal of the previous one:
    - package removal of src/MasterLinux.py (steps 5-6):
      [_execute_package_removal] (752-766), [_remove_next_package]
      (769-781), [_handle_single_package_removal] (783-798) and
      [_package_removal_finished] (807-814, its batch part);
    - configuration changes of src/MasterLinux_v2.py (step 4):
      [_execute_package_modifications] (1010-1032),
      [_execute_next_modification_command] (1034-1049),
      [_handle_modification_command_finished] (1051-1059) and
      [_package_modifications_finished] (1066-1071).

    A sequencer sees a started thread only through its one finished
    signal.  The interface [CommandOutcome] gives the code that signal
    carries for a runner; [runner_outcome_v1] and [runner_outcome_v2]
    implement it with the runner model.  Every threads.py run emits exactly
    one finished signal, last ([run_v1_one_finished]); a v2 run does so
    unless its process writes more than a pipe buffer to stderr, when the
    thread hangs and no signal ever comes ([run_v2_one_finished],
    [run_v2_stderr_deadlock]).  The batch theorems therefore describe the
    v2 loop on the runs that finish: a hung thread leaves the loop at its
    current command for good.  The loops are event driven:
    [drive_removal] / [drive_modifications] deliver the finished signal of
    the running thread, [fuel] times; one event per command is enough
    ([removal_batch_complete], [modification_batch_complete]). *)

From stdpp Require Import relations.
From S2P Require Import Prelude PyStr PyFloat Qt Runner Packages.

Open Scope string_scope.
Open Scope py_scope.

(** ** The interface between the sequencers and the runner *)

(** The return code the finished signal of a runner's thread carries. *)
Class CommandOutcome := {
  outcome_rc : runner -> Z
}.

(** The code of the last finished signal of a run. *)
Definition last_code (sigs : list signal) : Z := default (-1)%Z (last (finished_codes sigs)).

Lemma last_code_one (outs : list string) (rc : Z) :
  last_code (map SigOutput outs ++ [SigFinished rc])%list = rc.
Proof. unfold last_code. by rewrite finished_codes_app, finished_codes_map. Qed.

(** The runner of threads.py as an implementation of the interface. *)
#[export] Instance runner_outcome_v1 `{ProcessEnv} : CommandOutcome := {|
  outcome_rc r := last_code (run_v1 r)
|}.

(** The runner of MasterLinux_v2.py, never stopped.  For a run that hangs
    there is no finished signal and [last_code] falls back to [-1]; the
    sequencers are only driven by signals that come. *)
#[export] Instance runner_outcome_v2 `{ProcessEnv} : CommandOutcome := {|
  outcome_rc r := last_code (run_v2 None r)
|}.

(** The law of the interface for the threads.py runner: the run ends
    with the signal that carries [outcome_rc]. *)
Lemma runner_outcome_v1_law `{ProcessEnv} (r : runner) :
  exists outs, run_v1 r = (map SigOutput outs ++ [SigFinished (@outcome_rc runner_outcome_v1 r)])%list.
Proof.
  destruct (run_v1_one_finished r) as (outs & rc & E). exists outs. simpl. by rewrite E, last_code_one.
Qed.

(** ** Package removal (MasterLinux.py) *)

(** The fields of the application the removal loop reads and writes. *)
Record removal_state := RemovalState {
  rs_rows : list package;          (** [step5_package_model._package_data] *)
  rs_queue : list string;          (** [packages_to_remove_queue] *)
  rs_index : nat;                  (** [current_package_index] *)
  rs_total : nat;                  (** [total_packages_to_remove] *)
  rs_bar : progress_bar;           (** [step6_progress_bar] *)
  rs_extracted : string;           (** [extracted_iso_path] *)
  rs_started : list runner;        (** threads started, in order *)
  rs_running : bool;               (** [package_removal_thread] is running *)
  rs_errors : list string;         (** texts of the critical dialogs *)
  rs_finished : bool               (** [_package_removal_finished] was called *)
}.

(** [CommandRunnerThread(["apt-get", "purge", "-y", package],
    chroot_path=self.extracted_iso_path)]. *)
Definition purge_runner (extracted pkg : string) : runner :=
  Runner (CmdList ["apt-get"; "purge"; "-y"; pkg]) None (Some extracted) false.

(** The batch part of [_package_removal_finished]: the thread is dropped. *)
Definition package_removal_finished (st : removal_state) : removal_state :=
  RemovalState (rs_rows st) (rs_queue st) (rs_index st) (rs_total st) (rs_bar st)
    (rs_extracted st) (rs_started st) false (rs_errors st) true.

(** [_remove_next_package]. *)
Definition remove_next_package (st : removal_state) : removal_state :=
  match rs_queue st !! rs_index st with
  | None => package_removal_finished st
  | Some pkg =>
      RemovalState (rs_rows st) (rs_queue st) (rs_index st) (rs_total st) (rs_bar st)
        (rs_extracted st) (rs_started st ++ [purge_runner (rs_extracted st) pkg])%list
        true (rs_errors st) (rs_finished st)
  end.

(** The status a return code gives. *)
Definition status_of_rc (rc : Z) : removal_status := if (rc =? 0)%Z then Removed else StatusError.

(** Mark every listed package ["removing"]. *)
Definition mark_removing (pkgs : list string) (rows : list package) : list package :=
  foldl (fun rows pkg => set_package_status pkg Removing rows) rows pkgs.

(** [_execute_package_removal(packages_to_remove)]. *)
Definition execute_package_removal (pkgs : list string) (st : removal_state) : removal_state :=
  match pkgs with
  | [] => package_removal_finished st
  | _ =>
      remove_next_package
        (RemovalState (mark_removing pkgs (rs_rows st)) pkgs 0 (length pkgs)
           (pb_setValue 0 (rs_bar st)) (rs_extracted st) (rs_started st) (rs_running st)
           (rs_errors st) (rs_finished st))
  end.

(** [_handle_single_package_removal(return_code)]. *)
Definition handle_single_package_removal (rc : Z) (st : removal_state) : py removal_state :=
  let? package_removed := py_index (rs_queue st) (Z.of_nat (rs_index st)) in
  let rows := set_package_status package_removed (status_of_rc rc) (rs_rows st) in
  let errors := if (rc =? 0)%Z then rs_errors st
                else app (rs_errors st) [String.append "Failed to remove " package_removed] in
  let index := S (rs_index st) in
  let? progress_percentage := percent_of (Z.of_nat index) (Z.of_nat (rs_total st)) in
  py_ret (remove_next_package
            (RemovalState rows (rs_queue st) index (rs_total st)
               (pb_setValue progress_percentage (rs_bar st)) (rs_extracted st)
               (rs_started st) (rs_running st) errors (rs_finished st))).

Section Removal.
Context `{CommandOutcome}.

(** Deliver the finished signal of the running thread, [fuel] times. *)
Fixpoint drive_removal (fuel : nat) (st : removal_state) : py removal_state :=
  match fuel with
  | O => py_ret st
  | S f =>
      if rs_running st then
        let rc := outcome_rc (default (purge_runner "" "") (last (rs_started st))) in
        let? st' := handle_single_package_removal rc st in
        drive_removal f st'
      else py_ret st
  end.

End Removal.

(** Close the conjunction of an invariant. *)
Ltac inv_close :=
  repeat match goal with
  | |- pb_inv _ => solve [auto with ml]
  | |- _ /\ _ => split
  end; try (intro; discriminate); auto with ml; try lia.

Section RemovalTheorems.
Context `{CommandOutcome}.

(** The return code of the purge of [pkg]. *)
Definition removal_rc (extracted pkg : string) : Z := outcome_rc (purge_runner extracted pkg).

(** What the batch leaves in the table: each listed row gets the status of
    its purge's return code. *)
Definition removal_rows (extracted : string) (pkgs : list string) (rows : list package) : list package :=
  foldl (fun rows pkg => set_package_status pkg (status_of_rc (removal_rc extracted pkg)) rows) rows pkgs.

(** The critical dialogs the batch shows: one per failed purge, in order. *)
Definition removal_errors (extracted : string) (pkgs : list string) : list string :=
  (fun pkg => "Failed to remove " ++ pkg) <$> filter (fun pkg => removal_rc extracted pkg <> 0%Z) pkgs.

(** The invariant of the loop once started, relative to the threads
    [S0] started before it: the threads started by the batch are the purges
    of the first [index] packages (those whose finished signal was handled)
    and, while one is running, of the current one, in queue order. *)
Definition removal_inv (S0 : list runner) (st : removal_state) : Prop :=
  rs_total st = length (rs_queue st)
  /\ (rs_index st + Nat.b2n (rs_running st) <= length (rs_queue st))%nat
  /\ rs_started st = (S0 ++ (purge_runner (rs_extracted st) <$> take (rs_index st + Nat.b2n (rs_running st)) (rs_queue st)))%list
  /\ (rs_running st = false -> rs_finished st = true /\ rs_index st = length (rs_queue st))
  /\ pb_inv (rs_bar st) /\ pb_min (rs_bar st) = 0%Z /\ pb_max (rs_bar st) = 100%Z.

Lemma removal_started_last (S0 : list runner) (ext : string) (q : list string) (i : nat) (p : string) :
  q !! i = Some p ->
  last (S0 ++ (purge_runner ext <$> take (i + 1) q))%list = Some (purge_runner ext p).
Proof.
  intros Hp. rewrite Nat.add_1_r, (take_S_r _ _ _ Hp), fmap_app, app_assoc. apply last_snoc.
Qed.

(** One handled finished signal: the status, the dialog, the index, the
    percentage, then [_remove_next_package]. *)
Lemma handle_removal_ok (rc : Z) (st : removal_state) (p : string) :
  rs_queue st !! rs_index st = Some p ->
  rs_total st = length (rs_queue st) -> (length (rs_queue st) <= 128)%nat ->
  exists pct, (0 <= pct <= 100)%Z /\ (S (rs_index st) = length (rs_queue st) -> pct = 100%Z)
  /\ handle_single_package_removal rc st
     = inr (remove_next_package
              (RemovalState (set_package_status p (status_of_rc rc) (rs_rows st)) (rs_queue st)
                 (S (rs_index st)) (rs_total st) (pb_setValue pct (rs_bar st)) (rs_extracted st)
                 (rs_started st) (rs_running st)
                 (if (rc =? 0)%Z then rs_errors st else app (rs_errors st) ["Failed to remove " ++ p])
                 (rs_finished st))).
Proof.
  intros Hp Ht Hn. pose proof (lookup_lt_Some _ _ _ Hp) as Hi.
  destruct (percent_of_bounds (Z.of_nat (S (rs_index st))) (Z.of_nat (rs_total st)))
    as (pct & Epct & Hb & _); [lia | lia |].
  exists pct. split; [lia | split].
  - intros Hlast. rewrite Ht, <- Hlast, percent_of_self in Epct by lia. congruence.
  - unfold handle_single_package_removal. rewrite (py_index_nat _ _ _ Hp). simpl. by rewrite Epct.
Qed.

(** Every handled finished signal keeps the invariant. *)
Lemma removal_inv_handle (S0 : list runner) (rc : Z) (st st' : removal_state) :
  removal_inv S0 st -> rs_running st = true ->
  handle_single_package_removal rc st = inr st' -> removal_inv S0 st'.
Proof.
  intros (Ht & Hle & Hs & _ & Hpb & Hmin & Hmax) Hrun Heq. rewrite Hrun in Hle, Hs. simpl in Hle, Hs.
  destruct (lookup_lt_is_Some_2 (rs_queue st) (rs_index st)) as [p Hp]; [lia |].
  unfold handle_single_package_removal in Heq. rewrite (py_index_nat _ _ _ Hp) in Heq. simpl in Heq.
  destruct (percent_of _ _) as [e | pct]; [discriminate |]. injection Heq as <-.
  unfold remove_next_package, removal_inv. simpl.
  destruct (rs_queue st !! S (rs_index st)) as [p' |] eqn:Hn; simpl; rewrite pb_setValue_min, pb_setValue_max.
  - pose proof (lookup_lt_Some _ _ _ Hn).
    rewrite Hs, <- app_assoc, Nat.add_1_r, (take_S_r _ _ _ Hn), fmap_app. inv_close.
  - apply lookup_ge_None in Hn. rewrite Nat.add_0_r, Hs, Nat.add_1_r. inv_close.
Qed.

Lemma removal_rows_cons (ext p : string) (ps : list string) (rows : list package) :
  removal_rows ext (p :: ps) rows
  = removal_rows ext ps (set_package_status p (status_of_rc (removal_rc ext p)) rows).
Proof. reflexivity. Qed.

Lemma removal_errors_cons (ext p : string) (ps : list string) :
  removal_errors ext (p :: ps)
  = app (if (removal_rc ext p =? 0)%Z then [] else [String.append "Failed to remove " p])
      (removal_errors ext ps).
Proof.
  unfold removal_errors. rewrite filter_cons.
  destruct (decide _), (Z.eqb_spec (removal_rc ext p) 0); done.
Qed.

(** [_execute_package_removal] on a non-empty list starts the loop. *)
Lemma execute_removal_inv (pkgs : list string) (st : removal_state) :
  pkgs <> [] -> pb_inv (rs_bar st) -> pb_min (rs_bar st) = 0%Z -> pb_max (rs_bar st) = 100%Z ->
  removal_inv (rs_started st) (execute_package_removal pkgs st)
  /\ rs_running (execute_package_removal pkgs st) = true.
Proof.
  intros Hne Hpb Hmin Hmax. destruct pkgs as [|p ps]; [done |].
  unfold execute_package_removal, remove_next_package, removal_inv. simpl.
  rewrite pb_setValue_min, pb_setValue_max. inv_close.
Qed.

(** From any state of the running loop with [k] packages left, [k]
    finished signals run the loop to its end. *)
Lemma drive_removal_run (S0 : list runner) (k : nat) (st : removal_state) :
  removal_inv S0 st -> rs_running st = true -> (length (rs_queue st) <= 128)%nat ->
  (rs_index st + k = length (rs_queue st))%nat ->
  exists st', drive_removal k st = inr st' /\ removal_inv S0 st' /\ rs_running st' = false
  /\ rs_queue st' = rs_queue st /\ rs_extracted st' = rs_extracted st
  /\ rs_rows st' = removal_rows (rs_extracted st) (drop (rs_index st) (rs_queue st)) (rs_rows st)
  /\ rs_errors st' = (rs_errors st ++ removal_errors (rs_extracted st) (drop (rs_index st) (rs_queue st)))%list
  /\ pb_value (rs_bar st') = 100%Z.
Proof.
  revert st. induction k as [|k IH]; intros st Hinv Hrun Hn Hk.
  { destruct Hinv as (_ & Hle & _). rewrite Hrun in Hle. simpl in Hle. lia. }
  pose proof Hinv as (Ht & Hle & Hs & _ & _ & Hmin & Hmax). rewrite Hrun in Hle, Hs. simpl in Hle, Hs.
  destruct (lookup_lt_is_Some_2 (rs_queue st) (rs_index st)) as [p Hp]; [lia |].
  destruct (handle_removal_ok (removal_rc (rs_extracted st) p) st p Hp Ht Hn) as (pct & Hpct & H100 & E).
  assert (Hinv1 := removal_inv_handle S0 _ _ _ Hinv Hrun E).
  cbn [drive_removal]. rewrite Hrun, Hs, (removal_started_last _ _ _ _ _ Hp). simpl. fold (removal_rc (rs_extracted st) p).
  rewrite E. simpl. rewrite (drop_S _ _ _ Hp), removal_rows_cons, removal_errors_cons.
  unfold remove_next_package in Hinv1 |- *. simpl in Hinv1 |- *.
  destruct (rs_queue st !! S (rs_index st)) as [p' |] eqn:Hn'.
  - destruct (IH _ Hinv1 eq_refl Hn) as (st' & Ed & Hinv' & Hrun' & Hq & He & Hr & Herr & Hv); [simpl; lia |].
    exists st'. simpl in *. rewrite Ed, Hq, He, Hr, Herr.
    destruct (removal_rc _ p =? 0)%Z; rewrite <-?app_assoc; split_and!; auto.
  - apply lookup_ge_None in Hn'. assert (k = 0) as -> by lia. rewrite drop_ge by lia.
    eexists. split; [reflexivity |]. split; [exact Hinv1 |]. simpl.
    rewrite H100, pb_setValue_in_range by lia.
    destruct (removal_rc _ p =? 0)%Z; rewrite ?app_nil_r; split_and!; auto.
Qed.

Lemma drive_removal_stopped (fuel : nat) (st : removal_state) :
  rs_running st = false -> drive_removal fuel st = inr st.
Proof. destruct fuel; simpl; [done | by intros ->]. Qed.

Lemma drive_removal_add (a b : nat) (st : removal_state) :
  drive_removal (a + b) st = (let? st' := drive_removal a st in drive_removal b st').
Proof.
  induction a as [|a IH] in st |- *; [reflexivity |]. simpl.
  destruct (rs_running st) eqn:E; [| simpl; by rewrite drive_removal_stopped].
  destruct (handle_single_package_removal _ st); simpl; auto.
Qed.

(** C4: Package removal on a non-empty selection of at most 128 packages
    (the range where the percentage is checked): one finished signal per
    package runs the batch to its end.  The purges are started one after
    the other in the order of the selection, each row of a selected
    package ends with the status of its purge's return code (removed on 0,
    error otherwise), every failed purge shows one critical dialog, and
    the progress bar ends at 100. *)
Theorem removal_batch_complete (pkgs : list string) (st : removal_state) :
  pkgs <> [] -> (length pkgs <= 128)%nat ->
  pb_inv (rs_bar st) -> pb_min (rs_bar st) = 0%Z -> pb_max (rs_bar st) = 100%Z ->
  exists st', drive_removal (length pkgs) (execute_package_removal pkgs st) = inr st'
  /\ rs_finished st' = true /\ rs_running st' = false
  /\ rs_started st' = (rs_started st ++ (purge_runner (rs_extracted st) <$> pkgs))%list
  /\ rs_errors st' = (rs_errors st ++ removal_errors (rs_extracted st) pkgs)%list
  /\ pb_value (rs_bar st') = 100%Z
  /\ (forall i r, rs_rows st !! i = Some r ->
        rs_rows st' !! i
        = Some (if decide (pkg_name r ∈ pkgs)
                then with_status (Some (status_of_rc (removal_rc (rs_extracted st) (pkg_name r)))) r
                else r)).
Proof.
  intros Hne Hn Hpb Hmin Hmax.
  destruct (execute_removal_inv pkgs st Hne Hpb Hmin Hmax) as [Hinv Hrun].
  destruct pkgs as [|p ps]; [done |].
  destruct (drive_removal_run _ (length (p :: ps)) _ Hinv Hrun Hn eq_refl)
    as (st' & Ed & (_ & _ & Hs & Hfin & _) & Hrun' & Hq & He & Hr & Herr & Hv).
  assert (Hx : rs_queue (execute_package_removal (p :: ps) st) = p :: ps
    /\ rs_index (execute_package_removal (p :: ps) st) = 0%nat
    /\ rs_rows (execute_package_removal (p :: ps) st) = mark_removing (p :: ps) (rs_rows st)
    /\ rs_extracted (execute_package_removal (p :: ps) st) = rs_extracted st
    /\ rs_errors (execute_package_removal (p :: ps) st) = rs_errors st) by (split_and!; reflexivity).
  destruct Hx as (Hx1 & Hx2 & Hx3 & Hx4 & Hx5).
  rewrite Hx1, Hx2, Hx3, Hx4, Hx5, drop_0 in *. rewrite Hrun' in Hs, Hfin. destruct (Hfin eq_refl) as [Hf Hi].
  exists st'. split_and!; auto.
  - rewrite Hs, He, Hi, Hq, Nat.add_0_r, take_ge by lia. reflexivity.
  - intros i r Hr0. rewrite Hr. unfold removal_rows.
    erewrite set_statuses_lookup; [| apply set_statuses_lookup, Hr0].
    destruct (decide (pkg_name r ∈ p :: ps)) as [Hin | Hin]; cbn [pkg_name with_status];
      [rewrite (decide_True _ _ Hin) | rewrite (decide_False _ _ Hin)]; reflexivity.
Qed.

(** One finished signal of the running purge, as a step of the loop. *)
Definition removal_step (st st' : removal_state) : Prop :=
  rs_running st = true
  /\ handle_single_package_removal
       (outcome_rc (default (purge_runner "" "") (last (rs_started st)))) st = inr st'.

(** C10: Every state the removal loop reaches from [_execute_package_removal]
    satisfies the loop invariant: the threads started by the batch are the
    purges of the packages handled so far and, while one runs, of the
    current one, in selection order (one purge at a time); a stopped loop
    has handled every package; the progress bar keeps its range 0..100. *)
Theorem removal_reachable_inv (pkgs : list string) (st0 st : removal_state) :
  pkgs <> [] -> pb_inv (rs_bar st0) -> pb_min (rs_bar st0) = 0%Z -> pb_max (rs_bar st0) = 100%Z ->
  rtc removal_step (execute_package_removal pkgs st0) st -> removal_inv (rs_started st0) st.
Proof.
  intros Hne Hpb Hmin Hmax Hrtc.
  destruct (execute_removal_inv pkgs st0 Hne Hpb Hmin Hmax) as [Hinv _].
  induction Hrtc as [x | x y z [Hrun Hxy] _ IH]; [exact Hinv |].
  apply IH. exact (removal_inv_handle _ _ _ _ Hinv Hrun Hxy).
Qed.

End RemovalTheorems.

(** ** Concrete runs of the removal loop *)

(** Two rows in the table, a fresh [step6_progress_bar]. *)
Definition removal_demo : removal_state :=
  RemovalState [new_package "vim" "2:9.0"; new_package "nano" "7.2"] [] 0 0
    (ProgressBar 0 100 0) "/work/extracted_iso" [] false [] false.

Lemma removal_demo_bar : pb_inv (rs_bar removal_demo).
Proof. unfold pb_inv. simpl. lia. Qed.

(** With the runner of threads.py, the purges of [vim] and [nano] run on the
    host, where no [apt-get] exists in [demo_env]: both fail, both rows end
    in error, two dialogs are shown, and the bar still reaches 100. *)
Lemma removal_batch_complete_witness :
  exists st', @drive_removal (@runner_outcome_v1 demo_env) 2
                (execute_package_removal ["vim"; "nano"] removal_demo) = inr st'
  /\ pb_value (rs_bar st') = 100%Z
  /\ rs_errors st' = ["Failed to remove vim"; "Failed to remove nano"]
  /\ rs_rows st' !! 0%nat = Some (with_status (Some StatusError) (new_package "vim" "2:9.0")).
Proof.
  destruct (@removal_batch_complete (@runner_outcome_v1 demo_env) ["vim"; "nano"] removal_demo)
    as (st' & Ed & _ & _ & _ & Herr & Hv & Hrows);
    [done | simpl; lia | exact removal_demo_bar | reflexivity | reflexivity |].
  exists st'. split_and!; [exact Ed | exact Hv | rewrite Herr; reflexivity |].
  rewrite (Hrows 0%nat _ eq_refl). reflexivity.
Defined.

Lemma removal_reachable_inv_witness :
  exists st, rtc (@removal_step (@runner_outcome_v1 demo_env))
               (execute_package_removal ["vim"; "nano"] removal_demo) st
  /\ rs_index st = 1%nat /\ removal_inv [] st.
Proof.
  eexists. split; [apply rtc_once; split; reflexivity |]. split; [reflexivity |].
  refine (@removal_reachable_inv (@runner_outcome_v1 demo_env) ["vim"; "nano"] removal_demo _ _ _ _ _ _);
    [done | exact removal_demo_bar | reflexivity | reflexivity |].
  apply rtc_once. split; reflexivity.
Defined.

(** ** The batch contract of the spec (section 4.3)

    Entries run strictly in order; a non-zero code marks the entry Failed
    and the batch continues, except a designated fatal first entry, whose
    failure stops the batch with the other entries Pending. *)

Inductive entry_status : Type :=
  | Pending
  | Running
  | Success
  | Failed.

#[export] Instance entry_status_eq_dec : EqDecision entry_status.
Proof. solve_decision. Defined.

Definition entry_status_of (rc : Z) : entry_status := if (rc =? 0)%Z then Success else Failed.

(** The entries started, and the status of every entry, of a whole run. *)
Definition spec_run_batch {A} (rc : A -> Z) (fatal_first : bool) (entries : list A)
    : list A * list entry_status :=
  match entries with
  | [] => ([], [])
  | e :: rest =>
      if fatal_first && negb (rc e =? 0)%Z then ([e], Failed :: ((fun _ => Pending) <$> rest))
      else (entries, (fun e => entry_status_of (rc e)) <$> entries)
  end.

Lemma spec_run_batch_nonfatal {A} (rc : A -> Z) (entries : list A) :
  spec_run_batch rc false entries = (entries, (fun e => entry_status_of (rc e)) <$> entries).
Proof. by destruct entries. Qed.

(** ** Configuration changes (MasterLinux_v2.py) *)

(** The fields of the application the configuration batch reads and
    writes. *)
Record modif_state := ModifState {
  ms_commands : list (string * list string);  (** [modification_commands] *)
  ms_index : nat;                             (** [current_modification_command_index] *)
  ms_bar : progress_bar;                      (** [step4_progress_bar] *)
  ms_label : string;                          (** [step4_progress_label] text *)
  ms_extracted : string;                      (** [extracted_iso_path] *)
  ms_started : list runner;                   (** threads started, in order *)
  ms_thread : thread_attr;                    (** [modification_thread] *)
  ms_warnings : list string;                  (** texts of the warning dialogs *)
  ms_done : bool                              (** the success dialog was shown *)
}.

(** [use_chroot = operation_name not in ["Bootstrap Base System"]]. *)
Definition use_chroot (operation_name : string) : bool :=
  negb (String.eqb operation_name "Bootstrap Base System").

(** The thread [_execute_next_modification_command] starts for an entry. *)
Definition modification_runner (extracted : string) (entry : string * list string) : runner :=
  let '(operation_name, command) := entry in
  Runner (CmdList command) None (if use_chroot operation_name then Some extracted else None)
    (use_chroot operation_name).

(** [_package_modifications_finished]. *)
Definition package_modifications_finished (st : modif_state) : modif_state :=
  ModifState (ms_commands st) (ms_index st) (ms_bar st) "Configuration Changes Applied."
    (ms_extracted st) (ms_started st) AttrNone (ms_warnings st) true.

(** [_execute_next_modification_command]. *)
Definition execute_next_modification_command (st : modif_state) : modif_state :=
  match ms_commands st !! ms_index st with
  | None => package_modifications_finished st
  | Some (operation_name, command) =>
      let r := modification_runner (ms_extracted st) (operation_name, command) in
      ModifState (ms_commands st) (ms_index st) (ms_bar st)
        ("Applying Changes: " ++ operation_name ++ "...") (ms_extracted st)
        (ms_started st ++ [r])%list (AttrThread r) (ms_warnings st) (ms_done st)
  end.

(** [_execute_package_modifications(commands)]: a new bar of range
    [0 .. len(commands)]. *)
Definition execute_package_modifications (commands : list (string * list string))
    (st : modif_state) : modif_state :=
  match commands with
  | [] => st
  | _ =>
      execute_next_modification_command
        (ModifState commands 0
           (pb_setValue 0 (pb_setRange 0 (Z.of_nat (length commands)) pb_new))
           "Applying Configuration Changes:" (ms_extracted st) (ms_started st) (ms_thread st)
           (ms_warnings st) (ms_done st))
  end.

(** The warning of a failed command. *)
Definition modification_warning (rc : Z) : string :=
  "Package modification command failed with return code: " ++ str_int rc.

(** [_handle_modification_command_finished(return_code)]. *)
Definition handle_modification_command_finished (rc : Z) (st : modif_state) : modif_state :=
  let warnings := if (rc =? 0)%Z then ms_warnings st
                  else app (ms_warnings st) [modification_warning rc] in
  let index := S (ms_index st) in
  execute_next_modification_command
    (ModifState (ms_commands st) index (pb_setValue (Z.of_nat index) (ms_bar st)) (ms_label st)
       (ms_extracted st) (ms_started st) (ms_thread st) warnings (ms_done st)).

Section Modifications.
Context `{CommandOutcome}.

(** Deliver the finished signal of the current thread, [fuel] times. *)
Fixpoint drive_modifications (fuel : nat) (st : modif_state) : modif_state :=
  match fuel, ms_thread st with
  | S f, AttrThread r => drive_modifications f (handle_modification_command_finished (outcome_rc r) st)
  | _, _ => st
  end.

(** A started thread is held. *)
Definition thread_running (a : thread_attr) : bool :=
  if a is AttrThread _ then true else false.

(** The invariant of the configuration batch once started: the threads
    started by the batch are those of the entries handled so far and of the
    current one, in order; the current thread is the current entry's; the
    bar shows the number of entries completed out of the total; a batch
    with no thread has handled every entry and shown its success dialog. *)
Definition modif_inv (S0 : list runner) (st : modif_state) : Prop :=
  (ms_index st + Nat.b2n (thread_running (ms_thread st)) <= length (ms_commands st))%nat
  /\ ms_started st = (S0 ++ (modification_runner (ms_extracted st) <$>
                       take (ms_index st + Nat.b2n (thread_running (ms_thread st))) (ms_commands st)))%list
  /\ (forall r, ms_thread st = AttrThread r ->
        exists e, ms_commands st !! ms_index st = Some e /\ r = modification_runner (ms_extracted st) e)
  /\ (thread_running (ms_thread st) = false ->
        ms_thread st = AttrNone /\ ms_done st = true /\ ms_index st = length (ms_commands st))
  /\ pb_inv (ms_bar st) /\ pb_min (ms_bar st) = 0%Z
  /\ pb_max (ms_bar st) = Z.of_nat (length (ms_commands st))
  /\ pb_value (ms_bar st) = Z.of_nat (ms_index st).

Lemma execute_next_modification_inv (S0 : list runner) (st : modif_state) :
  (ms_index st <= length (ms_commands st))%nat ->
  ms_started st = (S0 ++ (modification_runner (ms_extracted st) <$> take (ms_index st) (ms_commands st)))%list ->
  pb_inv (ms_bar st) -> pb_min (ms_bar st) = 0%Z ->
  pb_max (ms_bar st) = Z.of_nat (length (ms_commands st)) -> pb_value (ms_bar st) = Z.of_nat (ms_index st) ->
  modif_inv S0 (execute_next_modification_command st).
Proof.
  intros Hle Hs Hpb Hmin Hmax Hv. unfold execute_next_modification_command, modif_inv.
  destruct (ms_commands st !! ms_index st) as [[op cmd] |] eqn:Hn; simpl.
  - pose proof (lookup_lt_Some _ _ _ Hn).
    rewrite Hs, <- app_assoc, Nat.add_1_r, (take_S_r _ _ _ Hn), fmap_app.
    split_and!; try done; try lia. intros r [= <-]. eauto.
  - apply lookup_ge_None in Hn. rewrite Nat.add_0_r. split_and!; try done; try lia. intros _. split_and!; done || lia.
Qed.

(** Every handled finished signal keeps the invariant. *)
Lemma modif_inv_handle (S0 : list runner) (rc : Z) (st : modif_state) :
  modif_inv S0 st -> thread_running (ms_thread st) = true ->
  modif_inv S0 (handle_modification_command_finished rc st).
Proof.
  intros (Hle & Hs & Hcur & _ & Hpb & Hmin & Hmax & Hv) Hrun.
  rewrite Hrun in Hle, Hs. simpl in Hle, Hs.
  apply execute_next_modification_inv; simpl; rewrite ?pb_setValue_min, ?pb_setValue_max; auto with ml; try lia.
  - by rewrite Nat.add_1_r in Hs.
  - apply pb_setValue_in_range. lia.
Qed.

(** [_execute_package_modifications] on a non-empty list starts the batch. *)
Lemma execute_modifications_inv (cmds : list (string * list string)) (st : modif_state) :
  cmds <> [] ->
  modif_inv (ms_started st) (execute_package_modifications cmds st)
  /\ thread_running (ms_thread (execute_package_modifications cmds st)) = true.
Proof.
  intros Hne. destruct cmds as [|c cs]; [done |].
  destruct (pb_fresh_range (Z.of_nat (length (c :: cs)))) as (Hmin & Hmax & Hv & Hpb); [lia |].
  split.
  - apply execute_next_modification_inv; simpl; rewrite ?app_nil_r; auto with lia.
  - by destruct c.
Qed.

(** The code of an entry's thread. *)
Definition modification_rc (extracted : string) (e : string * list string) : Z :=
  outcome_rc (modification_runner extracted e).

(** The warnings of a run: one per entry the non-fatal contract marks
    Failed, in order. *)
Definition modification_warnings (extracted : string) (cmds : list (string * list string)) : list string :=
  let '(started, statuses) := spec_run_batch (modification_rc extracted) false cmds in
  (fun es => modification_warning (modification_rc extracted es.1))
    <$> filter (fun es => es.2 = Failed) (zip started statuses).

Lemma modification_warnings_cons (ext : string) (e : string * list string) (es : list (string * list string)) :
  modification_warnings ext (e :: es)
  = app (if (modification_rc ext e =? 0)%Z then [] else [modification_warning (modification_rc ext e)])
      (modification_warnings ext es).
Proof.
  unfold modification_warnings. rewrite !spec_run_batch_nonfatal. simpl. rewrite filter_cons.
  case_decide as Hd; simpl in Hd; unfold entry_status_of in Hd; destruct (_ =? 0)%Z; done.
Qed.

Lemma execute_next_modification_fields (st : modif_state) :
  let st' := execute_next_modification_command st in
  ms_commands st' = ms_commands st /\ ms_index st' = ms_index st /\ ms_extracted st' = ms_extracted st
  /\ ms_warnings st' = ms_warnings st
  /\ (thread_running (ms_thread st') = false -> ms_label st' = "Configuration Changes Applied.").
Proof. unfold execute_next_modification_command. by destruct (_ !! _) as [[] |]. Qed.

Lemma handle_modification_fields (rc : Z) (st : modif_state) :
  let st' := handle_modification_command_finished rc st in
  ms_commands st' = ms_commands st /\ ms_index st' = S (ms_index st)
  /\ ms_extracted st' = ms_extracted st
  /\ ms_warnings st' = (if (rc =? 0)%Z then ms_warnings st else app (ms_warnings st) [modification_warning rc])
  /\ (thread_running (ms_thread st') = false -> ms_label st' = "Configuration Changes Applied.").
Proof.
  unfold handle_modification_command_finished, execute_next_modification_command.
  by destruct (_ !! _) as [[] |].
Qed.

(** From any state of the running batch with [k] entries left, [k]
    finished signals run it to its end. *)
Lemma drive_modifications_run (S0 : list runner) (k : nat) (st : modif_state) :
  modif_inv S0 st -> thread_running (ms_thread st) = true ->
  (ms_index st + k = length (ms_commands st))%nat ->
  let st' := drive_modifications k st in
  modif_inv S0 st' /\ thread_running (ms_thread st') = false
  /\ ms_commands st' = ms_commands st /\ ms_extracted st' = ms_extracted st
  /\ ms_warnings st' = (ms_warnings st ++ modification_warnings (ms_extracted st) (drop (ms_index st) (ms_commands st)))%list
  /\ ms_label st' = "Configuration Changes Applied.".
Proof.
  revert st. induction k as [|k IH]; intros st Hinv Hrun Hk.
  { destruct Hinv as (Hle & _). rewrite Hrun in Hle. simpl in Hle. lia. }
  pose proof Hinv as (_ & _ & Hcur & _).
  destruct (ms_thread st) as [| | r] eqn:Et; [done | done |].
  destruct (Hcur r eq_refl) as (e & He & ->).
  set (rc := modification_rc (ms_extracted st) e).
  assert (Hinv1 := modif_inv_handle S0 rc st Hinv ltac:(by rewrite Et)).
  destruct (handle_modification_fields rc st) as (Hc & Hi & Hx & Hw & Hl).
  cbv zeta. cbn [drive_modifications]. rewrite Et.
  change (outcome_rc (modification_runner (ms_extracted st) e)) with rc.
  rewrite (drop_S _ _ _ He), modification_warnings_cons. fold rc.
  destruct (thread_running (ms_thread (handle_modification_command_finished rc st))) eqn:Hr1.
  - destruct (IH _ Hinv1 Hr1) as (Hinv' & Hrun' & Hc' & Hx' & Hw' & Hl'); [rewrite Hc, Hi; lia |].
    rewrite Hw', Hw, Hc, Hi, Hx.
    destruct (rc =? 0)%Z; rewrite ?app_nil_l, <-?app_assoc; split_and!; congruence.
  - pose proof Hinv1 as (_ & _ & _ & Hfin & _). destruct (Hfin Hr1) as (_ & _ & Hend).
    rewrite Hc, Hi in Hend. assert (k = 0) as -> by lia. simpl.
    rewrite Hc, Hx, Hw, drop_ge by lia.
    destruct (rc =? 0)%Z; rewrite ?app_nil_r; split_and!; auto.
Qed.

Lemma execute_modifications_fields (cmds : list (string * list string)) (st : modif_state) :
  cmds <> [] ->
  let st' := execute_package_modifications cmds st in
  ms_commands st' = cmds /\ ms_index st' = 0%nat /\ ms_extracted st' = ms_extracted st
  /\ ms_warnings st' = ms_warnings st.
Proof.
  intros Hne. destruct cmds as [|c cs]; [done |].
  unfold execute_package_modifications, execute_next_modification_command. by destruct c.
Qed.

(** The whole run of [_execute_package_modifications] on a non-empty list. *)
Lemma modification_batch_run (cmds : list (string * list string)) (st : modif_state) :
  cmds <> [] ->
  let st' := drive_modifications (length cmds) (execute_package_modifications cmds st) in
  modif_inv (ms_started st) st' /\ thread_running (ms_thread st') = false
  /\ ms_commands st' = cmds /\ ms_extracted st' = ms_extracted st
  /\ ms_warnings st' = (ms_warnings st ++ modification_warnings (ms_extracted st) cmds)%list
  /\ ms_label st' = "Configuration Changes Applied.".
Proof.
  intros Hne. destruct (execute_modifications_inv cmds st Hne) as [Hinv Hrun].
  destruct (execute_modifications_fields cmds st Hne) as (Hc & Hi & Hx & Hw).
  destruct (drive_modifications_run _ (length cmds) _ Hinv Hrun) as (Hinv' & Hrun' & Hc' & Hx' & Hw' & Hl');
    [by rewrite Hi, Hc |].
  rewrite Hc, Hi, Hx, Hw, drop_0 in *. split_and!; auto.
Qed.

(** C6: The configuration batch of MasterLinux_v2.py implements the spec's
    batch contract under the non-fatal policy: one finished signal per
    entry runs it to its end; it starts the threads of exactly the entries
    the contract starts, in order (the bootstrap on the host, the others in
    the chroot as package tools); it shows one warning per entry the
    contract marks Failed; the bar ends at [len(commands)] of
    [len(commands)]; the success dialog is shown and the thread dropped. *)
Theorem modification_batch_refines (cmds : list (string * list string)) (st : modif_state) :
  cmds <> [] ->
  let st' := drive_modifications (length cmds) (execute_package_modifications cmds st) in
  ms_thread st' = AttrNone /\ ms_done st' = true /\ ms_label st' = "Configuration Changes Applied."
  /\ ms_started st' = (ms_started st ++ (modification_runner (ms_extracted st)
                        <$> (spec_run_batch (modification_rc (ms_extracted st)) false cmds).1))%list
  /\ ms_warnings st' = (ms_warnings st ++ modification_warnings (ms_extracted st) cmds)%list
  /\ pb_value (ms_bar st') = Z.of_nat (length cmds) /\ pb_max (ms_bar st') = Z.of_nat (length cmds).
Proof.
  intros Hne st'.
  destruct (modification_batch_run cmds st Hne) as ((_ & Hs & _ & Hfin & _ & _ & Hmax & Hv) & Hrun & Hc & Hx & Hw & Hl).
  fold st' in Hs, Hfin, Hmax, Hv, Hrun, Hc, Hx, Hw, Hl.
  destruct (Hfin Hrun) as (Ht & Hd & Hi). rewrite Hrun in Hs. rewrite spec_run_batch_nonfatal.
  rewrite Hs, Hx, Hi, Hc, Nat.add_0_r, firstn_all. rewrite Hi, Hc in Hv. rewrite Hc in Hmax. split_and!; auto.
Qed.

(** One finished signal of the current thread, as a step of the batch. *)
Definition modif_step (st st' : modif_state) : Prop :=
  exists r, ms_thread st = AttrThread r /\ st' = handle_modification_command_finished (outcome_rc r) st.

(** Every state the configuration batch reaches satisfies its
    invariant: the bar shows [entries completed] out of [len(commands)]
    (the spec's progress), the threads started are those of the completed
    entries and of the current one, in order, and the current thread is
    the current entry's. *)
Theorem modification_reachable_inv (cmds : list (string * list string)) (st0 st : modif_state) :
  cmds <> [] -> rtc modif_step (execute_package_modifications cmds st0) st ->
  modif_inv (ms_started st0) st.
Proof.
  intros Hne Hrtc. destruct (execute_modifications_inv cmds st0 Hne) as [Hinv _].
  induction Hrtc as [x | x y z (r & Hr & ->) _ IH]; [exact Hinv |].
  apply IH, modif_inv_handle; [exact Hinv | by rewrite Hr].
Qed.

End Modifications.

(** ** Concrete runs of the configuration batch *)

Definition bootstrap_demo : string * list string :=
  ("Bootstrap Base System",
   ["debootstrap"; "--arch"; "amd64"; "--variant"; "minbase"; "jammy"; "/work/extracted_iso";
    "http://archive.ubuntu.com/ubuntu"]).

Definition upgrade_demo : string * list string := ("Upgrade Packages", ["apt-get"; "upgrade"; "-y"]).

Definition modif_demo : modif_state :=
  ModifState [] 0 pb_new "" "/work/extracted_iso" [] AttrUnset [] false.

Lemma modification_batch_refines_witness :
  ms_warnings (@drive_modifications (@runner_outcome_v2 demo_env) 2
                 (execute_package_modifications [bootstrap_demo; upgrade_demo] modif_demo))
  = ["Package modification command failed with return code: -1"].
Proof.
  destruct (@modification_batch_refines (@runner_outcome_v2 demo_env) [bootstrap_demo; upgrade_demo]
              modif_demo) as (_ & _ & _ & _ & Hw & _); [done |].
  change 2%nat with (length [bootstrap_demo; upgrade_demo]). rewrite Hw. vm_compute. reflexivity.
Defined.

Lemma modification_reachable_inv_witness :
  exists st, rtc (@modif_step (@runner_outcome_v2 demo_env))
               (execute_package_modifications [bootstrap_demo; upgrade_demo] modif_demo) st
  /\ ms_index st = 1%nat /\ modif_inv [] st.
Proof.
  eexists. split; [apply rtc_once; eexists; split; reflexivity |]. split; [reflexivity |].
  refine (@modification_reachable_inv (@runner_outcome_v2 demo_env) [bootstrap_demo; upgrade_demo]
            modif_demo _ _ _); [done |].
  apply rtc_once. eexists. split; reflexivity.
Defined.
