(* ===== verification/Wizard.v ===== *)
(** * The stage pipeline of MasterLinux.py

    The wizard [ISOMasterBuilderApp] of src/MasterLinux.py as a state
    machine over user and thread events.  The state ([wizard]) holds the
    fields of the application the handlers read and write: the
    navigation ([current_step], the Next and Back buttons), the inputs
    of steps 1, 2, 7 and 8, the file system, the extraction and
    re-creation progress, the package table with the removal loop of
    [Batch] ([w_removal]), the step-4 terminal of [Terminal], the
    threads started whose finished signal is due ([w_jobs]) and the
    message boxes shown.

    One definition per handler: [go_to_step] (421-522),
    [go_to_next_step] (392-414), [go_to_previous_step] (417-419),
    [extract_iso] (525-553), [extraction_finished] (571-583),
    [refresh_package_list] and [populate_package_list] (699-718),
    [package_list_fetch_finished] (740-743), [removal_finished_signal]
    ([_handle_single_package_removal] with [_package_removal_finished],
    783-814), [start_iso_recreation] (817-884),
    [iso_recreation_finished] (902-912), [delete_temp_files] (928-934)
    and the browse slots (318-346).  [wizard_event] dispatches an
    [event]; [event_enabled] says when the widget that sends it is
    visible and enabled (or when the thread that sends it is running):
    [event_group] is the group box [_init_ui] (121-219) puts the widget
    in, [group_shown] the visibility [go_to_step] gives that group, and
    [widget_enabled] the widget's own state;
    [wstep] is the step relation and [run_events] runs a list of events.

    An exception escaping a slot aborts a PyQt6 application: a handler
    returning [inl] is a crash. *)

From stdpp Require Import relations.
From S2P Require Import Prelude PyStr PyFloat Qt Runner Progress Packages Commands Dialogs Terminal Batch.
Import Dialogs.Preseed Dialogs.Kernel Dialogs.Compression.

Open Scope string_scope.
Open Scope py_scope.

(** ** State *)

Record nav := Nav {
  n_step : nat;              (** [current_step] *)
  n_next_enabled : bool;     (** [next_button.isEnabled()] *)
  n_back_enabled : bool;     (** [back_button.isEnabled()] *)
  n_next_shown : bool;       (** [next_button] visible *)
  n_back_shown : bool;       (** [back_button] visible *)
  n_next_text : string       (** [next_button.text()] *)
}.

Definition nav_goto (n : nat) (v : nav) : nav :=
  Nav n (n_next_enabled v) (n_back_enabled v) (n_next_shown v) (n_back_shown v) (n_next_text v).

Definition nav_show (next back : bool) (v : nav) : nav :=
  Nav (n_step v) (n_next_enabled v) (n_back_enabled v) next back (n_next_text v).

Definition nav_enable (next back : bool) (v : nav) : nav :=
  Nav (n_step v) next back (n_next_shown v) (n_back_shown v) (n_next_text v).

Definition nav_text (s : string) (v : nav) : nav :=
  Nav (n_step v) (n_next_enabled v) (n_back_enabled v) (n_next_shown v) (n_back_shown v) s.

(** A thread the wizard starts, by the slot its finished signal calls. *)
Inductive job : Type :=
  | JExtract (r : runner)     (** [extraction_thread] *)
  | JListing (r : runner)     (** [package_list_thread] *)
  | JRemove (r : runner)      (** [package_removal_thread] *)
  | JRecreate (r : runner).   (** [iso_recreation_thread] *)

#[export] Instance job_eq_dec : EqDecision job.
Proof. solve_decision. Defined.

Record wizard := Wizard {
  w_nav : nav;                                  (** navigation: current_step and the two buttons *)
  w_working_folder : string;                    (** [working_folder_path.text()] *)
  w_iso_file : string;                          (** [iso_file_path.text()] *)
  w_iso_info : iso_info;                        (** [iso_name_edit], [iso_version_edit], [iso_architecture_edit] *)
  w_output_iso : elided_label;                  (** [output_iso_path], an [ElidedLabel] *)
  w_preseed : string;                           (** [preseed_file] *)
  w_boot_logo : string;                         (** [boot_logo_path] *)
  w_compression : option compression_options;   (** [compression_options] ([{}] is [None]) *)
  w_delete_checked : bool;                      (** [step8_delete_temp_checkbox] *)
  w_fs : fsys;                                  (** the file system *)
  w_extracted : string;                         (** [extracted_iso_path] *)
  w_extract_bar : progress_bar;                 (** [step3_progress_bar] *)
  w_extract_format : string;                    (** its format text *)
  w_removal : removal_state;                    (** the package table and the removal loop *)
  w_filter : string;                            (** [step5_proxy_model.filter_text] *)
  w_removal_log : string;                       (** [step6_package_list_display] *)
  w_confirm_shown : bool;                       (** [step6_confirm_button] shown *)
  w_refresh_enabled : bool;                     (** [step5_refresh_button] enabled *)
  w_recreate : recreation_view;                 (** [step7_log_display] and [step7_progress_bar] *)
  w_recreate_format : string;                   (** [step7_progress_bar] format text *)
  w_terminal : terminal;                        (** the step-4 terminal *)
  w_jobs : list job;                            (** threads started whose finished signal is due *)
  w_dialogs : list string;                      (** message boxes shown, in order *)
  w_opened : list (list string);                (** processes started by [subprocess.Popen], not tracked *)
  w_summary : string;                           (** [step8_summary_label] *)
  w_output_display : string;                    (** [step8_output_path_display] *)
  w_quit : bool                                 (** [QApplication.quit()] was called *)
}.

Definition set_nav (x : nav) (w : wizard) : wizard :=
  Wizard x (w_working_folder w) (w_iso_file w) (w_iso_info w) (w_output_iso w) (w_preseed w)
    (w_boot_logo w) (w_compression w) (w_delete_checked w) (w_fs w) (w_extracted w) (w_extract_bar
    w) (w_extract_format w) (w_removal w) (w_filter w) (w_removal_log w) (w_confirm_shown w)
    (w_refresh_enabled w) (w_recreate w) (w_recreate_format w) (w_terminal w) (w_jobs w) (w_dialogs
    w) (w_opened w) (w_summary w) (w_output_display w) (w_quit w).

Definition set_working_folder (x : string) (w : wizard) : wizard :=
  Wizard (w_nav w) x (w_iso_file w) (w_iso_info w) (w_output_iso w) (w_preseed w) (w_boot_logo w)
    (w_compression w) (w_delete_checked w) (w_fs w) (w_extracted w) (w_extract_bar w)
    (w_extract_format w) (w_removal w) (w_filter w) (w_removal_log w) (w_confirm_shown w)
    (w_refresh_enabled w) (w_recreate w) (w_recreate_format w) (w_terminal w) (w_jobs w) (w_dialogs
    w) (w_opened w) (w_summary w) (w_output_display w) (w_quit w).

Definition set_iso_file (x : string) (w : wizard) : wizard :=
  Wizard (w_nav w) (w_working_folder w) x (w_iso_info w) (w_output_iso w) (w_preseed w)
    (w_boot_logo w) (w_compression w) (w_delete_checked w) (w_fs w) (w_extracted w) (w_extract_bar
    w) (w_extract_format w) (w_removal w) (w_filter w) (w_removal_log w) (w_confirm_shown w)
    (w_refresh_enabled w) (w_recreate w) (w_recreate_format w) (w_terminal w) (w_jobs w) (w_dialogs
    w) (w_opened w) (w_summary w) (w_output_display w) (w_quit w).

Definition set_iso_info (x : iso_info) (w : wizard) : wizard :=
  Wizard (w_nav w) (w_working_folder w) (w_iso_file w) x (w_output_iso w) (w_preseed w)
    (w_boot_logo w) (w_compression w) (w_delete_checked w) (w_fs w) (w_extracted w) (w_extract_bar
    w) (w_extract_format w) (w_removal w) (w_filter w) (w_removal_log w) (w_confirm_shown w)
    (w_refresh_enabled w) (w_recreate w) (w_recreate_format w) (w_terminal w) (w_jobs w) (w_dialogs
    w) (w_opened w) (w_summary w) (w_output_display w) (w_quit w).

Definition set_output_iso (x : elided_label) (w : wizard) : wizard :=
  Wizard (w_nav w) (w_working_folder w) (w_iso_file w) (w_iso_info w) x (w_preseed w) (w_boot_logo
    w) (w_compression w) (w_delete_checked w) (w_fs w) (w_extracted w) (w_extract_bar w)
    (w_extract_format w) (w_removal w) (w_filter w) (w_removal_log w) (w_confirm_shown w)
    (w_refresh_enabled w) (w_recreate w) (w_recreate_format w) (w_terminal w) (w_jobs w) (w_dialogs
    w) (w_opened w) (w_summary w) (w_output_display w) (w_quit w).

Definition set_preseed (x : string) (w : wizard) : wizard :=
  Wizard (w_nav w) (w_working_folder w) (w_iso_file w) (w_iso_info w) (w_output_iso w) x
    (w_boot_logo w) (w_compression w) (w_delete_checked w) (w_fs w) (w_extracted w) (w_extract_bar
    w) (w_extract_format w) (w_removal w) (w_filter w) (w_removal_log w) (w_confirm_shown w)
    (w_refresh_enabled w) (w_recreate w) (w_recreate_format w) (w_terminal w) (w_jobs w) (w_dialogs
    w) (w_opened w) (w_summary w) (w_output_display w) (w_quit w).

Definition set_boot_logo (x : string) (w : wizard) : wizard :=
  Wizard (w_nav w) (w_working_folder w) (w_iso_file w) (w_iso_info w) (w_output_iso w) (w_preseed
    w) x (w_compression w) (w_delete_checked w) (w_fs w) (w_extracted w) (w_extract_bar w)
    (w_extract_format w) (w_removal w) (w_filter w) (w_removal_log w) (w_confirm_shown w)
    (w_refresh_enabled w) (w_recreate w) (w_recreate_format w) (w_terminal w) (w_jobs w) (w_dialogs
    w) (w_opened w) (w_summary w) (w_output_display w) (w_quit w).

Definition set_compression (x : option compression_options) (w : wizard) : wizard :=
  Wizard (w_nav w) (w_working_folder w) (w_iso_file w) (w_iso_info w) (w_output_iso w) (w_preseed
    w) (w_boot_logo w) x (w_delete_checked w) (w_fs w) (w_extracted w) (w_extract_bar w)
    (w_extract_format w) (w_removal w) (w_filter w) (w_removal_log w) (w_confirm_shown w)
    (w_refresh_enabled w) (w_recreate w) (w_recreate_format w) (w_terminal w) (w_jobs w) (w_dialogs
    w) (w_opened w) (w_summary w) (w_output_display w) (w_quit w).

Definition set_delete_checked (x : bool) (w : wizard) : wizard :=
  Wizard (w_nav w) (w_working_folder w) (w_iso_file w) (w_iso_info w) (w_output_iso w) (w_preseed
    w) (w_boot_logo w) (w_compression w) x (w_fs w) (w_extracted w) (w_extract_bar w)
    (w_extract_format w) (w_removal w) (w_filter w) (w_removal_log w) (w_confirm_shown w)
    (w_refresh_enabled w) (w_recreate w) (w_recreate_format w) (w_terminal w) (w_jobs w) (w_dialogs
    w) (w_opened w) (w_summary w) (w_output_display w) (w_quit w).

Definition set_fs (x : fsys) (w : wizard) : wizard :=
  Wizard (w_nav w) (w_working_folder w) (w_iso_file w) (w_iso_info w) (w_output_iso w) (w_preseed
    w) (w_boot_logo w) (w_compression w) (w_delete_checked w) x (w_extracted w) (w_extract_bar w)
    (w_extract_format w) (w_removal w) (w_filter w) (w_removal_log w) (w_confirm_shown w)
    (w_refresh_enabled w) (w_recreate w) (w_recreate_format w) (w_terminal w) (w_jobs w) (w_dialogs
    w) (w_opened w) (w_summary w) (w_output_display w) (w_quit w).

Definition set_extracted (x : string) (w : wizard) : wizard :=
  Wizard (w_nav w) (w_working_folder w) (w_iso_file w) (w_iso_info w) (w_output_iso w) (w_preseed
    w) (w_boot_logo w) (w_compression w) (w_delete_checked w) (w_fs w) x (w_extract_bar w)
    (w_extract_format w) (w_removal w) (w_filter w) (w_removal_log w) (w_confirm_shown w)
    (w_refresh_enabled w) (w_recreate w) (w_recreate_format w) (w_terminal w) (w_jobs w) (w_dialogs
    w) (w_opened w) (w_summary w) (w_output_display w) (w_quit w).

Definition set_extract_bar (x : progress_bar) (w : wizard) : wizard :=
  Wizard (w_nav w) (w_working_folder w) (w_iso_file w) (w_iso_info w) (w_output_iso w) (w_preseed
    w) (w_boot_logo w) (w_compression w) (w_delete_checked w) (w_fs w) (w_extracted w) x
    (w_extract_format w) (w_removal w) (w_filter w) (w_removal_log w) (w_confirm_shown w)
    (w_refresh_enabled w) (w_recreate w) (w_recreate_format w) (w_terminal w) (w_jobs w) (w_dialogs
    w) (w_opened w) (w_summary w) (w_output_display w) (w_quit w).

Definition set_extract_format (x : string) (w : wizard) : wizard :=
  Wizard (w_nav w) (w_working_folder w) (w_iso_file w) (w_iso_info w) (w_output_iso w) (w_preseed
    w) (w_boot_logo w) (w_compression w) (w_delete_checked w) (w_fs w) (w_extracted w)
    (w_extract_bar w) x (w_removal w) (w_filter w) (w_removal_log w) (w_confirm_shown w)
    (w_refresh_enabled w) (w_recreate w) (w_recreate_format w) (w_terminal w) (w_jobs w) (w_dialogs
    w) (w_opened w) (w_summary w) (w_output_display w) (w_quit w).

Definition set_removal (x : removal_state) (w : wizard) : wizard :=
  Wizard (w_nav w) (w_working_folder w) (w_iso_file w) (w_iso_info w) (w_output_iso w) (w_preseed
    w) (w_boot_logo w) (w_compression w) (w_delete_checked w) (w_fs w) (w_extracted w)
    (w_extract_bar w) (w_extract_format w) x (w_filter w) (w_removal_log w) (w_confirm_shown w)
    (w_refresh_enabled w) (w_recreate w) (w_recreate_format w) (w_terminal w) (w_jobs w) (w_dialogs
    w) (w_opened w) (w_summary w) (w_output_display w) (w_quit w).

Definition set_filter (x : string) (w : wizard) : wizard :=
  Wizard (w_nav w) (w_working_folder w) (w_iso_file w) (w_iso_info w) (w_output_iso w) (w_preseed
    w) (w_boot_logo w) (w_compression w) (w_delete_checked w) (w_fs w) (w_extracted w)
    (w_extract_bar w) (w_extract_format w) (w_removal w) x (w_removal_log w) (w_confirm_shown w)
    (w_refresh_enabled w) (w_recreate w) (w_recreate_format w) (w_terminal w) (w_jobs w) (w_dialogs
    w) (w_opened w) (w_summary w) (w_output_display w) (w_quit w).

Definition set_removal_log (x : string) (w : wizard) : wizard :=
  Wizard (w_nav w) (w_working_folder w) (w_iso_file w) (w_iso_info w) (w_output_iso w) (w_preseed
    w) (w_boot_logo w) (w_compression w) (w_delete_checked w) (w_fs w) (w_extracted w)
    (w_extract_bar w) (w_extract_format w) (w_removal w) (w_filter w) x (w_confirm_shown w)
    (w_refresh_enabled w) (w_recreate w) (w_recreate_format w) (w_terminal w) (w_jobs w) (w_dialogs
    w) (w_opened w) (w_summary w) (w_output_display w) (w_quit w).

Definition set_confirm_shown (x : bool) (w : wizard) : wizard :=
  Wizard (w_nav w) (w_working_folder w) (w_iso_file w) (w_iso_info w) (w_output_iso w) (w_preseed
    w) (w_boot_logo w) (w_compression w) (w_delete_checked w) (w_fs w) (w_extracted w)
    (w_extract_bar w) (w_extract_format w) (w_removal w) (w_filter w) (w_removal_log w) x
    (w_refresh_enabled w) (w_recreate w) (w_recreate_format w) (w_terminal w) (w_jobs w) (w_dialogs
    w) (w_opened w) (w_summary w) (w_output_display w) (w_quit w).

Definition set_refresh_enabled (x : bool) (w : wizard) : wizard :=
  Wizard (w_nav w) (w_working_folder w) (w_iso_file w) (w_iso_info w) (w_output_iso w) (w_preseed
    w) (w_boot_logo w) (w_compression w) (w_delete_checked w) (w_fs w) (w_extracted w)
    (w_extract_bar w) (w_extract_format w) (w_removal w) (w_filter w) (w_removal_log w)
    (w_confirm_shown w) x (w_recreate w) (w_recreate_format w) (w_terminal w) (w_jobs w) (w_dialogs
    w) (w_opened w) (w_summary w) (w_output_display w) (w_quit w).

Definition set_recreate (x : recreation_view) (w : wizard) : wizard :=
  Wizard (w_nav w) (w_working_folder w) (w_iso_file w) (w_iso_info w) (w_output_iso w) (w_preseed
    w) (w_boot_logo w) (w_compression w) (w_delete_checked w) (w_fs w) (w_extracted w)
    (w_extract_bar w) (w_extract_format w) (w_removal w) (w_filter w) (w_removal_log w)
    (w_confirm_shown w) (w_refresh_enabled w) x (w_recreate_format w) (w_terminal w) (w_jobs w)
    (w_dialogs w) (w_opened w) (w_summary w) (w_output_display w) (w_quit w).

Definition set_recreate_format (x : string) (w : wizard) : wizard :=
  Wizard (w_nav w) (w_working_folder w) (w_iso_file w) (w_iso_info w) (w_output_iso w) (w_preseed
    w) (w_boot_logo w) (w_compression w) (w_delete_checked w) (w_fs w) (w_extracted w)
    (w_extract_bar w) (w_extract_format w) (w_removal w) (w_filter w) (w_removal_log w)
    (w_confirm_shown w) (w_refresh_enabled w) (w_recreate w) x (w_terminal w) (w_jobs w) (w_dialogs
    w) (w_opened w) (w_summary w) (w_output_display w) (w_quit w).

Definition set_terminal (x : terminal) (w : wizard) : wizard :=
  Wizard (w_nav w) (w_working_folder w) (w_iso_file w) (w_iso_info w) (w_output_iso w) (w_preseed
    w) (w_boot_logo w) (w_compression w) (w_delete_checked w) (w_fs w) (w_extracted w)
    (w_extract_bar w) (w_extract_format w) (w_removal w) (w_filter w) (w_removal_log w)
    (w_confirm_shown w) (w_refresh_enabled w) (w_recreate w) (w_recreate_format w) x (w_jobs w)
    (w_dialogs w) (w_opened w) (w_summary w) (w_output_display w) (w_quit w).

Definition set_jobs (x : list job) (w : wizard) : wizard :=
  Wizard (w_nav w) (w_working_folder w) (w_iso_file w) (w_iso_info w) (w_output_iso w) (w_preseed
    w) (w_boot_logo w) (w_compression w) (w_delete_checked w) (w_fs w) (w_extracted w)
    (w_extract_bar w) (w_extract_format w) (w_removal w) (w_filter w) (w_removal_log w)
    (w_confirm_shown w) (w_refresh_enabled w) (w_recreate w) (w_recreate_format w) (w_terminal w) x
    (w_dialogs w) (w_opened w) (w_summary w) (w_output_display w) (w_quit w).

Definition set_dialogs (x : list string) (w : wizard) : wizard :=
  Wizard (w_nav w) (w_working_folder w) (w_iso_file w) (w_iso_info w) (w_output_iso w) (w_preseed
    w) (w_boot_logo w) (w_compression w) (w_delete_checked w) (w_fs w) (w_extracted w)
    (w_extract_bar w) (w_extract_format w) (w_removal w) (w_filter w) (w_removal_log w)
    (w_confirm_shown w) (w_refresh_enabled w) (w_recreate w) (w_recreate_format w) (w_terminal w)
    (w_jobs w) x (w_opened w) (w_summary w) (w_output_display w) (w_quit w).

Definition set_opened (x : list (list string)) (w : wizard) : wizard :=
  Wizard (w_nav w) (w_working_folder w) (w_iso_file w) (w_iso_info w) (w_output_iso w) (w_preseed
    w) (w_boot_logo w) (w_compression w) (w_delete_checked w) (w_fs w) (w_extracted w)
    (w_extract_bar w) (w_extract_format w) (w_removal w) (w_filter w) (w_removal_log w)
    (w_confirm_shown w) (w_refresh_enabled w) (w_recreate w) (w_recreate_format w) (w_terminal w)
    (w_jobs w) (w_dialogs w) x (w_summary w) (w_output_display w) (w_quit w).

Definition set_summary (x : string) (w : wizard) : wizard :=
  Wizard (w_nav w) (w_working_folder w) (w_iso_file w) (w_iso_info w) (w_output_iso w) (w_preseed
    w) (w_boot_logo w) (w_compression w) (w_delete_checked w) (w_fs w) (w_extracted w)
    (w_extract_bar w) (w_extract_format w) (w_removal w) (w_filter w) (w_removal_log w)
    (w_confirm_shown w) (w_refresh_enabled w) (w_recreate w) (w_recreate_format w) (w_terminal w)
    (w_jobs w) (w_dialogs w) (w_opened w) x (w_output_display w) (w_quit w).

Definition set_output_display (x : string) (w : wizard) : wizard :=
  Wizard (w_nav w) (w_working_folder w) (w_iso_file w) (w_iso_info w) (w_output_iso w) (w_preseed
    w) (w_boot_logo w) (w_compression w) (w_delete_checked w) (w_fs w) (w_extracted w)
    (w_extract_bar w) (w_extract_format w) (w_removal w) (w_filter w) (w_removal_log w)
    (w_confirm_shown w) (w_refresh_enabled w) (w_recreate w) (w_recreate_format w) (w_terminal w)
    (w_jobs w) (w_dialogs w) (w_opened w) (w_summary w) x (w_quit w).

Definition set_quit (x : bool) (w : wizard) : wizard :=
  Wizard (w_nav w) (w_working_folder w) (w_iso_file w) (w_iso_info w) (w_output_iso w) (w_preseed
    w) (w_boot_logo w) (w_compression w) (w_delete_checked w) (w_fs w) (w_extracted w)
    (w_extract_bar w) (w_extract_format w) (w_removal w) (w_filter w) (w_removal_log w)
    (w_confirm_shown w) (w_refresh_enabled w) (w_recreate w) (w_recreate_format w) (w_terminal w)
    (w_jobs w) (w_dialogs w) (w_opened w) (w_summary w) (w_output_display w) x.

(** ** Helpers *)

Definition add_dialog (message : string) (w : wizard) : wizard := set_dialogs (w_dialogs w ++ [message])%list w.

Definition start_job (j : job) (w : wizard) : wizard := set_jobs (w_jobs w ++ [j])%list w.

Definition finish_job (j : job) (w : wizard) : wizard := set_jobs (remove_one j (w_jobs w)) w.

Definition on_nav (f : nav -> nav) (w : wizard) : wizard := set_nav (f (w_nav w)) w.

Definition on_terminal (f : terminal -> terminal) (w : wizard) : wizard := set_terminal (f (w_terminal w)) w.

Definition step_of (w : wizard) : nat := n_step (w_nav w).

(** [step5_package_model._package_data = rows]. *)
Definition rs_set_rows (rows : list package) (st : removal_state) : removal_state :=
  RemovalState rows (rs_queue st) (rs_index st) (rs_total st) (rs_bar st) (rs_extracted st)
    (rs_started st) (rs_running st) (rs_errors st) (rs_finished st).

(** Run an operation of the removal loop, recording the threads it starts. *)
Definition sync_removal (rs' : removal_state) (w : wizard) : wizard :=
  let started := drop (length (rs_started (w_removal w))) (rs_started rs') in
  set_removal rs' (set_jobs (w_jobs w ++ (JRemove <$> started))%list w).

(** The removal loop takes [extracted_iso_path] when it starts a purge. *)
Definition removal_with_path (w : wizard) : removal_state :=
  let st := w_removal w in
  RemovalState (rs_rows st) (rs_queue st) (rs_index st) (rs_total st) (rs_bar st) (w_extracted w)
    (rs_started st) (rs_running st) (rs_errors st) (rs_finished st).

(** ** Handlers *)

(** [_extract_iso()]. *)
Definition extract_iso (w : wizard) : wizard :=
  let extracted := extracted_path (w_working_folder w) in
  let r := Runner (CmdList (extract_command (w_iso_file w) extracted)) None None false in
  start_job (JExtract r)
    (set_extract_format "%p% - Extracting..."
       (set_extract_bar (pb_setValue 0 (w_extract_bar w))
          (set_fs (fs_makedirs (w_fs w) extracted) (set_extracted extracted w)))).

(** [_extraction_finished(return_code)], for the thread [r]. *)
Definition extraction_finished (r : runner) (rc : Z) (w : wizard) : wizard :=
  let w := finish_job (JExtract r) w in
  if (rc =? 0)%Z then
    on_nav (nav_enable true true)
      (set_extract_format "%p% - Extraction Complete" (set_extract_bar (pb_setValue 100 (w_extract_bar w)) w))
  else
    on_nav (fun v => nav_enable (n_next_enabled v) true v)
      (add_dialog "ISO extraction failed." (set_extract_format "Extraction Failed" w)).

(** [refresh_package_list()] and [_populate_package_list()]. *)
Definition refresh_package_list (w : wizard) : wizard :=
  let r := Runner (CmdList ["apt"; "list"; "--installed"]) None (Some (w_extracted w)) false in
  start_job (JListing r)
    (on_terminal (append_to_terminal (nl ++ "Fetching installed package list..." ++ nl))
       (set_removal (rs_set_rows [] (rs_set_rows (clear_package_statuses (rs_rows (w_removal w))) (w_removal w)))
          (set_refresh_enabled false w))).

(** [_process_package_list_output(output_text)]. *)
Definition package_list_output (text : string) (w : wizard) : py wizard :=
  let? rows := process_package_list_output text (rs_rows (w_removal w)) in
  py_ret (set_removal (rs_set_rows rows (w_removal w)) w).

(** [_package_list_fetch_finished(return_code)], for the thread [r]. *)
Definition package_list_fetch_finished (r : runner) (w : wizard) : wizard :=
  set_refresh_enabled true
    (on_terminal (append_to_terminal (nl ++ "Package list fetched." ++ nl)) (finish_job (JListing r) w)).

(** The part of [_package_removal_finished] outside the loop. *)
Definition package_removal_finished_ui (w : wizard) : wizard :=
  on_nav (nav_enable true true)
    (set_removal_log (w_removal_log w ++ nl ++ "Package removal process finished." ++ nl)
       (on_terminal (append_to_terminal (nl ++ "Package removal process finished." ++ nl))
          (set_confirm_shown false w))).

(** [_execute_package_removal(packages)] from [go_to_step(6)]. *)
Definition start_package_removal (pkgs : list string) (w : wizard) : wizard :=
  let rs' := execute_package_removal pkgs (removal_with_path w) in
  let w1 := sync_removal rs' w in
  if rs_running rs' then w1 else package_removal_finished_ui w1.

(** [_handle_single_package_removal(return_code)] of the thread [r]. *)
Definition removal_finished_signal (r : runner) (rc : Z) (w : wizard) : py wizard :=
  let w := finish_job (JRemove r) w in
  let? rs' := handle_single_package_removal rc (removal_with_path w) in
  let w1 := sync_removal rs' w in
  py_ret (if rs_running rs' then w1 else package_removal_finished_ui w1).

(** The effects of entering a step (the body of [go_to_step] after the
    validation). *)
Definition enter_step (n : nat) (w : wizard) : wizard :=
  match n with
  | 1 | 2 => on_nav (nav_show true false) w
  | 3 => extract_iso (on_nav (fun v => nav_enable false false (nav_show true true v)) w)
  | 4 =>
      on_nav (nav_show true true)
        (on_terminal terminal_enter w)
  | 5 =>
      let w1 := on_nav (nav_show true true) w in
      if decide (rs_rows (w_removal w1) = []) then refresh_package_list w1 else w1
  | 6 =>
      let w1 := on_nav (fun v => nav_enable false false (nav_show true true v)) (set_confirm_shown true w) in
      let packages_to_remove := get_checked_packages (rs_rows (w_removal w1)) in
      if decide (packages_to_remove = []) then
        on_nav (nav_enable true true) (set_removal_log "No packages selected for removal." w1)
      else
        start_package_removal packages_to_remove
          (set_removal_log ("Packages to be removed:" ++ nl ++ join nl packages_to_remove) w1)
  | 7 => on_nav (nav_show true true) w
  | 8 =>
      set_output_display ("ISO file saved to: " ++ el_text (w_output_iso w))
        (set_summary "Custom ISO creation completed successfully!"
           (on_nav (fun v => nav_show (n_next_shown v) false (nav_text "Finish" v)) w))
  | _ => w
  end.

(** [go_to_step(step_number)]. *)
Definition go_to_step (n : nat) (w : wizard) : wizard :=
  let step := step_of w in
  if (step <? n)%nat && (step =? 2)%nat && (n =? 3)%nat
     && (String.eqb (w_working_folder w) "" || String.eqb (w_iso_file w) "") then
    add_dialog "Please select working folder and ISO file." w
  else if (step <? n)%nat && (step =? 5)%nat && (n =? 6)%nat
          && bool_decide (get_checked_packages (rs_rows (w_removal w)) = []) then
    add_dialog "No packages selected for removal." w
  else on_nav (nav_goto n) (enter_step n w).

(** [_start_iso_recreation()]. *)
Definition start_iso_recreation (w : wizard) : wizard :=
  let output_iso_file := el_text (w_output_iso w) in
  if String.eqb output_iso_file "" then add_dialog "Please specify output ISO path." w
  else
    let w1 := set_compression (Some (effective_compression (w_compression w))) w in
    let w2 := on_nav (nav_enable false false)
                (set_recreate (RecreationView "" (pb_setValue 0 (rv_bar (w_recreate w1)))) w1) in
    let cmd := recreation_command (w_fs w2) output_iso_file (w_preseed w2) (w_extracted w2) in
    let '(fs', warnings) := install_boot_logo (w_fs w2) (w_boot_logo w2) (w_extracted w2) in
    let w3 := set_dialogs (w_dialogs w2 ++ warnings)%list (set_fs fs' w2) in
    start_job (JRecreate (Runner (CmdList cmd) (Some (w_working_folder w3)) None false)) w3.

(** [_process_iso_recreation_output(output_text)]. *)
Definition iso_recreation_output (text : string) (w : wizard) : py wizard :=
  let? v := process_iso_recreation_output text (w_recreate w) in py_ret (set_recreate v w).

(** [_process_extraction_output(output_text)]. *)
Definition extraction_output (text : string) (w : wizard) : py wizard :=
  let? bar := process_extraction_output text (w_extract_bar w) in py_ret (set_extract_bar bar w).

(** [_iso_recreation_finished(return_code)], for the thread [r]. *)
Definition iso_recreation_finished (r : runner) (rc : Z) (w : wizard) : wizard :=
  let w1 := on_nav (nav_enable true true) (finish_job (JRecreate r) w) in
  let w2 :=
    if (rc =? 0)%Z then set_recreate (RecreationView (rv_log (w_recreate w1)) (pb_setValue 100 (rv_bar (w_recreate w1)))) w1
    else add_dialog ("ISO re-creation failed with return code " ++ str_int rc ++ ".")
           (set_recreate_format "ISO Creation Failed" w1) in
  go_to_step 8 w2.

(** [shutil.rmtree(d)]. *)
Definition fs_rmtree (fs : fsys) (d : string) : fsys :=
  FS (filter (fun p => negb (String.eqb p d || startswith (d ++ "/") p) = true) (fs_dirs fs))
     (filter (fun kv => negb (startswith (d ++ "/") kv.1) = true) (fs_files fs)).

(** [delete_temp_files()]. *)
Definition delete_temp_files (w : wizard) : wizard :=
  if negb (String.eqb (w_extracted w) "") && fs_exists (w_fs w) (w_extracted w)
  then set_fs (fs_rmtree (w_fs w) (w_extracted w)) w
  else w.

(** [go_to_next_step()]. *)
Definition go_to_next_step (w : wizard) : wizard :=
  match step_of w with
  | 1 =>
      if String.eqb (w_working_folder w) "" || String.eqb (w_iso_file w) ""
      then add_dialog "Please select working folder and ISO file." w
      else go_to_step 2 w
  | 2 => go_to_step 3 w
  | 3 => go_to_step 4 w
  | 4 => go_to_step 5 w
  | 5 => go_to_step 6 w
  | 6 => go_to_step 7 w
  | 7 => start_iso_recreation w
  | 8 => set_quit true (if w_delete_checked w then delete_temp_files w else w)
  | _ => w
  end.

(** [go_to_previous_step()]. *)
Definition go_to_previous_step (w : wizard) : wizard :=
  if (1 <? step_of w)%nat then go_to_step (step_of w - 1) w else w.

(** [_populate_iso_info] called by [browse_iso_file], on the result of
    its xorriso run; the path is not empty there. *)
Definition populate_iso_info_ui (r : run_result) (w : wizard) : wizard :=
  match iso_info_of_run (w_iso_file w) r with
  | InfoSet i => set_iso_info i w
  | InfoDialog message => add_dialog message w
  | InfoUnchanged => w
  end.

(** ** The slots of the buttons and fields *)

(** [browse_working_folder()]; [folder_path] is what the folder dialog
    returns ([""] when cancelled). *)
Definition browse_working_folder (folder_path : string) (w : wizard) : wizard :=
  if String.eqb folder_path "" then w else set_working_folder folder_path w.

(** [browse_iso_file()]; [info_run] is what [subprocess.run] of xorriso
    gives [_populate_iso_info]. *)
Definition browse_iso_file (file_path : string) (info_run : run_result) (w : wizard) : wizard :=
  if String.eqb file_path "" then w
  else if fs_exists (w_fs w) file_path then populate_iso_info_ui info_run (set_iso_file file_path w)
  else add_dialog "Selected ISO file does not exist." w.

(** [browse_output_iso_location()]: the dialog is offered
    [default_output_path]; the chosen path gets its [.iso] suffix and is
    written to the elided label, [elide] being the label's font metrics at
    its current width. *)
Definition browse_output_iso_location (file_path : string) (elide : string -> string) (w : wizard) : wizard :=
  if String.eqb file_path "" then w
  else set_output_iso (elided_setText elide (ensure_iso_suffix file_path) (w_output_iso w)) w.

(** [browse_boot_logo()]: the preview is not modelled. *)
Definition browse_boot_logo (file_path : string) (w : wizard) : wizard :=
  if String.eqb file_path "" then w else set_boot_logo file_path w.

(** [show_preseed_dialog()]: a fresh dialog runs the user's [inputs]; on
    OK the preseed file is the text of its line edit, possibly empty. *)
Definition show_preseed_dialog (inputs : list preseed_input) (result : dialog_result) (w : wizard)
    : wizard :=
  let dialog := run_preseed_dialog inputs in
  if exec_accepted result then set_preseed (get_preseed_file_path dialog) w else w.

(** [show_advanced_compression_dialog()]: the dialog's constructor raises
    out of the slot when [os.cpu_count()] is [None]; on OK the options are
    [get_compression_options()]. *)
Definition show_advanced_compression_dialog (cpu_count : option Z) (inputs : list compression_input)
    (result : dialog_result) (w : wizard) : py wizard :=
  let? dialog := run_compression_dialog cpu_count inputs in
  py_ret (if exec_accepted result then set_compression (Some (get_compression_options_of dialog)) w
          else w).

(** [show_kernel_selection()] on the result of its listing command and the
    user's inputs to the dialog: a selected kernel is only printed; an
    exception of [get_selected_kernel] is caught by [except Exception]. *)
Definition show_kernel_selection_ui (listing_run : run_result) (inputs : list kernel_input)
    (result : dialog_result) (w : wizard) : wizard :=
  match (if kernel_guard (w_fs w) (w_extracted w) then KernelNotExtracted
         else kernel_outcome_of_run listing_run) with
  | KernelNotExtracted => add_dialog "ISO must be extracted before selecting a kernel." w
  | KernelNoneFound => add_dialog "No alternative kernels found." w
  | KernelDialog kernels =>
      let dialog := run_kernel_dialog kernels inputs in
      if exec_accepted result then
        match get_selected_kernel dialog with
        | inl _ => add_dialog "An unexpected error occurred" w
        | inr _ => w
        end
      else w
  | KernelError message => add_dialog message w
  end.

(** [_filter_package_list(filter_text)]. *)
Definition filter_package_list (filter_text : string) (w : wizard) : wizard :=
  set_filter (setFilterText filter_text) w.

(** A click in the check column of row [row] of the step-5 view: the
    proxy maps it to its source row and [setData] sets the flag. *)
Definition toggle_package_row (row : nat) (checked : bool) (w : wizard) : wizard :=
  match mapToSource (w_filter w) (rs_rows (w_removal w)) row with
  | Some src =>
      set_removal (rs_set_rows (setData (rs_rows (w_removal w)) src 0 checked CheckStateRole).1
                     (w_removal w)) w
  | None => w
  end.

(** [confirm_package_removal()]. *)
Definition confirm_package_removal (w : wizard) : wizard := go_to_step 6 w.

(** [_process_package_removal_output(output_text)]. *)
Definition process_package_removal_output (text : string) (w : wizard) : wizard :=
  set_removal_log (w_removal_log w ++ text) w.

(** [_open_output_folder()] on Linux: [xdg-open] on the directory of
    [output_iso_path.text()]. *)
Definition open_output_folder (w : wizard) : wizard :=
  let output_dir := dirname (el_text (w_output_iso w)) in
  if fs_exists (w_fs w) output_dir then set_opened (w_opened w ++ [["xdg-open"; output_dir]])%list w
  else add_dialog "Output folder does not exist." w.

(** ** Events *)

Inductive event : Type :=
  | EvWorkingFolder (folder_path : string)
  | EvIsoFile (file_path : string) (info_run : run_result)
  | EvBootLogo (file_path : string)
  | EvOutputIso (file_path : string) (elide : string -> string)
  | EvPreseed (inputs : list preseed_input) (result : dialog_result)
  | EvCompression (cpu_count : option Z) (inputs : list compression_input) (result : dialog_result)
  | EvKernel (listing_run : run_result) (inputs : list kernel_input) (result : dialog_result)
  | EvFilter (filter_text : string)
  | EvToggleRow (row : nat) (checked : bool)
  | EvDeleteChecked (checked : bool)           (** [step8_delete_temp_checkbox] *)
  | EvOpenFolder
  | EvNext | EvBack | EvConfirm | EvRefresh
  | EvTerminalKey (k : key) | EvTerminalStop
  | EvTerminalOutput (r : runner) (text : string)
  | EvTerminalFinished (r : runner)
  | EvOutput (j : job) (text : string)
  | EvFinished (j : job) (rc : Z).

(** The slot an event runs. *)
Definition wizard_event (e : event) (w : wizard) : py wizard :=
  match e with
  | EvWorkingFolder p => py_ret (browse_working_folder p w)
  | EvIsoFile p r => py_ret (browse_iso_file p r w)
  | EvBootLogo p => py_ret (browse_boot_logo p w)
  | EvOutputIso p elide => py_ret (browse_output_iso_location p elide w)
  | EvPreseed ins res => py_ret (show_preseed_dialog ins res w)
  | EvCompression cpu ins res => show_advanced_compression_dialog cpu ins res w
  | EvKernel r ins res => py_ret (show_kernel_selection_ui r ins res w)
  | EvFilter text => py_ret (filter_package_list text w)
  | EvToggleRow i b => py_ret (toggle_package_row i b w)
  | EvDeleteChecked b => py_ret (set_delete_checked b w)
  | EvOpenFolder => py_ret (open_output_folder w)
  | EvNext => py_ret (go_to_next_step w)
  | EvBack => py_ret (go_to_previous_step w)
  | EvConfirm => py_ret (confirm_package_removal w)
  | EvRefresh => py_ret (refresh_package_list w)
  | EvTerminalKey k =>
      let? tg := terminal_key (w_extracted w) k (w_terminal w) in
      let w1 := set_terminal tg.1 w in
      py_ret (if tg.2 then go_to_step 5 w1 else w1)
  | EvTerminalStop => py_ret (on_terminal stop_terminal_command w)
  | EvTerminalOutput _ text => py_ret (on_terminal (append_to_terminal text) w)
  | EvTerminalFinished r => py_ret (on_terminal (command_execution_finished r) w)
  | EvOutput (JExtract _) text => extraction_output text w
  | EvOutput (JListing _) text => package_list_output text w
  | EvOutput (JRemove _) text => py_ret (process_package_removal_output text w)
  | EvOutput (JRecreate _) text => iso_recreation_output text w
  | EvFinished (JExtract r) rc => py_ret (extraction_finished r rc w)
  | EvFinished (JListing r) _ => py_ret (package_list_fetch_finished r w)
  | EvFinished (JRemove r) rc => removal_finished_signal r rc w
  | EvFinished (JRecreate r) rc => py_ret (iso_recreation_finished r rc w)
  end.

(** The group boxes of the main layout ([_init_ui], 226-233). *)
Inductive group_box : Type := Step1Group | IsoInfoGroup | StepGroup (n : nat).

(** The group box whose layout [_init_ui] puts the event's widget in
    (121-219); the navigation buttons and the threads' signals are in
    none. *)
Definition event_group (e : event) : option group_box :=
  match e with
  | EvWorkingFolder _ => Some Step1Group
  | EvIsoFile _ _ | EvBootLogo _ => Some IsoInfoGroup
  | EvTerminalKey _ | EvTerminalStop => Some (StepGroup 4)
  | EvFilter _ | EvToggleRow _ _ | EvRefresh => Some (StepGroup 5)
  | EvConfirm => Some (StepGroup 6)
  | EvOutputIso _ _ | EvPreseed _ _ | EvCompression _ _ _ | EvKernel _ _ _ => Some (StepGroup 7)
  | EvDeleteChecked _ | EvOpenFolder => Some (StepGroup 8)
  | _ => None
  end.

(** [_init_step_visibility] and [go_to_step] hide the groups of steps 3
    to 8 and show the current step's; the first two are never hidden. *)
Definition group_shown (g : group_box) (w : wizard) : bool :=
  match g with
  | Step1Group | IsoInfoGroup => true
  | StepGroup n => (step_of w =? n)%nat
  end.

(** The widget's own state: shown and enabled, a row of the table, or
    its thread still running. *)
Definition widget_enabled (e : event) (w : wizard) : bool :=
  let v := w_nav w in
  match e with
  | EvToggleRow i _ => (i <? length (proxy_rows (w_filter w) (rs_rows (w_removal w))))%nat
  | EvRefresh => w_refresh_enabled w
  | EvConfirm => w_confirm_shown w
  | EvTerminalStop => t_stop_visible (w_terminal w)
  | EvNext => n_next_shown v && n_next_enabled v
  | EvBack => n_back_shown v && n_back_enabled v
  | EvTerminalOutput r _ | EvTerminalFinished r => bool_decide (r ∈ t_pending (w_terminal w))
  | EvOutput j _ | EvFinished j _ => bool_decide (j ∈ w_jobs w)
  | _ => true
  end.

(** When the event can happen: its group is shown and its widget usable. *)
Definition event_enabled (e : event) (w : wizard) : bool :=
  match event_group e with Some g => group_shown g w | None => true end && widget_enabled e w.

(** One event of a running application. *)
Definition wstep (w w' : wizard) : Prop :=
  exists e, event_enabled e w = true /\ wizard_event e w = inr w'.

(** Run events in order; [None] when one is not enabled. *)
Fixpoint run_events (es : list event) (w : wizard) : option (py wizard) :=
  match es with
  | [] => Some (inr w)
  | e :: es' =>
      if event_enabled e w then
        match wizard_event e w with
        | inr w' => run_events es' w'
        | inl exc => Some (inl exc)
        end
      else None
  end.

(** The finished signals of the purges of [pkgs], in order, each with the
    return code the outcome interface gives it. *)
Definition removal_finish_events `{CommandOutcome} (ext : string) (pkgs : list string) : list event :=
  (fun p => EvFinished (JRemove (purge_runner ext p)) (removal_rc ext p)) <$> pkgs.

(** The application after [__init__]. *)
Definition wizard_init (fs : fsys) : wizard := {|
  w_nav := Nav 1 true true true false "Next";
  w_working_folder := ""; w_iso_file := ""; w_iso_info := IsoInfo "" "" "";
  w_output_iso := elided_label_new; w_preseed := ""; w_boot_logo := ""; w_compression := None;
  w_delete_checked := false; w_fs := fs; w_extracted := "";
  w_extract_bar := ProgressBar 0 100 0; w_extract_format := "";
  w_removal := RemovalState [] [] 0 0 (ProgressBar 0 100 0) "" [] false [] false;
  w_filter := ""; w_removal_log := "";
  w_confirm_shown := true; w_refresh_enabled := true;
  w_recreate := RecreationView "" (ProgressBar 0 100 0); w_recreate_format := "";
  w_terminal := terminal_init; w_jobs := []; w_dialogs := []; w_opened := [];
  w_summary := ""; w_output_display := ""; w_quit := false |}.

(** ** Lemmas *)

Lemma run_events_rtc (es : list event) (w w' : wizard) :
  run_events es w = Some (inr w') -> rtc wstep w w'.
Proof.
  revert w. induction es as [|e es IH]; simpl; intros w H; [injection H as <-; constructor |].
  destruct (event_enabled e w) eqn:He; [| discriminate].
  destruct (wizard_event e w) as [exc | w1] eqn:Ee; [discriminate |].
  eapply rtc_l; [exists e; split; eassumption | by apply IH].
Qed.

(** The helpers that leave the current step alone. *)
Ltac wiz_unfold :=
  unfold step_of, on_nav, on_terminal, add_dialog, start_job, finish_job, sync_removal,
    package_removal_finished_ui, start_package_removal, refresh_package_list, extract_iso,
    nav_show, nav_enable, nav_text, nav_goto in *.

Lemma enter_step_step (n : nat) (w : wizard) : step_of (enter_step n w) = step_of w.
Proof.
  destruct n as [|[|[|[|[|[|[|[|[|n]]]]]]]]]; unfold enter_step; wiz_unfold; simpl; try reflexivity;
    case_if_match; reflexivity.
Qed.

Lemma go_to_step_step (n : nat) (w : wizard) :
  step_of (go_to_step n w) = n \/ step_of (go_to_step n w) = step_of w.
Proof.
  unfold go_to_step. case_if_match; [by right | by right |]. left. reflexivity.
Qed.

Lemma start_iso_recreation_step (w : wizard) : step_of (start_iso_recreation w) = step_of w.
Proof. unfold start_iso_recreation. case_if_match; wiz_unfold; simpl; reflexivity. Qed.

Lemma extraction_finished_step (r : runner) (rc : Z) (w : wizard) :
  step_of (extraction_finished r rc w) = step_of w.
Proof. unfold extraction_finished. wiz_unfold. by case_if_match. Qed.

Lemma removal_finished_signal_step (r : runner) (rc : Z) (w w' : wizard) :
  removal_finished_signal r rc w = inr w' -> step_of w' = step_of w.
Proof.
  unfold removal_finished_signal. destruct (handle_single_package_removal _ _); [discriminate |].
  simpl. intros [= <-]. wiz_unfold. by case_if_match.
Qed.

Lemma populate_iso_info_ui_step (r : run_result) (w : wizard) :
  step_of (populate_iso_info_ui r w) = step_of w.
Proof. unfold populate_iso_info_ui. by destruct (iso_info_of_run _ _). Qed.

(** The slots of the fields, dialogs and step-local buttons leave the
    step alone. *)
Ltac slot_step :=
  unfold browse_working_folder, browse_iso_file, browse_output_iso_location, browse_boot_logo,
    show_preseed_dialog, show_advanced_compression_dialog, show_kernel_selection_ui,
    filter_package_list, toggle_package_row, process_package_removal_output, open_output_folder;
  case_if_match; rewrite ?populate_iso_info_ui_step; wiz_unfold; reflexivity.

Lemma browse_working_folder_step (p : string) (w : wizard) :
  step_of (browse_working_folder p w) = step_of w.
Proof. slot_step. Qed.

Lemma browse_iso_file_step (p : string) (r : run_result) (w : wizard) :
  step_of (browse_iso_file p r w) = step_of w.
Proof. slot_step. Qed.

Lemma browse_output_iso_location_step (p : string) (elide : string -> string) (w : wizard) :
  step_of (browse_output_iso_location p elide w) = step_of w.
Proof. slot_step. Qed.

Lemma browse_boot_logo_step (p : string) (w : wizard) : step_of (browse_boot_logo p w) = step_of w.
Proof. slot_step. Qed.

Lemma show_kernel_selection_ui_step (r : run_result) (ins : list kernel_input) (res : dialog_result)
    (w : wizard) :
  step_of (show_kernel_selection_ui r ins res w) = step_of w.
Proof. slot_step. Qed.

Lemma show_preseed_dialog_step (ins : list preseed_input) (res : dialog_result) (w : wizard) :
  step_of (show_preseed_dialog ins res w) = step_of w.
Proof. slot_step. Qed.

Lemma show_advanced_compression_dialog_step (cpu : option Z) (ins : list compression_input)
    (res : dialog_result) (w w' : wizard) :
  show_advanced_compression_dialog cpu ins res w = inr w' -> step_of w' = step_of w.
Proof.
  unfold show_advanced_compression_dialog. destruct (run_compression_dialog _ _); [discriminate |].
  intros [= <-]. by case_if_match.
Qed.

Lemma toggle_package_row_step (i : nat) (b : bool) (w : wizard) :
  step_of (toggle_package_row i b w) = step_of w.
Proof. slot_step. Qed.

Lemma open_output_folder_step (w : wizard) : step_of (open_output_folder w) = step_of w.
Proof. slot_step. Qed.

Lemma delete_temp_files_step (w : wizard) : step_of (delete_temp_files w) = step_of w.
Proof. unfold delete_temp_files. by case_if_match. Qed.

#[export] Hint Rewrite browse_working_folder_step browse_iso_file_step browse_output_iso_location_step
  browse_boot_logo_step show_kernel_selection_ui_step show_preseed_dialog_step toggle_package_row_step open_output_folder_step
  delete_temp_files_step populate_iso_info_ui_step : wiz_step.

(** Every slot leaves the step in [1 .. 8]. *)
Lemma wizard_event_range (e : event) (w w' : wizard) :
  (1 <= step_of w <= 8)%nat -> wizard_event e w = inr w' -> (1 <= step_of w' <= 8)%nat.
Proof.
  intros Hr He.
  destruct e as [p|p ri|p|p el|ins res|cpu ins res|r ins res|txt|i b|b| | | | | |k| |r t|r|[r|r|r|r] t|[r|r|r|r] rc];
    simpl in He; try (injection He as <-); try (autorewrite with wiz_step; exact Hr);
    try (case_if_match; simpl; wiz_unfold; simpl; lia).
  - (* Compression *) rewrite (show_advanced_compression_dialog_step _ _ _ _ _ He). exact Hr.
  - (* Next *)
    unfold go_to_next_step. destruct (step_of w) as [|[|[|[|[|[|[|[|[|n]]]]]]]]] eqn:Es; try lia;
      case_if_match;
      repeat match goal with
      | |- context [go_to_step ?n ?w] => destruct (go_to_step_step n w) as [-> | ->]
      end; rewrite ?start_iso_recreation_step, ?delete_temp_files_step, ?Es; wiz_unfold; simpl; try lia.
    change (n_step (w_nav (delete_temp_files w))) with (step_of (delete_temp_files w)).
    rewrite delete_temp_files_step. unfold step_of. lia.
  - (* Back *)
    unfold go_to_previous_step. case_if_match; [| lia].
    destruct (go_to_step_step (step_of w - 1) w) as [-> | ->]; apply Nat.ltb_lt in Heqb; lia.
  - (* Confirm *) unfold confirm_package_removal. destruct (go_to_step_step 6 w) as [-> | ->]; lia.
  - (* Terminal key *)
    destruct (terminal_key _ _ _) as [exc | [t g]]; [discriminate |]. simpl in He. injection He as <-.
    destruct g; [destruct (go_to_step_step 5 (set_terminal t w)) as [-> | ->] |]; unfold step_of in *; simpl in *; lia.
  - unfold extraction_output in He. destruct (process_extraction_output _ _); [discriminate |].
    injection He as <-. unfold step_of in *. simpl. lia.
  - unfold package_list_output in He. destruct (process_package_list_output _ _); [discriminate |].
    injection He as <-. unfold step_of in *. simpl. lia.
  - unfold iso_recreation_output in He. destruct (process_iso_recreation_output _ _); [discriminate |].
    injection He as <-. unfold step_of in *. simpl. lia.
  - rewrite extraction_finished_step. exact Hr.
  - rewrite (removal_finished_signal_step _ _ _ _ He). lia.
  - unfold iso_recreation_finished.
    match goal with |- context [go_to_step 8 ?x] => destruct (go_to_step_step 8 x) as [-> | ->] end; [lia |].
    wiz_unfold. case_if_match; simpl; unfold step_of in *; lia.
Qed.

Lemma go_to_step_6_at_6 (w : wizard) : step_of w = 6%nat -> go_to_step 6 w = on_nav (nav_goto 6) (enter_step 6 w).
Proof. unfold go_to_step. intros ->. reflexivity. Qed.

Lemma go_to_step_8 (w : wizard) : go_to_step 8 w = on_nav (nav_goto 8) (enter_step 8 w).
Proof. unfold go_to_step. by case_if_match; rewrite ?andb_false_r in *; try discriminate; simpl in *. Qed.

(** Entering step 6 with one package selected starts its purge. *)
Lemma enter_step_6_single (w : wizard) (p : string) :
  get_checked_packages (rs_rows (w_removal w)) = [p] ->
  w_jobs (enter_step 6 w) = (w_jobs w ++ [JRemove (purge_runner (w_extracted w) p)])%list
  /\ rs_queue (w_removal (enter_step 6 w)) = [p] /\ rs_index (w_removal (enter_step 6 w)) = 0%nat
  /\ rs_total (w_removal (enter_step 6 w)) = 1%nat
  /\ rs_extracted (w_removal (enter_step 6 w)) = w_extracted w
  /\ w_extracted (enter_step 6 w) = w_extracted w.
Proof.
  intros Hp. unfold enter_step, start_package_removal. wiz_unfold. simpl. rewrite Hp.
  simpl. rewrite drop_app_length. split_and!; reflexivity.
Qed.

(** The finished signal of the last package of the queue ends the loop. *)
Lemma removal_finished_last (w : wizard) (r : runner) (rc : Z) (p : string) :
  rs_queue (w_removal w) = [p] -> rs_index (w_removal w) = 0%nat -> rs_total (w_removal w) = 1%nat ->
  exists w', removal_finished_signal r rc w = inr w'
  /\ w_jobs w' = remove_one (JRemove r) (w_jobs w)
  /\ rs_queue (w_removal w') = [p] /\ rs_index (w_removal w') = 1%nat.
Proof.
  intros Hq Hi Ht. unfold removal_finished_signal, handle_single_package_removal. wiz_unfold. simpl.
  rewrite Hq, Hi, Ht. simpl.
  eexists. split_and!; [reflexivity | | reflexivity | reflexivity].
  simpl. by rewrite drop_all, app_nil_r.
Qed.

(** A finished signal once the queue is exhausted reads past its end. *)
Lemma removal_finished_past_end (w : wizard) (r : runner) (rc : Z) (p : string) :
  rs_queue (w_removal w) = [p] -> rs_index (w_removal w) = 1%nat ->
  removal_finished_signal r rc w = inl IndexError.
Proof.
  intros Hq Hi. unfold removal_finished_signal, handle_single_package_removal. wiz_unfold. simpl.
  by rewrite Hq, Hi.
Qed.

(** ** The removal seen from the wizard *)

Section RemovalLiveness.
Context `{CommandOutcome}.

Lemma removal_with_path_same (w : wizard) :
  rs_extracted (w_removal w) = w_extracted w -> removal_with_path w = w_removal w.
Proof. unfold removal_with_path. destruct (w_removal w); simpl. by intros ->. Qed.

Lemma removal_events_run (k : nat) (w : wizard) (S0 : list runner) (base : list job) (p : string) :
  removal_inv S0 (w_removal w) -> rs_running (w_removal w) = true ->
  rs_extracted (w_removal w) = w_extracted w -> (length (rs_queue (w_removal w)) <= 128)%nat ->
  (rs_index (w_removal w) + k = length (rs_queue (w_removal w)))%nat ->
  rs_queue (w_removal w) !! rs_index (w_removal w) = Some p ->
  (forall r, JRemove r ∉ base) ->
  w_jobs w = (base ++ [JRemove (purge_runner (w_extracted w) p)])%list ->
  exists w', run_events (removal_finish_events (w_extracted w)
                          (drop (rs_index (w_removal w)) (rs_queue (w_removal w)))) w = Some (inr w')
  /\ rs_finished (w_removal w') = true /\ rs_running (w_removal w') = false
  /\ n_next_enabled (w_nav w') = true /\ n_back_enabled (w_nav w') = true
  /\ w_jobs w' = base /\ step_of w' = step_of w.
Proof.
  revert w p. induction k as [|k IH]; intros w p Hinv Hrun Hext Hn Hk Hp Hbase Hj.
  { apply lookup_lt_Some in Hp. lia. }
  pose proof Hinv as (Ht & _ & Hs & _).
  destruct (handle_removal_ok (removal_rc (w_extracted w) p) (w_removal w) p Hp Ht Hn) as (pct & _ & _ & E).
  rewrite (drop_S _ _ _ Hp). cbn [fmap list_fmap removal_finish_events run_events].
  assert (Hen : event_enabled (EvFinished (JRemove (purge_runner (w_extracted w) p))
                                (removal_rc (w_extracted w) p)) w = true).
  { unfold event_enabled. apply bool_decide_eq_true. rewrite Hj. set_solver. }
  rewrite Hen. cbn [wizard_event]. unfold removal_finished_signal.
  assert (Hw0 : removal_with_path (finish_job (JRemove (purge_runner (w_extracted w) p)) w) = w_removal w)
    by (rewrite removal_with_path_same; [reflexivity | exact Hext]).
  rewrite Hw0, E. cbn [py_bind].
  assert (Hinv1 := removal_inv_handle S0 _ _ _ Hinv Hrun E).
  revert Hinv1. unfold remove_next_package. cbn [rs_queue rs_index].
  destruct (rs_queue (w_removal w) !! S (rs_index (w_removal w))) as [p' |] eqn:Hn'; intros Hinv1.
  - simpl. match goal with |- exists _, run_events _ ?w1 = _ /\ _ =>
      destruct (IH w1 p') as (w' & Ew & Hfin & Hrun' & Hne & Hbe & Hj' & Hst); simpl; try done; try lia
    end.
    + unfold sync_removal, finish_job. simpl. rewrite Hj, remove_one_app_r by apply Hbase.
      rewrite drop_app_length, Hext, app_nil_r. reflexivity.
    + exists w'. split_and!; done.
  - apply lookup_ge_None in Hn'. rewrite drop_ge by lia. simpl.
    eexists. split; [reflexivity |]. unfold package_removal_finished_ui, sync_removal. wiz_unfold. simpl.
    rewrite Hj, remove_one_app_r by apply Hbase. rewrite drop_all, !app_nil_r. split_and!; done.
Qed.

(** C5: Package removal never leaves the wizard stuck: after Next on step 5
    with [n] packages selected ([1 <= n <= 128]), the [n] finished signals
    of the purges, whatever their return codes, bring the wizard to the
    end of the removal with Next and Back enabled again, and every purge
    thread retired. *)
Theorem removal_reenables_navigation (w : wizard) (pkgs : list string) :
  step_of w = 5%nat -> event_enabled EvNext w = true ->
  get_checked_packages (rs_rows (w_removal w)) = pkgs -> pkgs <> [] -> (length pkgs <= 128)%nat ->
  pb_inv (rs_bar (w_removal w)) -> pb_min (rs_bar (w_removal w)) = 0%Z ->
  pb_max (rs_bar (w_removal w)) = 100%Z -> (forall r, JRemove r ∉ w_jobs w) ->
  exists w', run_events (EvNext :: removal_finish_events (w_extracted w) pkgs) w = Some (inr w')
  /\ step_of w' = 6%nat /\ rs_finished (w_removal w') = true
  /\ n_next_enabled (w_nav w') = true /\ n_back_enabled (w_nav w') = true /\ w_jobs w' = w_jobs w.
Proof.
  intros Hs Hnext Hp Hne Hn Hpb Hmin Hmax Hj.
  destruct pkgs as [|p ps]; [done |].
  set (w1 := on_nav (nav_goto 6) (enter_step 6 w)).
  assert (E1 : wizard_event EvNext w = inr w1).
  { simpl. unfold go_to_next_step. rewrite Hs. unfold go_to_step. rewrite Hs, Hp. reflexivity. }
  destruct (execute_removal_inv (p :: ps) (removal_with_path w) ltac:(done) Hpb Hmin Hmax) as [Hinv Hrun].
  assert (Hw1 : w_removal w1 = execute_package_removal (p :: ps) (removal_with_path w)
              /\ w_jobs w1 = (w_jobs w ++ [JRemove (purge_runner (w_extracted w) p)])%list
              /\ step_of w1 = 6%nat /\ w_extracted w1 = w_extracted w).
  { unfold w1, enter_step, start_package_removal. wiz_unfold. simpl. rewrite Hp.
    simpl. rewrite drop_app_length. split_and!; reflexivity. }
  destruct Hw1 as (Hr1 & Hj1 & Hs1 & Hx1).
  destruct (removal_events_run (length (p :: ps)) w1 (rs_started (removal_with_path w)) (w_jobs w) p)
    as (w' & Ew & Hfin & _ & Hne' & Hbe' & Hj' & Hst'); rewrite ?Hr1; try done; rewrite ?Hx1; try exact Hj1; try reflexivity.
  exists w'. cbn [run_events]. rewrite Hnext, E1. rewrite Hx1 in Ew. split_and!; try done.
  - rewrite Hr1 in Ew. exact Ew.
Qed.

End RemovalLiveness.

(** ** Properties *)

(** C3: In every state the application reaches from its start, the
    current step is one of the eight steps. *)
Theorem wizard_reachable_step_range (fs : fsys) (w : wizard) :
  rtc wstep (wizard_init fs) w -> (1 <= step_of w <= 8)%nat.
Proof.
  intros Hrtc. remember (wizard_init fs) as w0 eqn:E0.
  assert (H0 : (1 <= step_of w0 <= 8)%nat) by (subst; unfold step_of; simpl; lia). clear E0.
  induction Hrtc as [x | x y z (e & _ & He) _ IH]; [exact H0 |].
  apply IH. exact (wizard_event_range e x y H0 He).
Qed.

(** C1: Confirm Removal stays visible and clickable while the removal runs:
    clicking it re-enters step 6, which starts the removal of the selection
    again, so a second purge runs in the extracted tree beside the one
    still running (the spec allows one mutating process at a time). *)
Theorem confirm_during_removal (w : wizard) (r : runner) (p : string) (ps : list string) :
  step_of w = 6%nat -> w_confirm_shown w = true -> JRemove r ∈ w_jobs w ->
  get_checked_packages (rs_rows (w_removal w)) = p :: ps ->
  event_enabled EvConfirm w = true
  /\ exists w', wizard_event EvConfirm w = inr w'
     /\ JRemove r ∈ w_jobs w' /\ JRemove (purge_runner (w_extracted w) p) ∈ w_jobs w'.
Proof.
  intros Hs Hc Hr Hp. split; [unfold event_enabled, event_group, group_shown, widget_enabled; rewrite Hs, Hc; reflexivity |].
  eexists. split; [reflexivity |]. simpl. rewrite go_to_step_6_at_6 by exact Hs.
  unfold enter_step. wiz_unfold. simpl. rewrite Hp. simpl.
  rewrite drop_app_length. simpl. split; apply elem_of_app; [by left | right; by left].
Qed.

(** C2: Confirm Removal pressed again while a one-package removal runs
    crashes the application: the second purge's finished signal reaches
    [_handle_single_package_removal] after the first one has exhausted
    the queue, and [packages_to_remove_queue[1]] raises [IndexError],
    which no slot catches. *)
Theorem double_confirm_crashes (w : wizard) (r : runner) (p : string) (rc1 rc2 : Z) :
  step_of w = 6%nat -> w_confirm_shown w = true -> JRemove r ∈ w_jobs w ->
  get_checked_packages (rs_rows (w_removal w)) = [p] ->
  let r' := purge_runner (w_extracted w) p in
  exists w1 w2,
    event_enabled EvConfirm w = true /\ wizard_event EvConfirm w = inr w1
    /\ event_enabled (EvFinished (JRemove r) rc1) w1 = true
    /\ wizard_event (EvFinished (JRemove r) rc1) w1 = inr w2
    /\ event_enabled (EvFinished (JRemove r') rc2) w2 = true
    /\ wizard_event (EvFinished (JRemove r') rc2) w2 = inl IndexError.
Proof.
  intros Hs Hc Hr Hp r'.
  set (w1 := on_nav (nav_goto 6) (enter_step 6 w)).
  destruct (enter_step_6_single w p Hp) as (Hj & Hq & Hi & Ht & _).
  destruct (removal_finished_last w1 r rc1 p Hq Hi Ht) as (w2 & E2 & Hj2 & Hq2 & Hi2).
  exists w1, w2. split_and!.
  - unfold event_enabled, event_group, group_shown, widget_enabled. by rewrite Hs, Hc.
  - simpl. by rewrite go_to_step_6_at_6 by exact Hs.
  - unfold event_enabled. apply bool_decide_eq_true.
    change (JRemove r ∈ w_jobs (enter_step 6 w)). rewrite Hj. set_solver.
  - exact E2.
  - unfold event_enabled. apply bool_decide_eq_true. rewrite Hj2.
    change (w_jobs w1) with (w_jobs (enter_step 6 w)).
    rewrite Hj, remove_one_app_l by exact Hr. set_solver.
  - exact (removal_finished_past_end w2 r' rc2 p Hq2 Hi2).
Qed.

(** C18: A failed re-creation still ends on the last page with the summary
    "Custom ISO creation completed successfully!", after the error
    dialog; the spec keeps the user on the failed stage. *)
Theorem recreation_failure_reports_success (r : runner) (rc : Z) (w : wizard) :
  rc <> 0%Z ->
  let w' := iso_recreation_finished r rc w in
  step_of w' = 8%nat /\ w_summary w' = "Custom ISO creation completed successfully!"
  /\ w_dialogs w' = app (w_dialogs w) ["ISO re-creation failed with return code " ++ str_int rc ++ "."]
  /\ n_back_shown (w_nav w') = false.
Proof.
  intros Hrc w'. subst w'. unfold iso_recreation_finished.
  destruct (Z.eqb_spec rc 0) as [| _]; [done |]. rewrite go_to_step_8.
  unfold enter_step. wiz_unfold. simpl. split_and!; reflexivity.
Qed.

(** C19: The preconditions of advancing: Next on step 1 without a working
    folder or an ISO file, and Next on step 5 with no package selected,
    only show a warning and stay on the step. *)
Theorem next_step_preconditions (w : wizard) :
  ((step_of w = 1%nat /\ (w_working_folder w = "" \/ w_iso_file w = "")) ->
     go_to_next_step w = add_dialog "Please select working folder and ISO file." w)
  /\ ((step_of w = 5%nat /\ get_checked_packages (rs_rows (w_removal w)) = []) ->
     go_to_next_step w = add_dialog "No packages selected for removal." w).
Proof.
  split; intros [Hs Hc]; unfold go_to_next_step; rewrite Hs.
  - destruct Hc as [-> | ->]; [reflexivity | by rewrite orb_true_r].
  - unfold go_to_step. rewrite Hs, Hc. reflexivity.
Qed.

(** C20: Back from the terminal step re-enters step 3, which extracts the
    ISO again over the tree the user customised, and locks both buttons
    until that extraction ends. *)
Theorem back_from_terminal_reextracts (w : wizard) :
  step_of w = 4%nat ->
  let w' := go_to_previous_step w in
  step_of w' = 3%nat /\ n_next_enabled (w_nav w') = false /\ n_back_enabled (w_nav w') = false
  /\ w_jobs w' = (w_jobs w ++ [JExtract (Runner (CmdList (extract_command (w_iso_file w)
                                   (extracted_path (w_working_folder w)))) None None false)])%list.
Proof.
  intros Hs w'. subst w'. unfold go_to_previous_step. rewrite Hs. simpl.
  unfold go_to_step. rewrite Hs. simpl. unfold enter_step. wiz_unfold. simpl. split_and!; reflexivity.
Qed.

(** C17: The output path handed to xorriso is the label's elided text:
    after [browse_output_iso_location] with a path [p] that the label
    elides to [elide (p ++ ".iso")], the thread [_start_iso_recreation]
    starts runs [xorriso ... -o <elided text> ...], because
    [ElidedLabel] keeps the full path in [original_text] only.  Any path
    wider than the label is replaced by one with an ellipsis in it. *)
Theorem recreation_writes_elided_path (w : wizard) (p : string) (elide : string -> string) :
  String.eqb p "" = false -> String.eqb (elide (ensure_iso_suffix p)) "" = false ->
  exists cmd wd, JRecreate (Runner (CmdList cmd) wd None false)
                   ∈ w_jobs (start_iso_recreation (browse_output_iso_location p elide w))
  /\ cmd !! 9%nat = Some "-o" /\ cmd !! 10%nat = Some (elide (ensure_iso_suffix p)).
Proof.
  intros Hp He. unfold browse_output_iso_location. rewrite Hp.
  unfold start_iso_recreation. cbn [el_text w_output_iso set_output_iso elided_setText]. rewrite He.
  destruct (install_boot_logo _ _ _) as [fs' warnings]. wiz_unfold. simpl.
  eexists _, _. split; [apply elem_of_app; right; by left |]. split; reflexivity.
Qed.

(** C39: The compression options chosen in the dialog never reach the
    re-creation: the thread [_start_iso_recreation] starts, and every file
    it writes, are the same whatever the options. *)
Theorem recreation_ignores_compression (w : wizard) (o : compression_options) :
  w_jobs (start_iso_recreation (set_compression (Some o) w)) = w_jobs (start_iso_recreation w)
  /\ w_fs (start_iso_recreation (set_compression (Some o) w)) = w_fs (start_iso_recreation w).
Proof.
  unfold start_iso_recreation. simpl. case_if_match; [done |].
  wiz_unfold. simpl. by destruct (install_boot_logo _ _ _).
Qed.

(** C28: The Compression button of step 7: when [os.cpu_count()] is [n]
    and the dialog is accepted, the wizard keeps the encoding of a valid
    spec record (one of the five methods, level [0 .. 9], threads
    [0 .. n]) and nothing else changes; when [os.cpu_count()] is [None]
    the dialog's constructor raises [TypeError] out of the slot, whatever
    the user would have chosen. *)
Theorem compression_dialog_slot (w : wizard) (n : Z) (inputs : list compression_input)
    (res : dialog_result) :
  (0 <= n)%Z -> Forall (fun i => compression_input_ok i = true) inputs ->
  (exists s, spec_compression_valid n s
     /\ wizard_event (EvCompression (Some n) inputs Accepted) w
        = inr (set_compression (Some (encode_compression s)) w))
  /\ wizard_event (EvCompression None inputs res) w = inl TypeError.
Proof.
  intros Hn Hok. split; [| reflexivity].
  destruct (run_compression_dialog_inv n inputs Hn Hok) as (d & Hrun & Hinv).
  destruct (compression_inv_encodes n d Hinv) as [Hv He].
  exists (spec_of_dialog d). split; [exact Hv |].
  simpl. unfold show_advanced_compression_dialog. rewrite Hrun. simpl. by rewrite He.
Qed.

(** C21: The groups of steps 1 and 2 are never hidden: at every step the
    ISO file's Browse button is usable, and choosing another existing
    ISO there changes the ISO file and its information but leaves the
    step, the running threads and the extracted tree that step 7
    repackages as they were. *)
Theorem iso_change_after_extraction (w : wizard) (p : string) (r : run_result) :
  p <> "" -> fs_exists (w_fs w) p = true ->
  event_enabled (EvIsoFile p r) w = true
  /\ exists w', wizard_event (EvIsoFile p r) w = inr w'
     /\ w_iso_file w' = p /\ w_extracted w' = w_extracted w
     /\ step_of w' = step_of w /\ w_jobs w' = w_jobs w.
Proof.
  intros Hp He. split; [reflexivity |]. eexists. split; [reflexivity |].
  unfold browse_iso_file. rewrite (proj2 (String.eqb_neq _ _) Hp), He.
  unfold populate_iso_info_ui. destruct (iso_info_of_run _ _); wiz_unfold; simpl; auto.
Qed.

(** Each Preseed button opens an empty dialog: OK without browsing or
    typing clears the preseed file chosen before, and the next re-creation
    passes no [-preseed]. *)
Lemma preseed_ok_without_browse_clears (w : wizard) :
  w_preseed (show_preseed_dialog [] Accepted w) = ""
  /\ recreation_command (w_fs w) (el_text (w_output_iso w)) "" (w_extracted w)
     = (recreation_base (el_text (w_output_iso w)) ++ [w_extracted w])%list.
Proof. split; reflexivity. Qed.

(** ** A session *)

Definition demo_iso : string := "/isos/ubuntu-22.04-desktop-amd64.iso".

Definition demo_fs : fsys := FS {["/work"; "/isos"]} {[demo_iso := ""]}.

(** What [xorriso -report_system_id - -report_application_id -] prints. *)
Definition demo_iso_report : run_result :=
  RunOk ("System_ID='Ubuntu'" ++ newline ++ "Application_ID='22.04'").

Definition demo_extract : runner :=
  Runner (CmdList (extract_command demo_iso "/work/extracted_iso")) None None false.

Definition demo_listing_thread : runner :=
  Runner (CmdList ["apt"; "list"; "--installed"]) None (Some "/work/extracted_iso") false.

Definition demo_listing : string :=
  apt_listing [AptEntry "vim" "jammy" "2:8.2.3995-1ubuntu2" "amd64"; AptEntry "nano" "jammy" "6.2-1" "amd64"].

(** Folder and ISO, Next to extraction, extraction succeeds, Next to the
    terminal and to the package list, the listing arrives, [vim] is
    selected, Next to step 6: the removal starts. *)
Definition trace_to_selection : list event :=
  [EvWorkingFolder "/work"; EvIsoFile demo_iso demo_iso_report; EvNext; EvNext;
   EvFinished (JExtract demo_extract) 0;
   EvNext; EvNext; EvOutput (JListing demo_listing_thread) demo_listing;
   EvFinished (JListing demo_listing_thread) 0; EvToggleRow 0 true].

Definition trace_to_removal : list event := (trace_to_selection ++ [EvNext])%list.

Definition w_selected : wizard :=
  match run_events trace_to_selection (wizard_init demo_fs) with
  | Some (inr w) => w
  | _ => wizard_init demo_fs
  end.

Definition w_removing : wizard :=
  match run_events trace_to_removal (wizard_init demo_fs) with
  | Some (inr w) => w
  | _ => wizard_init demo_fs
  end.

Lemma trace_to_removal_runs : run_events trace_to_removal (wizard_init demo_fs) = Some (inr w_removing).
Proof. vm_compute. reflexivity. Qed.

Lemma wizard_reachable_step_range_witness :
  rtc wstep (wizard_init demo_fs) w_removing /\ (1 <= step_of w_removing <= 8)%nat.
Proof.
  assert (H : rtc wstep (wizard_init demo_fs) w_removing) by exact (run_events_rtc _ _ _ trace_to_removal_runs).
  split; [exact H | exact (wizard_reachable_step_range demo_fs w_removing H)].
Defined.

Lemma confirm_during_removal_witness :
  event_enabled EvConfirm w_removing = true
  /\ exists w', wizard_event EvConfirm w_removing = inr w'
     /\ JRemove (purge_runner "/work/extracted_iso" "vim") ∈ w_jobs w'
     /\ JRemove (purge_runner (w_extracted w_removing) "vim") ∈ w_jobs w'.
Proof.
  apply (confirm_during_removal w_removing (purge_runner "/work/extracted_iso" "vim") "vim" []).
  - vm_compute. reflexivity.
  - vm_compute. reflexivity.
  - refine (bool_decide_unpack (JRemove (purge_runner "/work/extracted_iso" "vim") ∈ w_jobs w_removing) _).
    vm_compute. reflexivity.
  - vm_compute. reflexivity.
Defined.

Lemma double_confirm_crashes_witness :
  let r := purge_runner "/work/extracted_iso" "vim" in
  exists w1 w2,
    event_enabled EvConfirm w_removing = true /\ wizard_event EvConfirm w_removing = inr w1
    /\ event_enabled (EvFinished (JRemove r) 0) w1 = true
    /\ wizard_event (EvFinished (JRemove r) 0) w1 = inr w2
    /\ event_enabled (EvFinished (JRemove (purge_runner (w_extracted w_removing) "vim")) 0) w2 = true
    /\ wizard_event (EvFinished (JRemove (purge_runner (w_extracted w_removing) "vim")) 0) w2 = inl IndexError.
Proof.
  apply (double_confirm_crashes w_removing (purge_runner "/work/extracted_iso" "vim") "vim" 0 0).
  - vm_compute. reflexivity.
  - vm_compute. reflexivity.
  - refine (bool_decide_unpack (JRemove (purge_runner "/work/extracted_iso" "vim") ∈ w_jobs w_removing) _).
    vm_compute. reflexivity.
  - vm_compute. reflexivity.
Defined.

Lemma recreation_failure_reports_success_witness :
  step_of (iso_recreation_finished demo_extract 1 w_removing) = 8%nat
  /\ w_summary (iso_recreation_finished demo_extract 1 w_removing)
     = "Custom ISO creation completed successfully!".
Proof.
  destruct (recreation_failure_reports_success demo_extract 1 w_removing) as (H1 & H2 & _); [lia |].
  split; assumption.
Defined.

Lemma next_step_preconditions_witness :
  go_to_next_step (wizard_init demo_fs) = add_dialog "Please select working folder and ISO file." (wizard_init demo_fs).
Proof.
  destruct (next_step_preconditions (wizard_init demo_fs)) as [H _].
  apply H. split; [reflexivity | by left].
Defined.

Lemma back_from_terminal_reextracts_witness :
  step_of (go_to_previous_step (set_nav (nav_goto 4 (w_nav w_removing)) w_removing)) = 3%nat.
Proof.
  destruct (back_from_terminal_reextracts (set_nav (nav_goto 4 (w_nav w_removing)) w_removing))
    as (H & _); [reflexivity | exact H].
Defined.

Lemma removal_reenables_navigation_witness :
  exists w', run_events (EvNext :: @removal_finish_events (@runner_outcome_v1 demo_env)
                                     (w_extracted w_selected) ["vim"]) w_selected = Some (inr w')
  /\ step_of w' = 6%nat /\ rs_finished (w_removal w') = true
  /\ n_next_enabled (w_nav w') = true /\ n_back_enabled (w_nav w') = true /\ w_jobs w' = w_jobs w_selected.
Proof.
  apply (@removal_reenables_navigation (@runner_outcome_v1 demo_env) w_selected ["vim"]);
    try (vm_compute; reflexivity); try (vm_compute; lia); try discriminate.
  - assert (Hb : rs_bar (w_removal w_selected) = ProgressBar 0 100 0) by (vm_compute; reflexivity).
    rewrite Hb. unfold pb_inv. simpl. lia.
  - assert (Hj : w_jobs w_selected = []) by (vm_compute; reflexivity).
    rewrite Hj. intros r Hr. inversion Hr.
Defined.

(** A path chosen in a label 40 characters wide. *)
Definition long_output_path : string := "/home/user/projects/images/custom-ubuntu-22.04.3-desktop-amd64".

Lemma recreation_writes_elided_path_witness :
  exists cmd wd, JRecreate (Runner (CmdList cmd) wd None false)
                   ∈ w_jobs (start_iso_recreation
                               (browse_output_iso_location long_output_path (elide_middle 40) w_selected))
  /\ cmd !! 9%nat = Some "-o"
  /\ cmd !! 10%nat = Some (elide_middle 40 (ensure_iso_suffix long_output_path)).
Proof. apply recreation_writes_elided_path; vm_compute; reflexivity. Defined.

(** The argument xorriso gets is not the chosen path. *)
Example long_output_path_elided :
  elide_middle 40 (ensure_iso_suffix long_output_path)
  = "/home/user/projects/" ++ ellipsis ++ "3-desktop-amd64.iso"
  /\ elide_middle 40 (ensure_iso_suffix long_output_path) <> ensure_iso_suffix long_output_path.
Proof. split; [reflexivity | vm_compute; discriminate]. Qed.


Lemma compression_dialog_slot_witness :
  (0 <= 4)%Z /\ Forall (fun i => compression_input_ok i = true) [SelectMethod 1; SetLevel 9]
  /\ (exists s, spec_compression_valid 4 s
       /\ wizard_event (EvCompression (Some 4%Z) [SelectMethod 1; SetLevel 9] Accepted) w_selected
          = inr (set_compression (Some (encode_compression s)) w_selected))
  /\ wizard_event (EvCompression None [SelectMethod 1; SetLevel 9] Rejected) w_selected = inl TypeError.
Proof.
  split; [lia |]. split; [repeat constructor |].
  apply (compression_dialog_slot w_selected 4 [SelectMethod 1; SetLevel 9] Rejected); [lia | repeat constructor].
Defined.

Lemma iso_change_after_extraction_witness :
  demo_iso <> "" /\ fs_exists (w_fs w_removing) demo_iso = true
  /\ event_enabled (EvIsoFile demo_iso demo_iso_report) w_removing = true
  /\ exists w', wizard_event (EvIsoFile demo_iso demo_iso_report) w_removing = inr w'
     /\ w_iso_file w' = demo_iso /\ w_extracted w' = w_extracted w_removing
     /\ step_of w' = step_of w_removing /\ w_jobs w' = w_jobs w_removing.
Proof.
  assert (H1 : demo_iso <> "") by discriminate.
  assert (H2 : fs_exists (w_fs w_removing) demo_iso = true) by (vm_compute; reflexivity).
  split; [exact H1 |]. split; [exact H2 |]. exact (iso_change_after_extraction w_removing demo_iso demo_iso_report H1 H2).
Defined.
