(* ===== verification/WizardV2.v ===== *)
(** * The stage pipeline of MasterLinux_v2.py

    The second wizard keeps its pages in a [QStackedWidget] of six pages
    (steps 1, 2, 3, 4, 7 and 8) while [current_step] runs over 1 .. 8.
    Modelled handlers: [go_to_next_step] (714-734), [go_to_previous_step]
    (736-740), [go_to_step] (742-755), [_extract_iso] (757-782),
    [_process_extraction_output] (784-795), [_extraction_finished]
    (797-809), [_fetch_installed_packages] (824-847),
    [_fetch_available_packages] (849-872),
    [_populate_package_lists_for_checklist] (874-897), the configuration
    batch of step 4 (through [Commands.apply_package_changes] and
    [Batch]), [_start_iso_recreation] (1073-1136),
    [_process_iso_recreation_output] (1138-1151) and
    [_iso_recreation_finished] (1153-1163).

    [QStackedWidget.setCurrentIndex] ignores an index that names no page.
    An exception escaping a slot aborts the application: handlers return
    [py]. *)

From stdpp Require Import relations.
From S2P Require Import Prelude PyStr PyFloat Qt Runner Progress Packages Commands Dialogs Batch Wizard.
Import Dialogs.Preseed Dialogs.Kernel Dialogs.Compression.

Open Scope string_scope.
Open Scope py_scope.

(** The pages of [self.stack]. *)
Definition stack_count : nat := 6.

(** ** State *)

Record wizard2 := Wizard2 {
  v_step : nat;                               (** [current_step] *)
  v_stack_index : nat;                        (** [stack.currentIndex()] *)
  v_next_enabled : bool;                      (** [next_button.isEnabled()] *)
  v_back_enabled : bool;                      (** [back_button.isEnabled()] *)
  v_back_shown : bool;                        (** [back_button] visible *)
  v_next_text : string;                       (** [next_button.text()] *)
  v_working_folder : string;                  (** [working_folder_path.text()] *)
  v_iso_file : string;                        (** [iso_file_path.text()] *)
  v_iso_info : iso_info;                      (** [iso_name_edit], [iso_version_edit], [iso_architecture_edit] *)
  v_extracted : string;                       (** [extracted_iso_path] *)
  v_fs : fsys;                                (** the file system *)
  v_extract_bar : progress_bar;               (** [step3_progress_bar] *)
  v_extract_format : string;                  (** its format text *)
  v_removal_rows : list package;              (** [step4_removal_package_model] *)
  v_addition_rows : list package;             (** [step4_addition_package_model] *)
  v_modif : modif_state;                      (** the configuration batch *)
  v_modif_log : string;                       (** [step4_log_display] *)
  v_output_iso : elided_label;                (** [output_iso_path], an [ElidedLabel] *)
  v_preseed : string;                         (** [preseed_file] *)
  v_boot_logo : string;                       (** [boot_logo_path] *)
  v_compression : option compression_options; (** [compression_options] *)
  v_recreate : recreation_view;               (** [step7_log_display] and [step7_progress_bar] *)
  v_recreate_format : string;                 (** [step7_progress_bar] format text *)
  v_jobs : list job;                          (** threads started whose finished signal is due *)
  v_dialogs : list string;                    (** message boxes shown, in order *)
  v_opened : list (list string);              (** processes started by [subprocess.Popen], not tracked *)
  v_delete_checked : bool;                    (** [step8_delete_temp_checkbox] *)
  v_quit : bool                               (** [QApplication.quit()] was called *)
}.

Definition v2_set_step (x : nat) (w : wizard2) : wizard2 :=
  Wizard2 x (v_stack_index w) (v_next_enabled w) (v_back_enabled w) (v_back_shown w)
    (v_next_text w) (v_working_folder w) (v_iso_file w) (v_iso_info w) (v_extracted w) (v_fs w)
    (v_extract_bar w) (v_extract_format w) (v_removal_rows w) (v_addition_rows w) (v_modif w)
    (v_modif_log w) (v_output_iso w) (v_preseed w) (v_boot_logo w) (v_compression w) (v_recreate
    w) (v_recreate_format w) (v_jobs w) (v_dialogs w) (v_opened w) (v_delete_checked w) (v_quit
    w).

Definition v2_set_stack_index (x : nat) (w : wizard2) : wizard2 :=
  Wizard2 (v_step w) x (v_next_enabled w) (v_back_enabled w) (v_back_shown w) (v_next_text w)
    (v_working_folder w) (v_iso_file w) (v_iso_info w) (v_extracted w) (v_fs w) (v_extract_bar
    w) (v_extract_format w) (v_removal_rows w) (v_addition_rows w) (v_modif w) (v_modif_log w)
    (v_output_iso w) (v_preseed w) (v_boot_logo w) (v_compression w) (v_recreate w)
    (v_recreate_format w) (v_jobs w) (v_dialogs w) (v_opened w) (v_delete_checked w) (v_quit w).

Definition v2_set_next_enabled (x : bool) (w : wizard2) : wizard2 :=
  Wizard2 (v_step w) (v_stack_index w) x (v_back_enabled w) (v_back_shown w) (v_next_text w)
    (v_working_folder w) (v_iso_file w) (v_iso_info w) (v_extracted w) (v_fs w) (v_extract_bar
    w) (v_extract_format w) (v_removal_rows w) (v_addition_rows w) (v_modif w) (v_modif_log w)
    (v_output_iso w) (v_preseed w) (v_boot_logo w) (v_compression w) (v_recreate w)
    (v_recreate_format w) (v_jobs w) (v_dialogs w) (v_opened w) (v_delete_checked w) (v_quit w).

Definition v2_set_back_enabled (x : bool) (w : wizard2) : wizard2 :=
  Wizard2 (v_step w) (v_stack_index w) (v_next_enabled w) x (v_back_shown w) (v_next_text w)
    (v_working_folder w) (v_iso_file w) (v_iso_info w) (v_extracted w) (v_fs w) (v_extract_bar
    w) (v_extract_format w) (v_removal_rows w) (v_addition_rows w) (v_modif w) (v_modif_log w)
    (v_output_iso w) (v_preseed w) (v_boot_logo w) (v_compression w) (v_recreate w)
    (v_recreate_format w) (v_jobs w) (v_dialogs w) (v_opened w) (v_delete_checked w) (v_quit w).

Definition v2_set_back_shown (x : bool) (w : wizard2) : wizard2 :=
  Wizard2 (v_step w) (v_stack_index w) (v_next_enabled w) (v_back_enabled w) x (v_next_text w)
    (v_working_folder w) (v_iso_file w) (v_iso_info w) (v_extracted w) (v_fs w) (v_extract_bar
    w) (v_extract_format w) (v_removal_rows w) (v_addition_rows w) (v_modif w) (v_modif_log w)
    (v_output_iso w) (v_preseed w) (v_boot_logo w) (v_compression w) (v_recreate w)
    (v_recreate_format w) (v_jobs w) (v_dialogs w) (v_opened w) (v_delete_checked w) (v_quit w).

Definition v2_set_next_text (x : string) (w : wizard2) : wizard2 :=
  Wizard2 (v_step w) (v_stack_index w) (v_next_enabled w) (v_back_enabled w) (v_back_shown w) x
    (v_working_folder w) (v_iso_file w) (v_iso_info w) (v_extracted w) (v_fs w) (v_extract_bar
    w) (v_extract_format w) (v_removal_rows w) (v_addition_rows w) (v_modif w) (v_modif_log w)
    (v_output_iso w) (v_preseed w) (v_boot_logo w) (v_compression w) (v_recreate w)
    (v_recreate_format w) (v_jobs w) (v_dialogs w) (v_opened w) (v_delete_checked w) (v_quit w).

Definition v2_set_working_folder (x : string) (w : wizard2) : wizard2 :=
  Wizard2 (v_step w) (v_stack_index w) (v_next_enabled w) (v_back_enabled w) (v_back_shown w)
    (v_next_text w) x (v_iso_file w) (v_iso_info w) (v_extracted w) (v_fs w) (v_extract_bar w)
    (v_extract_format w) (v_removal_rows w) (v_addition_rows w) (v_modif w) (v_modif_log w)
    (v_output_iso w) (v_preseed w) (v_boot_logo w) (v_compression w) (v_recreate w)
    (v_recreate_format w) (v_jobs w) (v_dialogs w) (v_opened w) (v_delete_checked w) (v_quit w).

Definition v2_set_iso_file (x : string) (w : wizard2) : wizard2 :=
  Wizard2 (v_step w) (v_stack_index w) (v_next_enabled w) (v_back_enabled w) (v_back_shown w)
    (v_next_text w) (v_working_folder w) x (v_iso_info w) (v_extracted w) (v_fs w)
    (v_extract_bar w) (v_extract_format w) (v_removal_rows w) (v_addition_rows w) (v_modif w)
    (v_modif_log w) (v_output_iso w) (v_preseed w) (v_boot_logo w) (v_compression w) (v_recreate
    w) (v_recreate_format w) (v_jobs w) (v_dialogs w) (v_opened w) (v_delete_checked w) (v_quit
    w).

Definition v2_set_iso_info (x : iso_info) (w : wizard2) : wizard2 :=
  Wizard2 (v_step w) (v_stack_index w) (v_next_enabled w) (v_back_enabled w) (v_back_shown w)
    (v_next_text w) (v_working_folder w) (v_iso_file w) x (v_extracted w) (v_fs w)
    (v_extract_bar w) (v_extract_format w) (v_removal_rows w) (v_addition_rows w) (v_modif w)
    (v_modif_log w) (v_output_iso w) (v_preseed w) (v_boot_logo w) (v_compression w) (v_recreate
    w) (v_recreate_format w) (v_jobs w) (v_dialogs w) (v_opened w) (v_delete_checked w) (v_quit
    w).

Definition v2_set_extracted (x : string) (w : wizard2) : wizard2 :=
  Wizard2 (v_step w) (v_stack_index w) (v_next_enabled w) (v_back_enabled w) (v_back_shown w)
    (v_next_text w) (v_working_folder w) (v_iso_file w) (v_iso_info w) x (v_fs w) (v_extract_bar
    w) (v_extract_format w) (v_removal_rows w) (v_addition_rows w) (v_modif w) (v_modif_log w)
    (v_output_iso w) (v_preseed w) (v_boot_logo w) (v_compression w) (v_recreate w)
    (v_recreate_format w) (v_jobs w) (v_dialogs w) (v_opened w) (v_delete_checked w) (v_quit w).

Definition v2_set_fs (x : fsys) (w : wizard2) : wizard2 :=
  Wizard2 (v_step w) (v_stack_index w) (v_next_enabled w) (v_back_enabled w) (v_back_shown w)
    (v_next_text w) (v_working_folder w) (v_iso_file w) (v_iso_info w) (v_extracted w) x
    (v_extract_bar w) (v_extract_format w) (v_removal_rows w) (v_addition_rows w) (v_modif w)
    (v_modif_log w) (v_output_iso w) (v_preseed w) (v_boot_logo w) (v_compression w) (v_recreate
    w) (v_recreate_format w) (v_jobs w) (v_dialogs w) (v_opened w) (v_delete_checked w) (v_quit
    w).

Definition v2_set_extract_bar (x : progress_bar) (w : wizard2) : wizard2 :=
  Wizard2 (v_step w) (v_stack_index w) (v_next_enabled w) (v_back_enabled w) (v_back_shown w)
    (v_next_text w) (v_working_folder w) (v_iso_file w) (v_iso_info w) (v_extracted w) (v_fs w)
    x (v_extract_format w) (v_removal_rows w) (v_addition_rows w) (v_modif w) (v_modif_log w)
    (v_output_iso w) (v_preseed w) (v_boot_logo w) (v_compression w) (v_recreate w)
    (v_recreate_format w) (v_jobs w) (v_dialogs w) (v_opened w) (v_delete_checked w) (v_quit w).

Definition v2_set_extract_format (x : string) (w : wizard2) : wizard2 :=
  Wizard2 (v_step w) (v_stack_index w) (v_next_enabled w) (v_back_enabled w) (v_back_shown w)
    (v_next_text w) (v_working_folder w) (v_iso_file w) (v_iso_info w) (v_extracted w) (v_fs w)
    (v_extract_bar w) x (v_removal_rows w) (v_addition_rows w) (v_modif w) (v_modif_log w)
    (v_output_iso w) (v_preseed w) (v_boot_logo w) (v_compression w) (v_recreate w)
    (v_recreate_format w) (v_jobs w) (v_dialogs w) (v_opened w) (v_delete_checked w) (v_quit w).

Definition v2_set_removal_rows (x : list package) (w : wizard2) : wizard2 :=
  Wizard2 (v_step w) (v_stack_index w) (v_next_enabled w) (v_back_enabled w) (v_back_shown w)
    (v_next_text w) (v_working_folder w) (v_iso_file w) (v_iso_info w) (v_extracted w) (v_fs w)
    (v_extract_bar w) (v_extract_format w) x (v_addition_rows w) (v_modif w) (v_modif_log w)
    (v_output_iso w) (v_preseed w) (v_boot_logo w) (v_compression w) (v_recreate w)
    (v_recreate_format w) (v_jobs w) (v_dialogs w) (v_opened w) (v_delete_checked w) (v_quit w).

Definition v2_set_addition_rows (x : list package) (w : wizard2) : wizard2 :=
  Wizard2 (v_step w) (v_stack_index w) (v_next_enabled w) (v_back_enabled w) (v_back_shown w)
    (v_next_text w) (v_working_folder w) (v_iso_file w) (v_iso_info w) (v_extracted w) (v_fs w)
    (v_extract_bar w) (v_extract_format w) (v_removal_rows w) x (v_modif w) (v_modif_log w)
    (v_output_iso w) (v_preseed w) (v_boot_logo w) (v_compression w) (v_recreate w)
    (v_recreate_format w) (v_jobs w) (v_dialogs w) (v_opened w) (v_delete_checked w) (v_quit w).

Definition v2_set_modif (x : modif_state) (w : wizard2) : wizard2 :=
  Wizard2 (v_step w) (v_stack_index w) (v_next_enabled w) (v_back_enabled w) (v_back_shown w)
    (v_next_text w) (v_working_folder w) (v_iso_file w) (v_iso_info w) (v_extracted w) (v_fs w)
    (v_extract_bar w) (v_extract_format w) (v_removal_rows w) (v_addition_rows w) x (v_modif_log
    w) (v_output_iso w) (v_preseed w) (v_boot_logo w) (v_compression w) (v_recreate w)
    (v_recreate_format w) (v_jobs w) (v_dialogs w) (v_opened w) (v_delete_checked w) (v_quit w).

Definition v2_set_modif_log (x : string) (w : wizard2) : wizard2 :=
  Wizard2 (v_step w) (v_stack_index w) (v_next_enabled w) (v_back_enabled w) (v_back_shown w)
    (v_next_text w) (v_working_folder w) (v_iso_file w) (v_iso_info w) (v_extracted w) (v_fs w)
    (v_extract_bar w) (v_extract_format w) (v_removal_rows w) (v_addition_rows w) (v_modif w) x
    (v_output_iso w) (v_preseed w) (v_boot_logo w) (v_compression w) (v_recreate w)
    (v_recreate_format w) (v_jobs w) (v_dialogs w) (v_opened w) (v_delete_checked w) (v_quit w).

Definition v2_set_output_iso (x : elided_label) (w : wizard2) : wizard2 :=
  Wizard2 (v_step w) (v_stack_index w) (v_next_enabled w) (v_back_enabled w) (v_back_shown w)
    (v_next_text w) (v_working_folder w) (v_iso_file w) (v_iso_info w) (v_extracted w) (v_fs w)
    (v_extract_bar w) (v_extract_format w) (v_removal_rows w) (v_addition_rows w) (v_modif w)
    (v_modif_log w) x (v_preseed w) (v_boot_logo w) (v_compression w) (v_recreate w)
    (v_recreate_format w) (v_jobs w) (v_dialogs w) (v_opened w) (v_delete_checked w) (v_quit w).

Definition v2_set_preseed (x : string) (w : wizard2) : wizard2 :=
  Wizard2 (v_step w) (v_stack_index w) (v_next_enabled w) (v_back_enabled w) (v_back_shown w)
    (v_next_text w) (v_working_folder w) (v_iso_file w) (v_iso_info w) (v_extracted w) (v_fs w)
    (v_extract_bar w) (v_extract_format w) (v_removal_rows w) (v_addition_rows w) (v_modif w)
    (v_modif_log w) (v_output_iso w) x (v_boot_logo w) (v_compression w) (v_recreate w)
    (v_recreate_format w) (v_jobs w) (v_dialogs w) (v_opened w) (v_delete_checked w) (v_quit w).

Definition v2_set_boot_logo (x : string) (w : wizard2) : wizard2 :=
  Wizard2 (v_step w) (v_stack_index w) (v_next_enabled w) (v_back_enabled w) (v_back_shown w)
    (v_next_text w) (v_working_folder w) (v_iso_file w) (v_iso_info w) (v_extracted w) (v_fs w)
    (v_extract_bar w) (v_extract_format w) (v_removal_rows w) (v_addition_rows w) (v_modif w)
    (v_modif_log w) (v_output_iso w) (v_preseed w) x (v_compression w) (v_recreate w)
    (v_recreate_format w) (v_jobs w) (v_dialogs w) (v_opened w) (v_delete_checked w) (v_quit w).

Definition v2_set_compression (x : option compression_options) (w : wizard2) : wizard2 :=
  Wizard2 (v_step w) (v_stack_index w) (v_next_enabled w) (v_back_enabled w) (v_back_shown w)
    (v_next_text w) (v_working_folder w) (v_iso_file w) (v_iso_info w) (v_extracted w) (v_fs w)
    (v_extract_bar w) (v_extract_format w) (v_removal_rows w) (v_addition_rows w) (v_modif w)
    (v_modif_log w) (v_output_iso w) (v_preseed w) (v_boot_logo w) x (v_recreate w)
    (v_recreate_format w) (v_jobs w) (v_dialogs w) (v_opened w) (v_delete_checked w) (v_quit w).

Definition v2_set_recreate (x : recreation_view) (w : wizard2) : wizard2 :=
  Wizard2 (v_step w) (v_stack_index w) (v_next_enabled w) (v_back_enabled w) (v_back_shown w)
    (v_next_text w) (v_working_folder w) (v_iso_file w) (v_iso_info w) (v_extracted w) (v_fs w)
    (v_extract_bar w) (v_extract_format w) (v_removal_rows w) (v_addition_rows w) (v_modif w)
    (v_modif_log w) (v_output_iso w) (v_preseed w) (v_boot_logo w) (v_compression w) x
    (v_recreate_format w) (v_jobs w) (v_dialogs w) (v_opened w) (v_delete_checked w) (v_quit w).

Definition v2_set_recreate_format (x : string) (w : wizard2) : wizard2 :=
  Wizard2 (v_step w) (v_stack_index w) (v_next_enabled w) (v_back_enabled w) (v_back_shown w)
    (v_next_text w) (v_working_folder w) (v_iso_file w) (v_iso_info w) (v_extracted w) (v_fs w)
    (v_extract_bar w) (v_extract_format w) (v_removal_rows w) (v_addition_rows w) (v_modif w)
    (v_modif_log w) (v_output_iso w) (v_preseed w) (v_boot_logo w) (v_compression w) (v_recreate
    w) x (v_jobs w) (v_dialogs w) (v_opened w) (v_delete_checked w) (v_quit w).

Definition v2_set_jobs (x : list job) (w : wizard2) : wizard2 :=
  Wizard2 (v_step w) (v_stack_index w) (v_next_enabled w) (v_back_enabled w) (v_back_shown w)
    (v_next_text w) (v_working_folder w) (v_iso_file w) (v_iso_info w) (v_extracted w) (v_fs w)
    (v_extract_bar w) (v_extract_format w) (v_removal_rows w) (v_addition_rows w) (v_modif w)
    (v_modif_log w) (v_output_iso w) (v_preseed w) (v_boot_logo w) (v_compression w) (v_recreate
    w) (v_recreate_format w) x (v_dialogs w) (v_opened w) (v_delete_checked w) (v_quit w).

Definition v2_set_dialogs (x : list string) (w : wizard2) : wizard2 :=
  Wizard2 (v_step w) (v_stack_index w) (v_next_enabled w) (v_back_enabled w) (v_back_shown w)
    (v_next_text w) (v_working_folder w) (v_iso_file w) (v_iso_info w) (v_extracted w) (v_fs w)
    (v_extract_bar w) (v_extract_format w) (v_removal_rows w) (v_addition_rows w) (v_modif w)
    (v_modif_log w) (v_output_iso w) (v_preseed w) (v_boot_logo w) (v_compression w) (v_recreate
    w) (v_recreate_format w) (v_jobs w) x (v_opened w) (v_delete_checked w) (v_quit w).

Definition v2_set_opened (x : list (list string)) (w : wizard2) : wizard2 :=
  Wizard2 (v_step w) (v_stack_index w) (v_next_enabled w) (v_back_enabled w) (v_back_shown w)
    (v_next_text w) (v_working_folder w) (v_iso_file w) (v_iso_info w) (v_extracted w) (v_fs w)
    (v_extract_bar w) (v_extract_format w) (v_removal_rows w) (v_addition_rows w) (v_modif w)
    (v_modif_log w) (v_output_iso w) (v_preseed w) (v_boot_logo w) (v_compression w) (v_recreate
    w) (v_recreate_format w) (v_jobs w) (v_dialogs w) x (v_delete_checked w) (v_quit w).

Definition v2_set_delete_checked (x : bool) (w : wizard2) : wizard2 :=
  Wizard2 (v_step w) (v_stack_index w) (v_next_enabled w) (v_back_enabled w) (v_back_shown w)
    (v_next_text w) (v_working_folder w) (v_iso_file w) (v_iso_info w) (v_extracted w) (v_fs w)
    (v_extract_bar w) (v_extract_format w) (v_removal_rows w) (v_addition_rows w) (v_modif w)
    (v_modif_log w) (v_output_iso w) (v_preseed w) (v_boot_logo w) (v_compression w) (v_recreate
    w) (v_recreate_format w) (v_jobs w) (v_dialogs w) (v_opened w) x (v_quit w).

Definition v2_set_quit (x : bool) (w : wizard2) : wizard2 :=
  Wizard2 (v_step w) (v_stack_index w) (v_next_enabled w) (v_back_enabled w) (v_back_shown w)
    (v_next_text w) (v_working_folder w) (v_iso_file w) (v_iso_info w) (v_extracted w) (v_fs w)
    (v_extract_bar w) (v_extract_format w) (v_removal_rows w) (v_addition_rows w) (v_modif w)
    (v_modif_log w) (v_output_iso w) (v_preseed w) (v_boot_logo w) (v_compression w) (v_recreate
    w) (v_recreate_format w) (v_jobs w) (v_dialogs w) (v_opened w) (v_delete_checked w) x.

(** ** Handlers *)

Definition v2_dialog (message : string) (w : wizard2) : wizard2 := v2_set_dialogs (v_dialogs w ++ [message])%list w.

Definition v2_start_job (j : job) (w : wizard2) : wizard2 := v2_set_jobs (v_jobs w ++ [j])%list w.

(** [stack.setCurrentIndex(i)]. *)
Definition set_current_index (i : nat) (w : wizard2) : wizard2 :=
  if (i <? stack_count)%nat then v2_set_stack_index i w else w.

(** [_extract_iso()]: as in MasterLinux.py; the buttons stay as they are. *)
Definition extract_iso_v2 (w : wizard2) : wizard2 :=
  let extracted := extracted_path (v_working_folder w) in
  let r := Runner (CmdList (extract_command (v_iso_file w) extracted)) None None false in
  v2_start_job (JExtract r)
    (v2_set_extract_format "%p% - Extracting..."
       (v2_set_extract_bar (pb_setValue 0 (v_extract_bar w))
          (v2_set_fs (fs_makedirs (v_fs w) extracted) (v2_set_extracted extracted w)))).

Section Populate.
Context `{ProcessEnv}.

(** [_fetch_installed_packages()]: the rows, or [[]] and a dialog; an
    [IndexError] of the parser and other [OSError]s escape. *)
Definition fetch_installed_packages (extracted : string) : py (list package * list string) :=
  match subprocess_run (["chroot"; extracted] ++ ["apt-get"; "list"; "--installed"])%list with
  | RunOk out => let? rows := parse_installed out in py_ret (rows, [])
  | RunCalledProcessError err => py_ret ([], ["Error fetching installed packages: " ++ err])
  | RunNotFound => py_ret ([], ["'apt' command not found in system or chroot environment."])
  | RunOtherError => py_raise OtherError
  end.

(** [_fetch_available_packages()]. *)
Definition fetch_available_packages (extracted : string) : py (list package * list string) :=
  match subprocess_run (["chroot"; extracted] ++ ["apt-get"; "list"])%list with
  | RunOk out => let? rows := parse_available out in py_ret (rows, [])
  | RunCalledProcessError err => py_ret ([], ["Error fetching available packages: " ++ err])
  | RunNotFound => py_ret ([], ["'apt' command not found in system or chroot environment."])
  | RunOtherError => py_raise OtherError
  end.

(** [_populate_package_lists_for_checklist()]: after both models are built,
    line 891 reads [self.step4_addition_package_table_view], which
    [_init_ui] never assigns. *)
Definition populate_package_lists (w : wizard2) : py wizard2 :=
  let? installed := fetch_installed_packages (v_extracted w) in
  let w1 := v2_set_removal_rows installed.1 (v2_set_dialogs (v_dialogs w ++ installed.2)%list w) in
  let? available := fetch_available_packages (v_extracted w1) in
  let w2 := v2_set_addition_rows available.1 (v2_set_dialogs (v_dialogs w1 ++ available.2)%list w1) in
  py_raise AttributeError.

(** [go_to_step(step_number)]. *)
Definition go_to_step_v2 (n : nat) (w : wizard2) : py wizard2 :=
  let w1 := v2_set_step n (set_current_index (n - 1) w) in
  let? w2 := if (n =? 3)%nat then py_ret (extract_iso_v2 w1)
             else if (n =? 4)%nat then populate_package_lists w1
             else py_ret w1 in
  py_ret (v2_set_next_text (if (n =? stack_count)%nat then "Finish" else "Next")
            (v2_set_back_enabled (1 <? n)%nat w2)).

End Populate.

(** [_extraction_finished(return_code)]. *)
Definition extraction_finished_v2 (r : runner) (rc : Z) (w : wizard2) : wizard2 :=
  let w := v2_set_jobs (remove_one (JExtract r) (v_jobs w)) w in
  if (rc =? 0)%Z then
    v2_set_next_enabled true (v2_set_back_enabled true
      (v2_set_extract_format "%p% - Extraction Complete" (v2_set_extract_bar (pb_setValue 100 (v_extract_bar w)) w)))
  else
    v2_set_back_enabled true (v2_dialog "ISO extraction failed." (v2_set_extract_format "Extraction Failed" w)).

(** [_start_iso_recreation()]. *)
Definition start_iso_recreation_v2 (w : wizard2) : wizard2 :=
  let output_iso_file := el_text (v_output_iso w) in
  if String.eqb output_iso_file "" then v2_dialog "Please specify output ISO path." w
  else
    let w1 := v2_set_compression (Some (effective_compression (v_compression w))) w in
    let w2 := v2_set_next_enabled false (v2_set_back_enabled false
                (v2_set_recreate (RecreationView "" (pb_setValue 0 (rv_bar (v_recreate w1)))) w1)) in
    let cmd := recreation_command (v_fs w2) output_iso_file (v_preseed w2) (v_extracted w2) in
    let '(fs', warnings) := install_boot_logo (v_fs w2) (v_boot_logo w2) (v_extracted w2) in
    let w3 := v2_set_dialogs (v_dialogs w2 ++ warnings)%list (v2_set_fs fs' w2) in
    v2_start_job (JRecreate (Runner (CmdList cmd) (Some (v_working_folder w3)) None false)) w3.

Section Navigation.
Context `{ProcessEnv}.

(** [_iso_recreation_finished(return_code)]. *)
Definition iso_recreation_finished_v2 (r : runner) (rc : Z) (w : wizard2) : py wizard2 :=
  let w1 := v2_set_next_enabled true (v2_set_back_enabled true
              (v2_set_jobs (remove_one (JRecreate r) (v_jobs w)) w)) in
  let w2 :=
    if (rc =? 0)%Z then v2_set_recreate (RecreationView (rv_log (v_recreate w1)) (pb_setValue 100 (rv_bar (v_recreate w1)))) w1
    else v2_dialog ("ISO re-creation failed with return code " ++ str_int rc ++ ".")
           (v2_set_recreate_format "ISO Creation Failed" w1) in
  go_to_step_v2 8 w2.

(** [delete_temp_files()]. *)
Definition delete_temp_files_v2 (w : wizard2) : wizard2 :=
  if negb (String.eqb (v_extracted w) "") && fs_exists (v_fs w) (v_extracted w)
  then v2_set_fs (fs_rmtree (v_fs w) (v_extracted w)) w
  else w.

(** [go_to_next_step()]: step 4 reads [self.modification_thread], which
    only [_execute_next_modification_command] assigns. *)
Definition go_to_next_step_v2 (w : wizard2) : py wizard2 :=
  match v_step w with
  | 1 => if String.eqb (v_working_folder w) "" then py_ret (v2_dialog "Please select working folder" w)
         else go_to_step_v2 2 w
  | 2 => go_to_step_v2 3 w
  | 3 => go_to_step_v2 4 w
  | 4 =>
      match ms_thread (v_modif w) with
      | AttrUnset => py_raise AttributeError
      | AttrThread _ =>
          py_ret (v2_dialog "Package modifications are still in progress. Please wait until they are finished." w)
      | AttrNone => go_to_step_v2 7 w
      end
  | 7 => py_ret (start_iso_recreation_v2 w)
  | 8 => py_ret (v2_set_quit true (if v_delete_checked w then delete_temp_files_v2 w else w))
  | _ => py_ret w
  end.

(** [go_to_previous_step()]. *)
Definition go_to_previous_step_v2 (w : wizard2) : py wizard2 :=
  if (1 <? v_step w)%nat && negb (v_step w =? 5)%nat && negb (v_step w =? 6)%nat then go_to_step_v2 (v_step w - 1) w
  else if (v_step w =? 7)%nat then go_to_step_v2 4 w
  else py_ret w.

End Navigation.

(** [_apply_package_changes()] with the two tables of the state, then
    [_execute_package_modifications]. *)
Definition apply_changes_v2 (form : config_form) (reply : string -> bool) (w : wizard2) : wizard2 :=
  let form := ConfigForm (cf_arch form) (cf_variant form) (cf_release form) (cf_mirror form)
                (cf_base_packages form) (cf_desktop_env form) (v_addition_rows w) (v_removal_rows w)
                (cf_hostname form) (cf_locale form) (cf_upgrade form) (cf_autoremove form) in
  match apply_package_changes form (v_extracted w) reply with
  | ApplyNothing => v2_dialog "No configuration changes selected." w
  | ApplyDeclined => w
  | ApplyExecute commands =>
      let m := v_modif w in
      v2_set_modif (execute_package_modifications commands
        (ModifState (ms_commands m) (ms_index m) (ms_bar m) (ms_label m) (v_extracted w) (ms_started m)
           (ms_thread m) (ms_warnings m) (ms_done m))) w
  end.

(** ** Events *)

Section Events.
Context `{ProcessEnv}.

(** [_populate_iso_info] of MasterLinux_v2.py. *)
Definition populate_iso_info_v2 (w : wizard2) : wizard2 :=
  match populate_iso_info report_args_v2 (v_iso_file w) with
  | InfoSet i => v2_set_iso_info i w
  | InfoDialog message => v2_dialog message w
  | InfoUnchanged => w
  end.

(** [browse_working_folder()]. *)
Definition browse_working_folder_v2 (folder_path : string) (w : wizard2) : wizard2 :=
  if String.eqb folder_path "" then w else v2_set_working_folder folder_path w.

(** [browse_iso_file()]: both line edits get the path. *)
Definition browse_iso_file_v2 (file_path : string) (w : wizard2) : wizard2 :=
  if String.eqb file_path "" then w
  else if fs_exists (v_fs w) file_path then populate_iso_info_v2 (v2_set_iso_file file_path w)
  else v2_dialog "Selected ISO file does not exist." w.

(** [browse_output_iso_location()], writing the elided label. *)
Definition browse_output_iso_location_v2 (file_path : string) (elide : string -> string) (w : wizard2)
    : wizard2 :=
  if String.eqb file_path "" then w
  else v2_set_output_iso (elided_setText elide (ensure_iso_suffix file_path) (v_output_iso w)) w.

(** [show_preseed_dialog()] with the user's inputs to the dialog. *)
Definition show_preseed_dialog_v2 (inputs : list preseed_input) (result : dialog_result) (w : wizard2)
    : wizard2 :=
  let dialog := run_preseed_dialog inputs in
  if exec_accepted result then v2_set_preseed (get_preseed_file_path dialog) w else w.

(** [show_advanced_compression_dialog()]: the dialog's constructor may raise. *)
Definition show_advanced_compression_dialog_v2 (cpu_count : option Z) (inputs : list compression_input)
    (result : dialog_result) (w : wizard2) : py wizard2 :=
  let? dialog := run_compression_dialog cpu_count inputs in
  py_ret (if exec_accepted result then v2_set_compression (Some (get_compression_options_of dialog)) w
          else w).

(** [show_kernel_selection()] of MasterLinux_v2.py ([apt-get list]). *)
Definition show_kernel_selection_v2 (inputs : list kernel_input) (result : dialog_result) (w : wizard2)
    : wizard2 :=
  match show_kernel_selection (v_fs w) "apt-get" (v_extracted w) with
  | KernelNotExtracted => v2_dialog "ISO must be extracted before selecting a kernel." w
  | KernelNoneFound => v2_dialog "No alternative kernels found." w
  | KernelDialog kernels =>
      let dialog := run_kernel_dialog kernels inputs in
      if exec_accepted result then
        match get_selected_kernel dialog with
        | inl _ => v2_dialog "An unexpected error occurred" w
        | inr _ => w
        end
      else w
  | KernelError message => v2_dialog message w
  end.

(** [_process_modification_output(output_text)]. *)
Definition process_modification_output (text : string) (w : wizard2) : wizard2 :=
  v2_set_modif_log (v_modif_log w ++ text) w.

(** [_open_output_folder()] on Linux. *)
Definition open_output_folder_v2 (w : wizard2) : wizard2 :=
  let output_dir := dirname (el_text (v_output_iso w)) in
  if fs_exists (v_fs w) output_dir then v2_set_opened (v_opened w ++ [["xdg-open"; output_dir]])%list w
  else v2_dialog "Output folder does not exist." w.

(** [_process_extraction_output(output_text)] (784-795): the parser of
    MasterLinux.py on this window's step-3 bar. *)
Definition extraction_output_v2 (text : string) (w : wizard2) : py wizard2 :=
  let? bar := process_extraction_output text (v_extract_bar w) in py_ret (v2_set_extract_bar bar w).

(** [_process_iso_recreation_output(output_text)] (1138-1151). *)
Definition iso_recreation_output_v2 (text : string) (w : wizard2) : py wizard2 :=
  let? v := process_iso_recreation_output text (v_recreate w) in py_ret (v2_set_recreate v w).

(** [browse_boot_logo()] (811-822) with the path the file dialog returned;
    the scaled preview is computed and dropped.  No button of this window
    is connected to it, so no event runs it. *)
Definition browse_boot_logo_v2 (file_path : string) (w : wizard2) : wizard2 :=
  if String.eqb file_path "" then w else v2_set_boot_logo file_path w.

End Events.

Inductive event2 : Type :=
  | V2WorkingFolder (folder_path : string)
  | V2IsoFile (file_path : string)
  | V2OutputIso (file_path : string) (elide : string -> string)
  | V2Preseed (inputs : list preseed_input) (result : dialog_result)
  | V2Compression (cpu_count : option Z) (inputs : list compression_input) (result : dialog_result)
  | V2Kernel (inputs : list kernel_input) (result : dialog_result)
  | V2DeleteChecked (checked : bool)
  | V2OpenFolder
  | V2Next
  | V2Back
  | V2Apply (form : config_form) (reply : string -> bool)
  | V2ModificationOutput (text : string)
  | V2ModificationFinished (rc : Z)
  | V2Output (j : job) (text : string)
  | V2Finished (j : job) (rc : Z).

Section Dispatch.
Context `{ProcessEnv}.

Definition wizard2_event (e : event2) (w : wizard2) : py wizard2 :=
  match e with
  | V2WorkingFolder p => py_ret (browse_working_folder_v2 p w)
  | V2IsoFile p => py_ret (browse_iso_file_v2 p w)
  | V2OutputIso p elide => py_ret (browse_output_iso_location_v2 p elide w)
  | V2Preseed ins res => py_ret (show_preseed_dialog_v2 ins res w)
  | V2Compression cpu ins res => show_advanced_compression_dialog_v2 cpu ins res w
  | V2Kernel ins res => py_ret (show_kernel_selection_v2 ins res w)
  | V2DeleteChecked b => py_ret (v2_set_delete_checked b w)
  | V2OpenFolder => py_ret (open_output_folder_v2 w)
  | V2Next => go_to_next_step_v2 w
  | V2Back => go_to_previous_step_v2 w
  | V2Apply form reply => py_ret (apply_changes_v2 form reply w)
  | V2ModificationOutput text => py_ret (process_modification_output text w)
  | V2ModificationFinished rc =>
      py_ret (v2_set_modif (handle_modification_command_finished rc (v_modif w)) w)
  | V2Output (JExtract _) text => extraction_output_v2 text w
  | V2Output (JRecreate _) text => iso_recreation_output_v2 text w
  | V2Output _ _ => py_ret w
  | V2Finished (JExtract r) rc => py_ret (extraction_finished_v2 r rc w)
  | V2Finished (JRecreate r) rc => iso_recreation_finished_v2 r rc w
  | V2Finished _ _ => py_ret w
  end.

(** The page shown is [stack.currentIndex()]: a widget is usable when its
    page is the current one.  [browse_boot_logo] is connected to no
    button in MasterLinux_v2.py. *)
(** The group boxes [_init_ui] puts on the pages of [self.stack], in the
    order of [addWidget] (563-569). *)
Inductive group2 : Type := G2Step1 | G2IsoFile | G2Step3 | G2Step4 | G2Step7 | G2Step8.

Definition stack_page (g : group2) : nat :=
  match g with
  | G2Step1 => 0 | G2IsoFile => 1 | G2Step3 => 2 | G2Step4 => 3 | G2Step7 => 4 | G2Step8 => 5
  end.

(** The group box whose layout holds the event's widget (417-561); the
    navigation buttons and the threads' signals are in none. *)
Definition event2_group (e : event2) : option group2 :=
  match e with
  | V2WorkingFolder _ => Some G2Step1
  | V2IsoFile _ => Some G2IsoFile
  | V2Apply _ _ => Some G2Step4
  | V2OutputIso _ _ | V2Preseed _ _ | V2Compression _ _ _ | V2Kernel _ _ => Some G2Step7
  | V2DeleteChecked _ | V2OpenFolder => Some G2Step8
  | _ => None
  end.

(** The widget's own state: the Back button hidden by [_init_ui], the
    buttons' enabled flags, the threads still running. *)
Definition v2_widget_enabled (e : event2) (w : wizard2) : bool :=
  match e with
  | V2Next => v_next_enabled w
  | V2Back => v_back_shown w && v_back_enabled w
  | V2ModificationOutput _ | V2ModificationFinished _ =>
      if ms_thread (v_modif w) is AttrThread _ then true else false
  | V2Output j _ | V2Finished j _ => bool_decide (j ∈ v_jobs w)
  | _ => true
  end.

(** When the event can happen: its page is the stack's current one and
    its widget usable. *)
Definition event2_enabled (e : event2) (w : wizard2) : bool :=
  match event2_group e with Some g => (v_stack_index w =? stack_page g)%nat | None => true end
  && v2_widget_enabled e w.

Definition vstep (w w' : wizard2) : Prop :=
  exists e, event2_enabled e w = true /\ wizard2_event e w = inr w'.

End Dispatch.

(** The application after [__init__]: the Back button hidden. *)
Definition wizard2_init (fs : fsys) : wizard2 := {|
  v_step := 1; v_stack_index := 0; v_next_enabled := true; v_back_enabled := true;
  v_back_shown := false; v_next_text := "Next";
  v_working_folder := ""; v_iso_file := ""; v_iso_info := IsoInfo "" "" ""; v_extracted := "";
  v_fs := fs; v_extract_bar := ProgressBar 0 100 0; v_extract_format := "";
  v_removal_rows := []; v_addition_rows := [];
  v_modif := ModifState [] 0 pb_new "" "" [] AttrUnset [] false; v_modif_log := "";
  v_output_iso := elided_label_new; v_preseed := ""; v_boot_logo := ""; v_compression := None;
  v_recreate := RecreationView "" (ProgressBar 0 100 0); v_recreate_format := "";
  v_jobs := []; v_dialogs := []; v_opened := []; v_delete_checked := false; v_quit := false |}.

(** Run events in order; [None] when one is not enabled. *)
Fixpoint run_events2 `{ProcessEnv} (es : list event2) (w : wizard2) : option (py wizard2) :=
  match es with
  | [] => Some (inr w)
  | e :: es' =>
      if event2_enabled e w then
        match wizard2_event e w with
        | inr w' => run_events2 es' w'
        | inl exc => Some (inl exc)
        end
      else None
  end.

Lemma run_events2_rtc `{ProcessEnv} (es : list event2) (w w' : wizard2) :
  run_events2 es w = Some (inr w') -> rtc vstep w w'.
Proof.
  revert w. induction es as [|e es IH]; simpl; intros w Hr; [injection Hr as <-; constructor |].
  destruct (event2_enabled e w) eqn:He; [| discriminate].
  destruct (wizard2_event e w) as [exc | w1] eqn:Ee; [discriminate |].
  eapply rtc_l; [exists e; split; eassumption | by apply IH].
Qed.

(** ** Properties *)

Section V2Theorems.
Context `{ProcessEnv}.

(** C11: Step 4 of MasterLinux_v2.py always crashes: entering it raises
    (an [AttributeError] on the table view [_init_ui] never creates, or an
    earlier error of the listing), and Next on it before any configuration
    batch raises [AttributeError] on [self.modification_thread]. *)
Theorem v2_step4_crashes (w : wizard2) :
  (exists e, go_to_step_v2 4 w = inl e)
  /\ (v_step w = 4%nat -> ms_thread (v_modif w) = AttrUnset -> go_to_next_step_v2 w = inl AttributeError).
Proof.
  split.
  - unfold go_to_step_v2, populate_package_lists. simpl.
    destruct (fetch_installed_packages _) as [e | x]; simpl; [eauto |].
    destruct (fetch_available_packages _) as [e | y]; simpl; eauto.
  - intros Hs Ht. unfold go_to_next_step_v2. by rewrite Hs, Ht.
Qed.

(** C37: The steps after the batch are broken: Back on step 7 goes to step
    6 (the branch back to step 4 is dead), step 6 is a dead end where Next
    and Back do nothing, and entering step 7 or 8 leaves the previous page
    on screen, since [setCurrentIndex] gets 6 or 7 for a stack of six
    pages; the Next button never reads "Finish" there. *)
Theorem v2_late_steps (w : wizard2) :
  (v_step w = 7%nat -> go_to_previous_step_v2 w = go_to_step_v2 6 w)
  /\ (v_step w = 6%nat -> go_to_next_step_v2 w = inr w /\ go_to_previous_step_v2 w = inr w)
  /\ (forall n, (n = 7 \/ n = 8)%nat ->
        exists w', go_to_step_v2 n w = inr w' /\ v_stack_index w' = v_stack_index w /\ v_next_text w' = "Next").
Proof.
  split_and!.
  - intros Hs. unfold go_to_previous_step_v2. by rewrite Hs.
  - intros Hs. unfold go_to_next_step_v2, go_to_previous_step_v2. by rewrite Hs.
  - intros n [-> | ->]; eexists; split_and!; reflexivity.
Qed.

(** The invariant of the reachable states. *)
Definition v2_inv (w : wizard2) : Prop :=
  (1 <= v_step w <= 3)%nat /\ v_stack_index w = (v_step w - 1)%nat /\ v_back_shown w = false
  /\ ms_thread (v_modif w) = AttrUnset /\ Forall (fun j => if j is JExtract _ then True else False) (v_jobs w).

Lemma v2_inv_go (n : nat) (w w' : wizard2) :
  v2_inv w -> (n = 2 \/ n = 3)%nat -> go_to_step_v2 n w = inr w' -> v2_inv w'.
Proof.
  intros (_ & _ & Hb & Hm & Hj) [-> | ->]; simpl; intros [= <-]; unfold v2_inv; simpl; split_and!; auto; try lia.
  unfold v2_start_job. simpl. apply Forall_app_2; [exact Hj | repeat constructor].
Qed.

Lemma v2_inv_step (e : event2) (w w' : wizard2) :
  v2_inv w -> event2_enabled e w = true -> wizard2_event e w = inr w' -> v2_inv w'.
Proof.
  intros Hi He Hw. pose proof Hi as (Hs & Hx & Hb & Hm & Hj).
  destruct e as [p|p|p el|ins res|cpu ins res|ins res|b| | | |f rp|txt|rc|[r|r|r|r] t|[r|r|r|r] rc];
    unfold event2_enabled, event2_group, stack_page, v2_widget_enabled in He; simpl in He, Hw;
    (* the widgets of pages 4 to 6 are never on the current page *)
    try (rewrite Hx, ?andb_true_r in He; apply Nat.eqb_eq in He; lia);
    (* no configuration thread ever runs *)
    try (rewrite Hm in He; discriminate).
  - injection Hw as <-. unfold browse_working_folder_v2. case_if_match; exact Hi.
  - injection Hw as <-. unfold browse_iso_file_v2. case_if_match; try exact Hi.
    unfold populate_iso_info_v2, v2_dialog. case_if_match; exact Hi.
  - unfold go_to_next_step_v2 in Hw.
    destruct (v_step w) as [|[|[|[|n]]]] eqn:Es; try lia.
    + destruct (String.eqb _ _); [injection Hw as <-; exact Hi |].
      exact (v2_inv_go 2 w w' Hi (or_introl eq_refl) Hw).
    + exact (v2_inv_go 3 w w' Hi (or_intror eq_refl) Hw).
    + unfold go_to_step_v2, populate_package_lists in Hw. simpl in Hw.
      destruct (fetch_installed_packages _); [discriminate |]. simpl in Hw.
      destruct (fetch_available_packages _); discriminate.
  - rewrite Hb in He. discriminate.
  - unfold extraction_output_v2 in Hw.
    destruct (process_extraction_output _ _); [discriminate |]. injection Hw as <-. exact Hi.
  - injection Hw as <-. exact Hi.
  - injection Hw as <-. exact Hi.
  - apply bool_decide_eq_true in He. eapply Forall_forall in Hj; [| exact He]. done.
  - injection Hw as <-. unfold v2_inv, extraction_finished_v2, v2_dialog. simpl.
    assert (Hj' : Forall (fun j => if j is JExtract _ then True else False) (remove_one (JExtract r) (v_jobs w))).
    { clear -Hj. induction Hj as [|x l Hx Hl IH]; simpl; [constructor |]. case_decide; [done |]. by constructor. }
    case_if_match; simpl; split_and!; auto; lia.
  - injection Hw as <-. exact Hi.
  - injection Hw as <-. exact Hi.
  - apply bool_decide_eq_true in He. eapply Forall_forall in Hj; [| exact He]. done.
Qed.

(** C12: MasterLinux_v2.py never gets past step 3: in every state reached
    from its start the step is 1, 2 or 3, the page shown is the step's,
    the Back button is hidden (it is never shown), and no configuration
    batch or re-creation has started. *)
Theorem v2_reachable_before_step4 (fs : fsys) (w : wizard2) :
  rtc vstep (wizard2_init fs) w ->
  (1 <= v_step w <= 3)%nat /\ v_back_shown w = false /\ ms_thread (v_modif w) = AttrUnset.
Proof.
  intros Hrtc. cut (v2_inv w); [intros (? & _ & ? & ? & _); auto |].
  remember (wizard2_init fs) as w0 eqn:E0.
  assert (H0 : v2_inv w0) by (subst; unfold v2_inv; simpl; split_and!; auto; lia). clear E0.
  induction Hrtc as [x | x y z (e & He & Hs) _ IH]; [exact H0 |].
  exact (IH (v2_inv_step e x y H0 He Hs)).
Qed.

End V2Theorems.

(** ** A session *)

(** Folder, Next, ISO, Next: the extraction of step 3 runs (in [demo_env]
    nothing but [chroot] exists). *)
Definition trace2_to_extraction : list event2 :=
  [V2WorkingFolder "/work"; V2Next; V2IsoFile demo_iso; V2Next].

Definition w2_extracting : wizard2 :=
  match @run_events2 demo_env trace2_to_extraction (wizard2_init demo_fs) with
  | Some (inr w) => w
  | _ => wizard2_init demo_fs
  end.

Lemma trace2_runs : @run_events2 demo_env trace2_to_extraction (wizard2_init demo_fs) = Some (inr w2_extracting).
Proof. vm_compute. reflexivity. Qed.

Lemma v2_reachable_before_step4_witness :
  @rtc _ (@vstep demo_env) (wizard2_init demo_fs) w2_extracting /\ v_step w2_extracting = 3%nat
  /\ (1 <= v_step w2_extracting <= 3)%nat /\ v_back_shown w2_extracting = false.
Proof.
  assert (H : @rtc _ (@vstep demo_env) (wizard2_init demo_fs) w2_extracting)
    by exact (run_events2_rtc _ _ _ trace2_runs).
  destruct (@v2_reachable_before_step4 demo_env demo_fs w2_extracting H) as (H1 & H2 & _).
  split; [exact H | split; [vm_compute; reflexivity | split; [exact H1 | exact H2]]].
Defined.

Lemma v2_step4_crashes_witness :
  @go_to_next_step_v2 demo_env (v2_set_step 4 w2_extracting) = inl AttributeError.
Proof.
  destruct (@v2_step4_crashes demo_env (v2_set_step 4 w2_extracting)) as [_ H].
  apply H; [reflexivity | vm_compute; reflexivity].
Defined.

Lemma v2_late_steps_witness :
  @go_to_previous_step_v2 demo_env (v2_set_step 7 w2_extracting)
  = @go_to_step_v2 demo_env 6 (v2_set_step 7 w2_extracting).
Proof.
  destruct (@v2_late_steps demo_env (v2_set_step 7 w2_extracting)) as [H _].
  apply H. reflexivity.
Defined.
